(** * YOLOv8 grid-search notebook: a shallow embedding and its properties

    The development embeds the code cells of [yolov8-train-wandb.ipynb]
    as programs of a small state-and-exception monad.  Calls into
    third-party code (ultralytics, wandb, roboflow, dotenv, torch, pip,
    IPython's magics) are recorded in a trace; whether such a call
    raises, and what it does to the directory tree, is decided by an
    arbitrary [World], and so is every refusal of the operating system.
    Third-party code is taken to leave the working directory and
    [os.environ] alone, [load_dotenv] and the [%cd] magic apart.  The
    standard-library pieces the notebook relies on ([pathlib], [str] on
    integers, [os.getenv], [Path.mkdir]) are modelled after CPython 3.10,
    the kernel version the notebook declares.

    The cells are run once, top to bottom, and the first exception that
    no [except] clause catches stops the run.  Imports of the standard
    library ([os], [sys], [subprocess], [importlib], [pathlib]) cannot
    fail and are not recorded. *)

From Stdlib Require Import ZArith List String Ascii QArith.
From Stdlib Require Import DecimalString DecimalZ DecimalPos.
From stdpp Require Import base gmap strings list.

Open Scope string_scope.
Open Scope list_scope.

(* ===================================================================== *)
(** * Python strings and integers *)
(* ===================================================================== *)

Module Py.

(** [str(z)] for a Python [int]: decimal digits, a leading minus sign for
    negative numbers, no leading zeros.  This is what an f-string
    placeholder [{epoch}] expands to. *)
Definition str_int (z : Z) : string :=
  NilZero.string_of_int (Z.to_int z).

(** Truthiness of a [str]: only the empty string is falsy. *)
Definition truthy_str (s : string) : bool :=
  match s with
  | EmptyString => false
  | String _ _ => true
  end.

(** Truthiness of an [Optional[str]], the type of [os.getenv]'s result:
    [None] and [""] are falsy. *)
Definition truthy_opt (o : option string) : bool :=
  match o with
  | None => false
  | Some s => truthy_str s
  end.

(** [a or b] on an optional string and a string default. *)
Definition or_default (o : option string) (d : string) : string :=
  match o with
  | Some s => if truthy_str s then s else d
  | None => d
  end.

(** [s.split("/")]: always at least one piece. *)
Fixpoint split_slash (s : string) : list string :=
  match s with
  | EmptyString => [EmptyString]
  | String c s' =>
      if Ascii.eqb c "/" then EmptyString :: split_slash s'
      else match split_slash s' with
           | [] => [String c EmptyString]
           | x :: xs => String c x :: xs
           end
  end.

(** [s.lstrip("/")] together with the number of slashes removed. *)
Fixpoint lstrip_slash (s : string) : nat * string :=
  match s with
  | String c s' =>
      if Ascii.eqb c "/" then
        let '(n, r) := lstrip_slash s' in (S n, r)
      else (O, s)
  | EmptyString => (O, s)
  end.

(** Does the character [c] occur in [s]? *)
Fixpoint occurs (c : ascii) (s : string) : bool :=
  match s with
  | EmptyString => false
  | String d s' => Ascii.eqb d c || occurs c s'
  end.

End Py.

(* ===================================================================== *)
(** * pathlib (PurePosixPath) *)
(* ===================================================================== *)

(** A parsed path: the root (["" ], ["/"] or ["//"]) and the components
    after it.  CPython keeps the anchor as the first element of
    [_parts]; here it is kept apart. *)
Record Path := mkPath { root : string; parts : list string }.

#[global] Instance Path_eq_dec : EqDecision Path.
Proof. solve_decision. Defined.

#[global] Instance Path_countable : Countable Path.
Proof.
  apply (inj_countable' (fun p => (root p, parts p))
                        (fun x => mkPath (fst x) (snd x))).
  intros []. reflexivity.
Defined.

Module Pathlib.

(** [_PosixFlavour.splitroot]: exactly two leading slashes give the root
    ["//"], any other positive number gives ["/"]. *)
Definition splitroot (part : string) : string * string :=
  match Py.lstrip_slash part with
  | (O, rel) => ("", rel)
  | (2%nat, rel) => ("//", rel)
  | (_, rel) => ("/", rel)
  end.

(** The components kept by [parse_parts]: the pieces between slashes that
    are neither empty nor ["."]. *)
Definition keep_component (x : string) : bool :=
  negb (String.eqb x "") && negb (String.eqb x ".").

Definition components (rel : string) : list string :=
  List.filter keep_component (Py.split_slash rel).

(** [PurePosixPath(s)]. *)
Definition of_string (s : string) : Path :=
  let '(r, rel) := splitroot s in
  mkPath r (components rel).

(** [p / s] ([join_parsed_parts]): a rooted right operand replaces the
    left one, otherwise its components are appended. *)
Definition div (p : Path) (s : string) : Path :=
  let q := of_string s in
  if Py.truthy_str (root q) then q
  else mkPath (root p) (parts p ++ parts q).

(** [p.parent]: a path with no component is its own parent. *)
Definition parent (p : Path) : Path :=
  match parts p with
  | [] => p
  | _ :: _ => mkPath (root p) (removelast (parts p))
  end.

(** [str(p)]; the empty relative path prints as ["."]. *)
Definition str (p : Path) : string :=
  match root p, parts p with
  | EmptyString, [] => "."
  | r, ps => r +:+ String.concat "/" ps
  end.

(** The root directory of the tree [p] lives in. *)
Definition anchor (p : Path) : Path := mkPath (root p) [].

End Pathlib.

Declare Scope path_scope.
Delimit Scope path_scope with path.
Bind Scope path_scope with Path.
Infix "/" := Pathlib.div : path_scope.

(* ===================================================================== *)
(** * Observable events, exceptions and the world *)
(* ===================================================================== *)

(** A value stored in the [config] dictionary handed to [wandb.init]. *)
Inductive pyval :=
| PyInt (z : Z)
| PyStr (s : string).

(** Keyword arguments of [wandb.init]. *)
Module Wandb.
Record init_args := mkInit {
  project : string;
  entity : string;
  name : string;
  config : list (string * pyval);
  init_timeout : Z;
  dir : string
}.
End Wandb.

(** Keyword arguments of [model.train]; [weight_decay] holds the decimal
    literal of the source as a fraction. *)
Module Yolo.
Record train_args := mkTrain {
  data : string;
  epochs : Z;
  batch : Z;
  optimizer : string;
  weight_decay : Q;
  warmup_epochs : Z;
  save_dir : string;
  device : string
}.
End Yolo.

(** What the notebook does to the outside, in program order. *)
Inductive event :=
| Shell (cmd : string)
| MagicCd (dir : string)
| Print (line : string)
| ImportModule (name : string)
| CheckCall (argv : list string)
| UltralyticsChecks
| DisplayImage (filename : string) (height : Z)
| LoadDotenv
| Chdir (dir : Path)
| PathMkdir (dir : Path)
| RoboflowInit (api_key : option string)
| RoboflowWorkspace (name : string)
| RoboflowProject (name : string)
| RoboflowVersion (number : Z)
| RoboflowDownload (format : string)
| WandbLogin
| WandbInit (args : Wandb.init_args)
| YoloLoad (weights : string)
| CudaIsAvailable (answer : bool)
| YoloTrain (args : Yolo.train_args)
| WandbFinish.

Inductive exn :=
| ValueError (msg : string)
| ImportError (name : string)
| FileExistsError (p : Path)
| FileNotFoundError (p : Path)
| OSError (errno : string) (p : Path)
| ExternalError (what : string).

(** [isinstance(e, ImportError)], the filter of the only [except]
    clause of the notebook. *)
Definition is_ImportError (e : exn) : bool :=
  match e with
  | ImportError _ => true
  | _ => false
  end.

(** [isinstance(e, FileNotFoundError)] and [isinstance(e, OSError)], the
    two clauses of [Path.mkdir]. *)
Definition is_FileNotFoundError (e : exn) : bool :=
  match e with
  | FileNotFoundError _ => true
  | _ => false
  end.

Definition is_OSError (e : exn) : bool :=
  match e with
  | FileExistsError _ | FileNotFoundError _ | OSError _ _ => true
  | _ => false
  end.

(** Everything the notebook cannot control.  The oracles see the history
    of events so far, so a call may succeed once and fail later.
    - [ext_fail h e]: the exception raised by the third-party call [e]
      (IPython's [%cd] magic included: it raises on an argument it cannot
      parse);
    - [ext_dirs h e]: what that call does to the set of directories;
    - [os_fail h p]: an [errno] (other than [ENOENT] and [EEXIST]) with
      which the operating system refuses a system call on [p]: [chdir],
      [stat], or a [mkdir] that would otherwise create [p];
    - [magic_target h arg]: the directory IPython's [%cd] resolves its
      argument to (option parsing, quoting, bookmarks, [~] and the
      directory history are IPython's), [None] when it does not change
      directory at all;
    - [cuda h]: the answer of [torch.cuda.is_available()];
    - [download_location h]: where the dataset provider says it put the
      dataset;
    - [dotenv_file]: the bindings the [.env] file resolves to (empty
      when there is none);
    - [sys_executable], [torch_version]: the two strings read from the
      interpreter and from torch. *)
Record World := mkWorld {
  ext_fail : list event -> event -> option exn;
  ext_dirs : list event -> event -> gset Path -> gset Path;
  os_fail : list event -> Path -> option string;
  magic_target : list event -> string -> option Path;
  cuda : list event -> bool;
  download_location : list event -> string;
  dotenv_file : gmap string string;
  sys_executable : string;
  torch_version : string
}.

(** The mutable part: the trace, the directories that exist, the process
    working directory and [os.environ]. *)
Record State := mkState {
  trace : list event;
  dirs : gset Path;
  cwd : Path;
  environ : gmap string string
}.

Inductive result (A : Type) :=
| Ok (a : A)
| Raise (e : exn).
Arguments Ok {A} a.
Arguments Raise {A} e.

(** A computation: from a state to the state reached and either a value
    or the exception that left the computation. *)
Definition M (A : Type) : Type := State -> State * result A.

Definition ret {A} (a : A) : M A := fun s => (s, Ok a).

Definition raise {A} (e : exn) : M A := fun s => (s, Raise e).

Definition bind {A B} (m : M A) (k : A -> M B) : M B :=
  fun s =>
    match m s with
    | (s', Ok a) => k a s'
    | (s', Raise e) => (s', Raise e)
    end.

(** [try: m  except <filter>: handler]; exceptions the filter rejects
    pass through. *)
Definition try_except {A} (m : M A) (filter : exn -> bool)
    (handler : exn -> M A) : M A :=
  fun s =>
    match m s with
    | (s', Ok a) => (s', Ok a)
    | (s', Raise e) => if filter e then handler e s' else (s', Raise e)
    end.

Declare Scope monad_scope.
Delimit Scope monad_scope with monad.
Notation "x <- m ;; k" := (bind m (fun x => k))
  (at level 100, m at next level, right associativity) : monad_scope.
Notation "m ;; k" := (bind m (fun _ => k))
  (at level 100, right associativity) : monad_scope.
Open Scope monad_scope.

(** [for x in xs: body(x)]; an exception leaves the loop. *)
Fixpoint for_each {A} (xs : list A) (body : A -> M unit) : M unit :=
  match xs with
  | [] => ret tt
  | x :: xs' => body x ;; for_each xs' body
  end.

Definition get_state : M State := fun s => (s, Ok s).

Definition record (e : event) (s : State) : State :=
  mkState (trace s ++ [e]) (dirs s) (cwd s) (environ s).

(** An action that cannot raise: it is only recorded. *)
Definition log (e : event) : M unit := fun s => (record e s, Ok tt).

(* ===================================================================== *)
(** * The notebook *)
(* ===================================================================== *)

(** The module-level names bound by the project-directory cell and read
    by the later cells. *)
Record Globals := mkGlobals {
  BASE : Path;
  HOME : Path;
  DATASETS_PATH : Path
}.

Section Notebook.

Variable w : World.

(** ** Primitives *)

(** A call into a third-party library: recorded, then the world decides
    what happens to the directory tree and whether the call raises. *)
Definition call (e : event) : M unit :=
  fun s =>
    let s' := mkState (trace s ++ [e]) (ext_dirs w (trace s) e (dirs s))
                      (cwd s) (environ s) in
    match ext_fail w (trace s) e with
    | Some x => (s', Raise x)
    | None => (s', Ok tt)
    end.

(** [!cmd]: IPython runs the command in a subshell and never raises,
    whatever the exit status. *)
Definition shell (cmd : string) : M unit :=
  fun s =>
    (mkState (trace s ++ [Shell cmd])
             (ext_dirs w (trace s) (Shell cmd) (dirs s)) (cwd s) (environ s),
     Ok tt).

(** [torch.cuda.is_available()]. *)
Definition cuda_is_available : M bool :=
  fun s =>
    let b := cuda w (trace s) in
    (record (CudaIsAvailable b) s, Ok b).

(** [os.getenv(key)]. *)
Definition os_getenv (key : string) : M (option string) :=
  fun s => (s, Ok (environ s !! key)).

(** [load_dotenv()] with its default [override=False]: a variable that
    is already in [os.environ] keeps its value. *)
Definition load_dotenv : M unit :=
  call LoadDotenv ;;
  fun s =>
    (mkState (trace s) (dirs s) (cwd s) (environ s ∪ dotenv_file w), Ok tt).

(** [Path.cwd()]. *)
Definition path_cwd : M Path := fun s => (s, Ok (cwd s)).

(** [pathlib._ignore_error]: the errors of [stat] that [is_dir] answers
    with [False]. *)
Definition ignore_error (errno : string) : bool :=
  bool_decide (errno ∈ ["ENOENT"; "ENOTDIR"; "EBADF"; "ELOOP"]).

(** [p.is_dir()]:
<<
    try: return S_ISDIR(self.stat().st_mode)
    except OSError as e:
        if not _ignore_error(e): raise
        return False
>> *)
Definition is_dir (p : Path) : M bool :=
  fun s =>
    match os_fail w (trace s) p with
    | Some errno =>
        if ignore_error errno then (s, Ok false)
        else (s, Raise (OSError errno p))
    | None => (s, Ok (bool_decide (p ∈ dirs s)))
    end.

(** The [mkdir] system call: [EEXIST] when the path is there, [ENOENT]
    when the parent is missing; otherwise the directory is created,
    unless the operating system refuses. *)
Definition os_mkdir (p : Path) : M unit :=
  fun s =>
    if bool_decide (p ∈ dirs s) then (s, Raise (FileExistsError p))
    else if bool_decide (Pathlib.parent p ∈ dirs s) then
      match os_fail w (trace s) p with
      | Some errno => (s, Raise (OSError errno p))
      | None =>
          (mkState (trace s) ({[p]} ∪ dirs s) (cwd s) (environ s), Ok tt)
      end
    else (s, Raise (FileNotFoundError p)).

(** [os.chdir(p)]. *)
Definition os_chdir (p : Path) : M unit :=
  log (Chdir p) ;;
  fun s =>
    match os_fail w (trace s) p with
    | Some errno => (s, Raise (OSError errno p))
    | None =>
        if bool_decide (p ∈ dirs s) then
          (mkState (trace s) (dirs s) p (environ s), Ok tt)
        else (s, Raise (FileNotFoundError p))
    end.

(** [%cd arg]: IPython parses the argument, which may raise, and
    resolves it to a directory; the magic then calls [os.chdir] and
    reports an [OSError] on the console instead of raising it. *)
Definition magic_cd (arg : string) : M unit :=
  call (MagicCd arg) ;;
  fun s =>
    match magic_target w (trace s) arg with
    | None => (s, Ok tt)
    | Some p =>
        match os_fail w (trace s) p with
        | Some _ => (s, Ok tt)
        | None =>
            if bool_decide (p ∈ dirs s) then
              (mkState (trace s) (dirs s) p (environ s), Ok tt)
            else (s, Ok tt)
        end
    end.

(** [Path.mkdir(parents=False, exist_ok=...)]:
<<
    try: os.mkdir(self)
    except FileNotFoundError: raise
    except OSError:
        if not exist_ok or not self.is_dir(): raise
>> *)
Definition mkdir_flat (self : Path) (exist_ok : bool) : M unit :=
  try_except (os_mkdir self) is_OSError
    (fun e =>
       if is_FileNotFoundError e then raise e
       else if negb exist_ok then raise e
       else
         d <- is_dir self ;;
         if negb d then raise e else ret tt).

(** [Path.mkdir(parents, exist_ok)], by recursion on the components of
    the path taken from the last one ([rps] is [reversed(self.parts)]):
<<
    try: os.mkdir(self)
    except FileNotFoundError:
        if not parents or self.parent == self: raise
        self.parent.mkdir(parents=True, exist_ok=True)
        self.mkdir(mode, parents=False, exist_ok=exist_ok)
    except OSError:
        if not exist_ok or not self.is_dir(): raise
>> *)
Fixpoint mkdir_from (r : string) (rps : list string)
    (parents exist_ok : bool) : M unit :=
  let self := mkPath r (rev rps) in
  try_except (os_mkdir self) is_OSError
    (fun e =>
       if is_FileNotFoundError e then
         match rps with
         | [] => raise e
         | _ :: rps' =>
             if negb parents then raise e
             else
               mkdir_from r rps' true true ;;
               mkdir_flat self exist_ok
         end
       else if negb exist_ok then raise e
       else
         d <- is_dir self ;;
         if negb d then raise e else ret tt).

(** [p.mkdir(parents=..., exist_ok=...)]. *)
Definition path_mkdir (p : Path) (parents exist_ok : bool) : M unit :=
  log (PathMkdir p) ;;
  mkdir_from (root p) (rev (parts p)) parents exist_ok.

(** ** Cell: check GPU availability *)

Definition cell_gpu_check : M unit := shell "nvidia-smi".

(** ** Cell: initialize project directory *)

Definition cell_project_dir : M Globals :=
  c <- path_cwd ;;
  let BASE := Pathlib.parent c in
  let HOME := (BASE / "yolov8")%path in
  let DATASETS_PATH := (HOME / "datasets")%path in
  path_mkdir DATASETS_PATH true true ;;
  log (Print ("📁 Project directory: " +:+ Pathlib.str HOME)) ;;
  ret (mkGlobals BASE HOME DATASETS_PATH).

(** ** Cell: utility to install required dependencies *)

Definition ensure_package_installed (package_name : string)
    (import_name : option string) (version_spec : string) : M unit :=
  let import_name := Py.or_default import_name package_name in
  try_except
    (call (ImportModule import_name) ;;
     log (Print ("✅ " +:+ import_name +:+ " is already installed")))
    is_ImportError
    (fun _ =>
       log (Print ("❌ " +:+ import_name +:+ " not found. Installing...")) ;;
       call (CheckCall [sys_executable w; "-m"; "pip"; "install";
                        package_name +:+ version_spec]) ;;
       log (Print ("✅ " +:+ package_name +:+ " installed"))).

(** ** Cell: install and verify YOLOv8 *)

Definition cell_install_yolo : M unit :=
  ensure_package_installed "ultralytics" None ">=8,<9" ;;
  call (ImportModule "ultralytics") ;;
  call (ImportModule "ultralytics") ;;
  call UltralyticsChecks.

(** ** Cell: optional test of an initial inference *)

Definition cell_test_inference (g : Globals) : M unit :=
  call (ImportModule "IPython.display") ;;
  magic_cd (Pathlib.str (HOME g)) ;;
  shell ("yolo task=detect mode=predict model=yolov8n.pt conf=0.25 source="
         +:+ Pathlib.str (BASE g) +:+ "/img/test.jpg save=True") ;;
  call (DisplayImage "runs/detect/predict/test.jpg" 600).

(** ** Cell: Roboflow API key and environment variables *)

Definition api_key_error : exn :=
  ValueError "❌ API key not found. Ensure .env file contains ROBOFLOW_API_KEY.".

Definition cell_roboflow_env : M (option string) :=
  ensure_package_installed "python-dotenv" (Some "dotenv") "" ;;
  ensure_package_installed "roboflow" None "" ;;
  call (ImportModule "dotenv") ;;
  call (ImportModule "roboflow") ;;
  load_dotenv ;;
  api_key <- os_getenv "ROBOFLOW_API_KEY" ;;
  if negb (Py.truthy_opt api_key) then raise api_key_error
  else
    log (Print "✅ API key loaded successfully") ;;
    ret api_key.

(** ** Cell: download the dataset from Roboflow *)

(** The cell binds [rf], [project], [version] and [dataset]; only the
    location of [dataset] is kept here, which is all a later cell could
    read from it. *)
Definition cell_download (g : Globals) (api_key : option string) : M string :=
  os_chdir (DATASETS_PATH g) ;;
  call (RoboflowInit api_key) ;;
  call (RoboflowWorkspace "i-wayan-agus-darmawan-siflb") ;;
  call (RoboflowProject "ta-o2kfq") ;;
  call (RoboflowVersion 5) ;;
  call (RoboflowDownload "yolov8") ;;
  s <- get_state ;;
  ret (download_location w (trace s)).

(** ** Cell: set up Weights & Biases *)

Definition cell_wandb_setup : M unit :=
  ensure_package_installed "wandb" None "" ;;
  ensure_package_installed "torch" None "" ;;
  call (ImportModule "wandb") ;;
  call (ImportModule "torch") ;;
  call WandbLogin ;;
  log (Print "✅ WandB login successful") ;;
  log (Print ("✅ Torch version: " +:+ torch_version w)).

(** ** Cell: train function with W&B logging *)

(** [f"epoch_{epoch}_batch_{batch_size}_optimizer_{optimizer}"]. *)
Definition experiment_name (epoch batch_size : Z) (optimizer : string) : string :=
  "epoch_" +:+ Py.str_int epoch +:+ "_batch_" +:+ Py.str_int batch_size
  +:+ "_optimizer_" +:+ optimizer.

(** [HOME / f"experiments/yolov8{version}" / experiment_name]. *)
Definition experiment_path (home : Path) (version : string)
    (epoch batch_size : Z) (optimizer : string) : Path :=
  let base_dir := (home / ("experiments/yolov8" +:+ version))%path in
  (base_dir / experiment_name epoch batch_size optimizer)%path.

(** [f"yolov8{version}-{experiment_name}"], the [name] of the run. *)
Definition run_name (version : string) (epoch batch_size : Z)
    (optimizer : string) : string :=
  "yolov8" +:+ version +:+ "-" +:+ experiment_name epoch batch_size optimizer.

Definition wandb_args (g : Globals) (version : string) (epoch batch_size : Z)
    (optimizer : string) : Wandb.init_args :=
  {| Wandb.project := "elec-thermal-detection";
     Wandb.entity := "dar-ta";
     Wandb.name := run_name version epoch batch_size optimizer;
     Wandb.config := [("epochs", PyInt epoch);
                      ("batch_size", PyInt batch_size);
                      ("optimizer", PyStr optimizer);
                      ("version", PyStr version)];
     Wandb.init_timeout := 300;
     Wandb.dir := Pathlib.str (experiment_path (HOME g) version epoch batch_size
                                            optimizer) |}.

(** ["cuda" if torch.cuda.is_available() else "cpu"]. *)
Definition device_for (available : bool) : string :=
  if available then "cuda" else "cpu".

Definition yolo_train_args (g : Globals) (version : string)
    (epoch batch_size : Z) (optimizer dataset_location : string)
    (available : bool) : Yolo.train_args :=
  {| Yolo.data := dataset_location +:+ "/data.yaml";
     Yolo.epochs := epoch;
     Yolo.batch := batch_size;
     Yolo.optimizer := optimizer;
     Yolo.weight_decay := 5 # 10000;
     Yolo.warmup_epochs := 3;
     Yolo.save_dir := Pathlib.str (experiment_path (HOME g) version epoch
                                                   batch_size optimizer);
     Yolo.device := device_for available |}.

Definition train_yolo_with_wandb (g : Globals) (version : string)
    (epoch batch_size : Z) (optimizer dataset_location : string) : M unit :=
  os_chdir (DATASETS_PATH g) ;;
  let experiment_path :=
    experiment_path (HOME g) version epoch batch_size optimizer in
  path_mkdir experiment_path true true ;;
  call (WandbInit (wandb_args g version epoch batch_size optimizer)) ;;
  call (YoloLoad ("yolov8" +:+ version +:+ ".pt")) ;;
  available <- cuda_is_available ;;
  call (YoloTrain (yolo_train_args g version epoch batch_size optimizer
                                   dataset_location available)) ;;
  call WandbFinish.

(** ** Cell: run the grid search *)

Definition versions : list string := ["n"; "s"; "m"; "l"; "x"].
Definition epochs : list Z := [50; 100; 150; 200]%Z.
Definition batch_sizes : list Z := [2; 4; 8; 16]%Z.
Definition optimizers : list string := ["Adam"; "SGD"].

(** [str(DATASETS_PATH / "TA-5")]. *)
Definition grid_dataset_location (g : Globals) : string :=
  Pathlib.str (DATASETS_PATH g / "TA-5")%path.

(** The four nested [for] loops, over arbitrary lists. *)
Definition grid_loop (g : Globals) (vs : list string) (es bs : list Z)
    (os : list string) (dataset_location : string) : M unit :=
  for_each vs (fun version =>
    for_each es (fun epoch =>
      for_each bs (fun batch_size =>
        for_each os (fun optimizer =>
          train_yolo_with_wandb g version epoch batch_size optimizer
                                dataset_location)))).

Definition cell_grid_search (g : Globals) : M unit :=
  let dataset_location := grid_dataset_location g in
  grid_loop g versions epochs batch_sizes optimizers dataset_location.

(** ** The whole notebook, cells run top to bottom; the first uncaught
    exception stops the run. *)

Definition notebook : M unit :=
  cell_gpu_check ;;
  g <- cell_project_dir ;;
  cell_install_yolo ;;
  cell_test_inference g ;;
  api_key <- cell_roboflow_env ;;
  dataset <- cell_download g api_key ;;
  cell_wandb_setup ;;
  cell_grid_search g.

End Notebook.

(* ===================================================================== *)
(** * Vocabulary of the statements *)
(* ===================================================================== *)

(** A decimal digit or the minus sign. *)
Definition numeric_char (c : ascii) : bool :=
  Py.occurs c "0123456789-".

(** A run configuration the specification calls valid. *)
Definition valid_config (version : string) (epoch batch_size : Z)
    (optimizer : string) : Prop :=
  In version versions /\ (0 < epoch)%Z /\ (0 < batch_size)%Z /\
  In optimizer optimizers.

(** [s'] is reached from [s] by emitting exactly [evs]; the environment
    is left alone. *)
Definition emitted (evs : list event) (s s' : State) : Prop :=
  trace s' = trace s ++ evs /\ environ s' = environ s.

(** A world in which nothing goes wrong: third-party calls return, the
    operating system refuses nothing, and third-party calls only ever add
    directories. *)
Definition quiet (w : World) : Prop :=
  (forall h e, ext_fail w h e = None) /\
  (forall h p, os_fail w h p = None) /\
  (forall h e d, d ⊆ ext_dirs w h e d).

(** The seven steps of one run, in order, for the answer [available] of
    the accelerator query. *)
Definition cell_events (g : Globals) (version : string) (epoch batch_size : Z)
    (optimizer dataset_location : string) (available : bool) : list event :=
  [ Chdir (DATASETS_PATH g);
    PathMkdir (experiment_path (HOME g) version epoch batch_size optimizer);
    WandbInit (wandb_args g version epoch batch_size optimizer);
    YoloLoad ("yolov8" +:+ version +:+ ".pt");
    CudaIsAvailable available;
    YoloTrain (yolo_train_args g version epoch batch_size optimizer
                               dataset_location available);
    WandbFinish ].

(** Try every position of an element in a list of known length. *)
Ltac split_list pre :=
  repeat (destruct pre as [|? pre]; simplify_eq/=).

(** One cell of the grid: model size, epoch count, batch size,
    optimizer. *)
Definition run_config : Type := string * Z * Z * string.

(** The Cartesian product in the order of the nested loops: the first
    list varies slowest, the last one fastest. *)
Definition grid_cells (vs : list string) (es bs : list Z) (os : list string)
    : list run_config :=
  flat_map (fun v =>
    flat_map (fun e =>
      flat_map (fun b =>
        List.map (fun o => (v, e, b, o)) os) bs) es) vs.

(** The body of the innermost loop, on a cell. *)
Definition run_cell (w : World) (g : Globals) (dataset_location : string)
    (c : run_config) : M unit :=
  let '(version, epoch, batch_size, optimizer) := c in
  train_yolo_with_wandb w g version epoch batch_size optimizer dataset_location.

(** The events of one run, on a cell of the grid. *)
Definition run_events (g : Globals) (dataset_location : string)
    (c : run_config) (available : bool) : list event :=
  let '(version, epoch, batch_size, optimizer) := c in
  cell_events g version epoch batch_size optimizer dataset_location available.

(** The names bound by the project-directory cell when it is run in the
    working directory [c]. *)
Definition globals_of (c : Path) : Globals :=
  let base := Pathlib.parent c in
  mkGlobals base (base / "yolov8")%path (base / "yolov8" / "datasets")%path.

(** Events of the per-run procedure that talk to the tracking service,
    the model library or the accelerator. *)
Definition training_event (e : event) : bool :=
  match e with
  | WandbInit _ | YoloLoad _ | CudaIsAvailable _ | YoloTrain _
  | WandbFinish => true
  | _ => false
  end.

(** Events of the cells that come before the dataset download. *)
Definition setup_event (e : event) : bool :=
  match e with
  | Shell _ | MagicCd _ | Print _ | ImportModule _ | CheckCall _
  | UltralyticsChecks | DisplayImage _ _ | LoadDotenv | PathMkdir _ => true
  | _ => false
  end.

(** [s'] is reached from [s] by emitting events that, after the history
    of [s], satisfy [Q]; the environment is left alone. *)
Definition reaches (Q : list event -> list event -> Prop) (s s' : State) : Prop :=
  exists evs, emitted evs s s' /\ Q (trace s) evs.

(** The same, without the promise on the environment. *)
Definition reaches_trace (Q : list event -> list event -> Prop)
    (s s' : State) : Prop :=
  exists evs, trace s' = trace s ++ evs /\ Q (trace s) evs.

(** Properties [Q h evs] of the events [evs] emitted after the history
    [h] that hold of no event at all and of two segments emitted one
    after the other. *)
Class Closed (Q : list event -> list event -> Prop) : Prop := {
  closed_nil : forall h, Q h [];
  closed_app : forall h a b, Q h a -> Q (h ++ a) b -> Q h (a ++ b)
}.

(** Every run of [m] is related to its start by [R]. *)
Definition follows {A} (R : State -> State -> Prop) (m : M A) : Prop :=
  forall s, R s (m s).1.

(** Started where the directories [P] exist, [m] returns; it removes no
    directory and leaves the environment alone. *)
Definition succeeds {A} (P : gset Path) (m : M A) : Prop :=
  forall s, P ⊆ dirs s ->
    exists s' a, m s = (s', Ok a) /\ dirs s ⊆ dirs s' /\ environ s' = environ s.

(** The name of the credential in the environment. *)
Definition credential : string := "ROBOFLOW_API_KEY".

(** The environment the credential check reads: [os.environ] as it is
    after [load_dotenv()]. *)
Definition environ_at_check (w : World) (s : State) : gmap string string :=
  environ s ∪ dotenv_file w.

(** Started without a usable credential, [m] raises, and what it emits
    before that satisfies [Q]. *)
Definition aborts (w : World) (Q : list event -> list event -> Prop) {A}
    (m : M A) : Prop :=
  forall s, Py.truthy_opt (environ_at_check w s !! credential) = false ->
    reaches_trace Q s (m s).1 /\ exists x, (m s).2 = Raise x.

(** The same in a quiet world where the directories [P] exist: the
    exception is [x]. *)
Definition aborts_with (w : World) (P : gset Path) (x : exn) {A} (m : M A)
    : Prop :=
  forall s, Py.truthy_opt (environ_at_check w s !! credential) = false ->
    P ⊆ dirs s -> (m s).2 = Raise x.

(** Two states that differ in the environment at most. *)
Definition agree (s1 s2 : State) : Prop :=
  trace s1 = trace s2 /\ dirs s1 = dirs s2 /\ cwd s1 = cwd s2.

(** [m] does not look at the environment: from states that agree it
    reaches states that agree, with the same outcome. *)
Definition env_blind {A} (m : M A) : Prop :=
  forall s1 s2, agree s1 s2 ->
    agree (m s1).1 (m s2).1 /\ (m s1).2 = (m s2).2.

(** [m] leaves the environment alone. *)
Definition keeps_environ {A} (m : M A) : Prop :=
  forall s, environ (m s).1 = environ s.

(** Without a usable credential, [m] raises the same exception from any
    two states that agree, and reaches states that agree. *)
Definition aborts_alike (w : World) {A} (m : M A) : Prop :=
  forall s1 s2, agree s1 s2 ->
    Py.truthy_opt (environ_at_check w s1 !! credential) = false ->
    Py.truthy_opt (environ_at_check w s2 !! credential) = false ->
    agree (m s1).1 (m s2).1 /\
    exists x, (m s1).2 = Raise x /\ (m s2).2 = Raise x.

(** Name the components of two states that agree. *)
Ltac agree_intro :=
  intros [t1 d1 c1 e1] [t2 d2 c2 e2] (T & D & C); simpl in T, D, C; subst.

(** None of the events [evs] belongs to a training run. *)
Definition no_training (h evs : list event) : Prop :=
  Forall (fun e => training_event e = false) evs.

(** Every training call in [evs], emitted after the history [h], carries
    the two fixed hyper-parameters and the device chosen from the answer
    the accelerator query gave just before it. *)
Definition device_rule (w : World) (h evs : list event) : Prop :=
  forall pre a post, evs = pre ++ YoloTrain a :: post ->
    Yolo.weight_decay a = 5 # 10000 /\
    Yolo.warmup_epochs a = 3%Z /\
    exists pre',
      pre = pre' ++ [CudaIsAvailable (cuda w (h ++ pre'))] /\
      Yolo.device a = device_for (cuda w (h ++ pre')).

(** Every training call in [evs] reads the dataset manifest [yaml]. *)
Definition reads_dataset (yaml : string) (evs : list event) : Prop :=
  Forall (fun e => forall a, e = YoloTrain a -> Yolo.data a = yaml) evs.

(** The step [last] of a run started in [s], taken after the events
    [pre], is the one that raised [x]: the change of directory or the
    creation of the experiment directory raised it, or the world made
    the third-party call raise it.  The accelerator query never raises. *)
Definition fails_at (w : World) (g : Globals) (s : State) (pre : list event)
    (last : event) (x : exn) : Prop :=
  match last with
  | Chdir p => (os_chdir w p s).2 = Raise x
  | PathMkdir p =>
      exists s1, os_chdir w (DATASETS_PATH g) s = (s1, Ok tt) /\
                 (path_mkdir w p true true s1).2 = Raise x
  | WandbInit _ | YoloLoad _ | YoloTrain _ | WandbFinish =>
      ext_fail w (trace s ++ pre) last = Some x
  | _ => False
  end.

(** What a run does once the experiment directory is there. *)
Definition train_from_init (w : World) (g : Globals) (version : string)
    (epoch batch_size : Z) (optimizer dataset_location : string) : M unit :=
  call w (WandbInit (wandb_args g version epoch batch_size optimizer)) ;;
  call w (YoloLoad ("yolov8" +:+ version +:+ ".pt")) ;;
  available <- cuda_is_available w ;;
  call w (YoloTrain (yolo_train_args g version epoch batch_size optimizer
                                     dataset_location available)) ;;
  call w WandbFinish.

(** ** Sample worlds and states *)

Module Sample.

(** Nothing fails, no accelerator. *)
Definition quiet_world : World :=
  {| ext_fail := fun _ _ => None;
     ext_dirs := fun _ _ d => d;
     os_fail := fun _ _ => None;
     magic_target := fun _ arg => Some (Pathlib.of_string arg);
     cuda := fun _ => false;
     download_location := fun _ => "/home/user/yolov8/datasets/TA-5";
     dotenv_file := ∅;
     sys_executable := "/usr/bin/python3";
     torch_version := "2.1.0" |}.

(** Every training call runs out of memory. *)
Definition oom_world : World :=
  {| ext_fail := fun _ e =>
       match e with
       | YoloTrain _ => Some (ExternalError "CUDA out of memory")
       | _ => None
       end;
     ext_dirs := fun _ _ d => d;
     os_fail := fun _ _ => None;
     magic_target := fun _ arg => Some (Pathlib.of_string arg);
     cuda := fun _ => true;
     download_location := fun _ => "/home/user/yolov8/datasets/TA-5";
     dotenv_file := ∅;
     sys_executable := "/usr/bin/python3";
     torch_version := "2.1.0" |}.

Definition notebook_dir : Path := Pathlib.of_string "/home/user/notebook".

Definition globals : Globals := globals_of notebook_dir.

(** A fresh kernel started in [notebook_dir] with the environment
    [env]; only the root directory is known to exist. *)
Definition fresh (env : gmap string string) : State :=
  {| trace := []; dirs := {[ mkPath "/" [] ]}; cwd := notebook_dir;
     environ := env |}.

(** The state in which the grid search starts: the datasets directory
    has been created. *)
Definition before_grid : State :=
  {| trace := [];
     dirs := {[ mkPath "/" []; DATASETS_PATH globals ]};
     cwd := DATASETS_PATH globals;
     environ := {[ "ROBOFLOW_API_KEY" := "secret" ]} |}.

End Sample.

(* ===================================================================== *)
(** * Further vocabulary *)
(* ===================================================================== *)

(** A component as [parse_parts] produces them: not empty, not ["."],
    without a slash. *)
Definition good_component (x : string) : bool :=
  Pathlib.keep_component x && negb (Py.occurs "/" x).

(** A path as [pathlib] builds them from strings. *)
Definition well_formed (p : Path) : bool :=
  (String.eqb (root p) "" || String.eqb (root p) "/" || String.eqb (root p) "//")
  && forallb good_component (parts p).

(** The calls of the download cell, in order, for the key it was
    given. *)
Definition download_events (g : Globals) (api_key : option string)
    : list event :=
  [ Chdir (DATASETS_PATH g);
    RoboflowInit api_key;
    RoboflowWorkspace "i-wayan-agus-darmawan-siflb";
    RoboflowProject "ta-o2kfq";
    RoboflowVersion 5;
    RoboflowDownload "yolov8" ].

(** [m] emits the events [es] in order and stops at the first that
    fails: every run emits an initial segment of [es], and a run that
    returns has emitted all of them. *)
Definition emits_in_order (es : list event) {A} (m : M A) : Prop :=
  forall s, exists evs,
    trace (m s).1 = trace s ++ evs /\
    evs `prefix_of` es /\
    (forall a, (m s).2 = Ok a -> evs = es).

(** Tracking sessions opened and closed in a trace. *)
Definition is_init (e : event) : bool :=
  match e with WandbInit _ => true | _ => false end.

Definition is_finish (e : event) : bool :=
  match e with WandbFinish => true | _ => false end.

Definition sessions_opened (evs : list event) : nat :=
  length (List.filter is_init evs).

Definition sessions_closed (evs : list event) : nat :=
  length (List.filter is_finish evs).

(** Events of the per-run procedure. *)
Definition run_step_event (e : event) : bool :=
  match e with
  | Chdir _ | PathMkdir _ => true
  | _ => training_event e
  end.

(** Events of the Weights & Biases set-up cell. *)
Definition login_event (e : event) : bool :=
  match e with
  | WandbLogin => true
  | _ => setup_event e
  end.

(** The notebook in two parts: the cells up to the credential check,
    which hand the project directories and the key to the cells from the
    download on. *)
Definition cells_before_download (w : World) : M (Globals * option string) :=
  cell_gpu_check w ;;
  g <- cell_project_dir w ;;
  cell_install_yolo w ;;
  cell_test_inference w g ;;
  api_key <- cell_roboflow_env w ;;
  ret (g, api_key).

Definition cells_from_download (w : World) (p : Globals * option string)
    : M unit :=
  dataset <- cell_download w p.1 p.2 ;;
  cell_wandb_setup w ;;
  cell_grid_search w p.1.

(** No directory is lost and the working directory stays. *)
Definition keeps_place (s s' : State) : Prop :=
  dirs s ⊆ dirs s' /\ cwd s' = cwd s.

(** The working directory stays where it is. *)
Definition stays (s s' : State) : Prop := cwd s' = cwd s.

(** Every directory that exists has its parent. *)
Definition tree_closed (d : gset Path) : Prop :=
  forall p, p ∈ d -> Pathlib.parent p ∈ d.

(** A directory tree that is closed stays closed. *)
Definition keeps_tree (s s' : State) : Prop :=
  tree_closed (dirs s) -> tree_closed (dirs s').

(** ** Worlds in which something goes wrong *)

Module Scenario.

(** The package [wandb] is not installed; [pip] works. *)
Definition wandb_missing : World :=
  {| ext_fail := fun _ e =>
       match e with
       | ImportModule name =>
           if String.eqb name "wandb" then Some (ImportError "wandb") else None
       | _ => None
       end;
     ext_dirs := fun _ _ d => d;
     os_fail := fun _ _ => None;
     magic_target := fun _ arg => Some (Pathlib.of_string arg);
     cuda := fun _ => false;
     download_location := fun _ => "/home/user/yolov8/datasets/TA-5";
     dotenv_file := ∅;
     sys_executable := "/usr/bin/python3";
     torch_version := "2.1.0" |}.

(** Importing [torch] crashes with something that is not an
    [ImportError]. *)
Definition torch_broken : World :=
  {| ext_fail := fun _ e =>
       match e with
       | ImportModule name =>
           if String.eqb name "torch"
           then Some (ExternalError "OSError: libcudart.so not found")
           else None
       | _ => None
       end;
     ext_dirs := fun _ _ d => d;
     os_fail := fun _ _ => None;
     magic_target := fun _ arg => Some (Pathlib.of_string arg);
     cuda := fun _ => false;
     download_location := fun _ => "/home/user/yolov8/datasets/TA-5";
     dotenv_file := ∅;
     sys_executable := "/usr/bin/python3";
     torch_version := "2.1.0" |}.

(** The file system is read-only. *)
Definition read_only : World :=
  {| ext_fail := fun _ _ => None;
     ext_dirs := fun _ _ d => d;
     os_fail := fun _ _ => Some "EROFS";
     magic_target := fun _ arg => Some (Pathlib.of_string arg);
     cuda := fun _ => false;
     download_location := fun _ => "/home/user/yolov8/datasets/TA-5";
     dotenv_file := ∅;
     sys_executable := "/usr/bin/python3";
     torch_version := "2.1.0" |}.

(** The key is only in the [.env] file. *)
Definition key_in_dotenv : World :=
  {| ext_fail := fun _ _ => None;
     ext_dirs := fun _ _ d => d;
     os_fail := fun _ _ => None;
     magic_target := fun _ arg => Some (Pathlib.of_string arg);
     cuda := fun _ => false;
     download_location := fun _ => "/home/user/yolov8/datasets/TA-5";
     dotenv_file := {[ "ROBOFLOW_API_KEY" := "from-dotenv" ]};
     sys_executable := "/usr/bin/python3";
     torch_version := "2.1.0" |}.

(** [ultralytics] cannot be imported, before or after [pip] has run. *)
Definition ultralytics_unusable : World :=
  {| ext_fail := fun _ e =>
       match e with
       | ImportModule name =>
           if String.eqb name "ultralytics"
           then Some (ImportError "ultralytics") else None
       | _ => None
       end;
     ext_dirs := fun _ _ d => d;
     os_fail := fun _ _ => None;
     magic_target := fun _ arg => Some (Pathlib.of_string arg);
     cuda := fun _ => false;
     download_location := fun _ => "/home/user/yolov8/datasets/TA-5";
     dotenv_file := ∅;
     sys_executable := "/usr/bin/python3";
     torch_version := "2.1.0" |}.

(** The state in which a second run of [("n", 50, 2, "Adam")] starts:
    its experiment directory is already there. *)
Definition second_run : State :=
  {| trace := [];
     dirs := {[ mkPath "/" []; DATASETS_PATH Sample.globals;
                experiment_path (HOME Sample.globals) "n" 50 2 "Adam" ]};
     cwd := DATASETS_PATH Sample.globals;
     environ := {[ "ROBOFLOW_API_KEY" := "secret" ]} |}.

(** The operating system refuses to look below [experiments]: a parent
    of the experiment directories is not searchable. *)
Definition experiments_unsearchable : World :=
  {| ext_fail := fun _ _ => None;
     ext_dirs := fun _ _ d => d;
     os_fail := fun _ p =>
       if bool_decide (p = DATASETS_PATH Sample.globals) then None
       else Some "EACCES";
     magic_target := fun _ arg => Some (Pathlib.of_string arg);
     cuda := fun _ => false;
     download_location := fun _ => "/home/user/yolov8/datasets/TA-5";
     dotenv_file := ∅;
     sys_executable := "/usr/bin/python3";
     torch_version := "2.1.0" |}.

(** The project directory is there, the datasets directory is not. *)
Definition home_exists : State :=
  {| trace := [];
     dirs := {[ mkPath "/" []; mkPath "/" ["home"]; mkPath "/" ["home"; "user"];
                HOME Sample.globals ]};
     cwd := Sample.notebook_dir;
     environ := ∅ |}.

End Scenario.

(* ===================================================================== *)
(** * Facts on strings *)
(* ===================================================================== *)

Module PyFacts.

#[local] Arguments Ascii.eqb : simpl never.

Lemma append_assoc (a b c : string) : (a +:+ b) +:+ c = a +:+ (b +:+ c).
Proof.
  induction a as [|x a IH]; [reflexivity|].
  change (String x ((a +:+ b) +:+ c) = String x (a +:+ (b +:+ c))).
  now rewrite IH.
Qed.

Lemma occurs_app c a b :
  Py.occurs c (a +:+ b) = Py.occurs c a || Py.occurs c b.
Proof.
  induction a as [|d a IH]; simpl; [reflexivity|].
  rewrite IH. apply orb_assoc.
Qed.

Lemma occurs_uint c (d : Decimal.uint) :
  Py.occurs c (NilEmpty.string_of_uint d) = true -> numeric_char c = true.
Proof.
  unfold numeric_char.
  induction d; simpl; intros H;
    try discriminate;
    apply orb_true_iff in H as [H|H];
    try (apply Ascii.eqb_eq in H; subst c; reflexivity);
    auto.
Qed.

Lemma occurs_str_int c z :
  Py.occurs c (Py.str_int z) = true -> numeric_char c = true.
Proof.
  unfold Py.str_int.
  destruct (Z.to_int z) as [d|d]; simpl.
  - destruct d; try apply occurs_uint.
    simpl. intros H. apply orb_true_iff in H as [H|H]; [|discriminate].
    apply Ascii.eqb_eq in H. subst c. reflexivity.
  - intros H. apply orb_true_iff in H as [H|H].
    + apply Ascii.eqb_eq in H. subst c. reflexivity.
    + destruct d; try (revert H; apply occurs_uint).
      simpl in H. apply orb_true_iff in H as [H|H]; [|discriminate].
      apply Ascii.eqb_eq in H. subst c. reflexivity.
Qed.

Lemma str_int_no_underscore z : Py.occurs "_" (Py.str_int z) = false.
Proof.
  destruct (Py.occurs "_" (Py.str_int z)) eqn:E; [|reflexivity].
  apply occurs_str_int in E. discriminate.
Qed.

Lemma str_int_no_slash z : Py.occurs "/" (Py.str_int z) = false.
Proof.
  destruct (Py.occurs "/" (Py.str_int z)) eqn:E; [|reflexivity].
  apply occurs_str_int in E. discriminate.
Qed.

(** [str] on integers is injective: the decimal numeral can be read
    back. *)
Lemma str_int_inj a b : Py.str_int a = Py.str_int b -> a = b.
Proof.
  unfold Py.str_int. intros H.
  apply DecimalZ.to_int_inj.
  assert (Hok : forall z, Z.to_int z <> Decimal.Pos Decimal.Nil /\
                          Z.to_int z <> Decimal.Neg Decimal.Nil).
  { intros [|p|p]; simpl; split; try discriminate;
      intros [= E]; exact (Unsigned.to_uint_nonnil p E). }
  destruct (Hok a) as [Ha1 Ha2], (Hok b) as [Hb1 Hb2].
  pose proof (NilZero.isi _ Ha1 Ha2) as Ea.
  pose proof (NilZero.isi _ Hb1 Hb2) as Eb.
  rewrite H in Ea. rewrite Ea in Eb. congruence.
Qed.

(** A string is cut in one way only at the first occurrence of a
    character. *)
Lemma cut_unique c a a' r r' :
  Py.occurs c a = false -> Py.occurs c a' = false ->
  a +:+ String c r = a' +:+ String c r' -> a = a' /\ r = r'.
Proof.
  revert a'. induction a as [|x a IH]; intros [|x' a'] Ha Ha' E; simpl in *.
  - injection E as ->. auto.
  - injection E as -> _. rewrite Ascii.eqb_refl in Ha'. discriminate.
  - injection E as -> _. rewrite Ascii.eqb_refl in Ha. discriminate.
  - injection E as -> E.
    apply orb_false_iff in Ha as [_ Ha], Ha' as [_ Ha'].
    destruct (IH _ Ha Ha' E) as [-> ->]. auto.
Qed.

Lemma split_slash_nonempty s : Py.split_slash s <> [].
Proof.
  destruct s as [|c s]; simpl; [discriminate|].
  destruct (Ascii.eqb c "/"); [discriminate|].
  destruct (Py.split_slash s); discriminate.
Qed.

(** A string without a slash is a single piece. *)
Lemma split_slash_one s : Py.occurs "/" s = false -> Py.split_slash s = [s].
Proof.
  induction s as [|c s IH]; simpl; [reflexivity|].
  destruct (Ascii.eqb c "/"); simpl; [discriminate|].
  intros H. rewrite (IH H). reflexivity.
Qed.

(** [(a + "/" + b).split("/") = a.split("/") + b.split("/")]. *)
Lemma split_slash_app a b :
  Py.split_slash (a +:+ String "/" b) = Py.split_slash a ++ Py.split_slash b.
Proof.
  induction a as [|c a IH]; simpl; [reflexivity|].
  destruct (Ascii.eqb c "/"); simpl; [now rewrite IH|].
  rewrite IH.
  pose proof (split_slash_nonempty a) as Hne.
  destruct (Py.split_slash a); [congruence|reflexivity].
Qed.

End PyFacts.

(* ===================================================================== *)
(** * Facts on paths and experiment directories *)
(* ===================================================================== *)

Module PathFacts.

Lemma components_one s :
  Py.occurs "/" s = false -> Pathlib.keep_component s = true ->
  Pathlib.components s = [s].
Proof.
  intros Hs Hk. unfold Pathlib.components.
  rewrite (PyFacts.split_slash_one s Hs). simpl. now rewrite Hk.
Qed.

Lemma components_app a b :
  Pathlib.components (a +:+ String "/" b)
  = Pathlib.components a ++ Pathlib.components b.
Proof.
  unfold Pathlib.components.
  rewrite PyFacts.split_slash_app. apply List.filter_app.
Qed.

(** Joining with a string that does not start with a slash appends its
    components. *)
Lemma div_relative p c s :
  Ascii.eqb c "/" = false ->
  (p / String c s)%path
  = mkPath (root p) (parts p ++ Pathlib.components (String c s)).
Proof.
  intros Hc. unfold Pathlib.div, Pathlib.of_string, Pathlib.splitroot.
  cbn [Py.lstrip_slash]. rewrite Hc. reflexivity.
Qed.

Lemma experiment_name_no_slash e b o :
  Py.occurs "/" o = false -> Py.occurs "/" (experiment_name e b o) = false.
Proof.
  intros Ho. unfold experiment_name.
  rewrite !PyFacts.occurs_app, !PyFacts.str_int_no_slash, Ho. reflexivity.
Qed.

Lemma experiment_name_components e b o :
  Py.occurs "/" o = false ->
  Pathlib.components (experiment_name e b o) = [experiment_name e b o].
Proof.
  intros Ho. apply components_one.
  - now apply experiment_name_no_slash.
  - reflexivity.
Qed.

Lemma base_dir_components v :
  Py.occurs "/" v = false ->
  Pathlib.components ("experiments/yolov8" +:+ v)
  = ["experiments"; "yolov8" +:+ v].
Proof.
  intros Hv.
  change ("experiments/yolov8" +:+ v)
    with ("experiments" +:+ String "/" ("yolov8" +:+ v)).
  rewrite components_app. f_equal.
  apply components_one; [|reflexivity].
  rewrite PyFacts.occurs_app, Hv. reflexivity.
Qed.

(** The experiment directory hangs three components below [home]. *)
Lemma experiment_path_parts home v e b o :
  Py.occurs "/" v = false -> Py.occurs "/" o = false ->
  experiment_path home v e b o
  = mkPath (root home)
           (parts home ++ ["experiments"; "yolov8" +:+ v; experiment_name e b o]).
Proof.
  intros Hv Ho. unfold experiment_path.
  change ("experiments/yolov8" +:+ v)
    with (String "e" ("xperiments/yolov8" +:+ v)).
  rewrite div_relative by reflexivity.
  change (String "e" ("xperiments/yolov8" +:+ v))
    with ("experiments/yolov8" +:+ v).
  rewrite base_dir_components by exact Hv.
  change (experiment_name e b o)
    with (String "e" ("poch_" +:+ Py.str_int e +:+ "_batch_" +:+ Py.str_int b
                      +:+ "_optimizer_" +:+ o)) at 1.
  rewrite div_relative by reflexivity.
  change (String "e" ("poch_" +:+ Py.str_int e +:+ "_batch_" +:+ Py.str_int b
                      +:+ "_optimizer_" +:+ o))
    with (experiment_name e b o).
  rewrite experiment_name_components by exact Ho.
  simpl. rewrite <- app_assoc. reflexivity.
Qed.

(** It lives in the same tree as [home], whatever the configuration. *)
Lemma experiment_path_root home v e b o :
  root (experiment_path home v e b o) = root home.
Proof.
  unfold experiment_path.
  change (experiment_name e b o)
    with (String "e" ("poch_" +:+ Py.str_int e +:+ "_batch_" +:+ Py.str_int b
                      +:+ "_optimizer_" +:+ o)).
  rewrite div_relative by reflexivity. cbn [root].
  change ("experiments/yolov8" +:+ v)
    with (String "e" ("xperiments/yolov8" +:+ v)).
  rewrite div_relative by reflexivity. reflexivity.
Qed.

Lemma experiment_name_inj e b o e' b' o' :
  experiment_name e b o = experiment_name e' b' o' ->
  e = e' /\ b = b' /\ o = o'.
Proof.
  unfold experiment_name. intros H.
  apply String.app_inj in H.
  change ("_batch_" +:+ Py.str_int b +:+ "_optimizer_" +:+ o)
    with (String "_" ("batch_" +:+ Py.str_int b +:+ "_optimizer_" +:+ o)) in H.
  change ("_batch_" +:+ Py.str_int b' +:+ "_optimizer_" +:+ o')
    with (String "_" ("batch_" +:+ Py.str_int b' +:+ "_optimizer_" +:+ o')) in H.
  apply PyFacts.cut_unique in H as [He H];
    try apply PyFacts.str_int_no_underscore.
  apply String.app_inj in H.
  change ("_optimizer_" +:+ o) with (String "_" ("optimizer_" +:+ o)) in H.
  change ("_optimizer_" +:+ o') with (String "_" ("optimizer_" +:+ o')) in H.
  apply PyFacts.cut_unique in H as [Hb H];
    try apply PyFacts.str_int_no_underscore.
  apply String.app_inj in H.
  auto using PyFacts.str_int_inj.
Qed.

(** Distinct configurations get distinct directories. *)
Lemma experiment_path_inj home v e b o v' e' b' o' :
  Py.occurs "/" v = false -> Py.occurs "/" o = false ->
  Py.occurs "/" v' = false -> Py.occurs "/" o' = false ->
  experiment_path home v e b o = experiment_path home v' e' b' o' ->
  v = v' /\ e = e' /\ b = b' /\ o = o'.
Proof.
  intros Hv Ho Hv' Ho' H.
  rewrite !experiment_path_parts in H by assumption.
  apply (f_equal parts) in H. cbn [parts] in H. apply app_inv_head in H.
  pose proof (f_equal (fun l => l !! 1%nat) H) as Hv8.
  pose proof (f_equal (fun l => l !! 2%nat) H) as Hn.
  cbn [lookup list_lookup] in Hv8, Hn.
  apply (inj Some) in Hv8, Hn.
  apply String.app_inj in Hv8.
  apply experiment_name_inj in Hn. tauto.
Qed.

Lemma valid_no_slash v e b o :
  valid_config v e b o ->
  Py.occurs "/" v = false /\ Py.occurs "/" o = false.
Proof.
  intros (Hv & _ & _ & Ho). simpl in Hv, Ho.
  split.
  - destruct Hv as [<-|[<-|[<-|[<-|[<-|[]]]]]]; reflexivity.
  - destruct Ho as [<-|[<-|[]]]; reflexivity.
Qed.

Lemma concat_slash_app ps qs :
  ps <> [] -> qs <> [] ->
  String.concat "/" (ps ++ qs)
  = String.concat "/" ps +:+ "/" +:+ String.concat "/" qs.
Proof.
  intros Hps Hqs. induction ps as [|p ps IH]; [congruence|].
  destruct ps as [|p' ps].
  - simpl. destruct qs; [congruence|reflexivity].
  - change (String.concat "/" ((p :: p' :: ps) ++ qs))
      with (p +:+ "/" +:+ String.concat "/" ((p' :: ps) ++ qs)).
    rewrite IH by discriminate.
    change (String.concat "/" (p :: p' :: ps))
      with (p +:+ "/" +:+ String.concat "/" (p' :: ps)).
    now rewrite !PyFacts.append_assoc.
Qed.

Lemma str_nonempty r ps :
  ps <> [] -> Pathlib.str (mkPath r ps) = r +:+ String.concat "/" ps.
Proof. intros H. unfold Pathlib.str. destruct r, ps; try reflexivity; congruence. Qed.

(** [str] of a path below a path that has at least one component. *)
Lemma str_below r ps qs :
  ps <> [] -> qs <> [] ->
  Pathlib.str (mkPath r (ps ++ qs))
  = Pathlib.str (mkPath r ps) +:+ "/" +:+ String.concat "/" qs.
Proof.
  intros Hps Hqs.
  assert (Hpq : ps ++ qs <> []) by (destruct ps; [congruence|discriminate]).
  rewrite (str_nonempty r (ps ++ qs) Hpq), (str_nonempty r ps Hps).
  rewrite concat_slash_app by assumption.
  now rewrite PyFacts.append_assoc.
Qed.

End PathFacts.

(* ===================================================================== *)
(** * The primitives *)
(* ===================================================================== *)

Section MonadFacts.

Context {A B : Type}.

Lemma bind_ok (m : M A) (k : A -> M B) s s' a :
  m s = (s', Ok a) -> bind m k s = k a s'.
Proof. unfold bind. now intros ->. Qed.

Lemma bind_raise (m : M A) (k : A -> M B) s s' x :
  m s = (s', Raise x) -> bind m k s = (s', Raise x).
Proof. unfold bind. now intros ->. Qed.

End MonadFacts.

Lemma emitted_refl s : emitted [] s s.
Proof. split; [now rewrite app_nil_r|reflexivity]. Qed.

Lemma emitted_trans l1 l2 s1 s2 s3 :
  emitted l1 s1 s2 -> emitted l2 s2 s3 -> emitted (l1 ++ l2) s1 s3.
Proof.
  intros [H1 E1] [H2 E2]. split; [|congruence].
  rewrite H2, H1. symmetry. apply app_assoc.
Qed.

Section Primitives.

Variable w : World.

Lemma call_emitted e s : emitted [e] s (call w e s).1.
Proof. unfold call. now destruct (ext_fail w (trace s) e). Qed.

Lemma call_result e s :
  (call w e s).2 = match ext_fail w (trace s) e with
                   | Some x => Raise x
                   | None => Ok tt
                   end.
Proof. unfold call. now destruct (ext_fail w (trace s) e). Qed.

Lemma log_emitted e s : emitted [e] s (log e s).1.
Proof. now split. Qed.

Lemma shell_emitted cmd s : emitted [Shell cmd] s (shell w cmd s).1.
Proof. now split. Qed.

Lemma os_mkdir_emitted p s : emitted [] s (os_mkdir w p s).1.
Proof.
  unfold os_mkdir.
  repeat case_bool_decide; simpl; try apply emitted_refl.
  destruct (os_fail w (trace s) p); [apply emitted_refl|].
  split; simpl; [now rewrite app_nil_r|reflexivity].
Qed.

Lemma is_dir_state p s : (is_dir w p s).1 = s.
Proof.
  unfold is_dir. destruct (os_fail w (trace s) p) as [errno|]; [|reflexivity].
  now destruct (ignore_error errno).
Qed.

(** The handler of [OSError] in [Path.mkdir] changes nothing. *)
Lemma exist_ok_state p ok e s :
  ((if negb ok then raise e
    else d <- is_dir w p ;; if negb d then raise e else ret tt) s).1 = s.
Proof.
  destruct (negb ok); [reflexivity|]. unfold bind.
  pose proof (is_dir_state p s) as H.
  destruct (is_dir w p s) as [s1 [d|x]]; simpl in H; subst s1; [|reflexivity].
  now destruct (negb d).
Qed.

Lemma mkdir_flat_emitted p ok s : emitted [] s (mkdir_flat w p ok s).1.
Proof.
  unfold mkdir_flat, try_except.
  pose proof (os_mkdir_emitted p s) as H.
  destruct (os_mkdir w p s) as [s1 [[]|x]]; simpl in *; [exact H|].
  destruct (is_OSError x); [|exact H].
  destruct (is_FileNotFoundError x); [exact H|].
  now rewrite exist_ok_state.
Qed.

Lemma mkdir_from_emitted r rps pa ok s :
  emitted [] s (mkdir_from w r rps pa ok s).1.
Proof.
  revert pa ok s. induction rps as [|x rps IH]; intros pa ok s; simpl;
    unfold try_except;
    match goal with
    | |- context [os_mkdir w ?p s] =>
        pose proof (os_mkdir_emitted p s) as H;
        destruct (os_mkdir w p s) as [s1 [[]|e]]; simpl in *; [exact H|]
    end;
    (destruct (is_OSError e); [|exact H]);
    destruct (is_FileNotFoundError e); try exact H;
    try (now rewrite exist_ok_state).
  - destruct (negb pa); [exact H|].
    unfold bind.
    pose proof (IH true true s1) as H1.
    destruct (mkdir_from w r rps true true s1) as [s2 [[]|e2]]; simpl in *.
    + pose proof (mkdir_flat_emitted (mkPath r (rev rps ++ [x])) ok s2) as H2.
      apply (emitted_trans [] [] _ _ _ H), (emitted_trans [] [] _ _ _ H1), H2.
    + apply (emitted_trans [] [] _ _ _ H), H1.
Qed.

Lemma path_mkdir_emitted p pa ok s :
  emitted [PathMkdir p] s (path_mkdir w p pa ok s).1.
Proof.
  unfold path_mkdir, bind, log.
  apply (emitted_trans [PathMkdir p] [] s (record (PathMkdir p) s)).
  - now split.
  - apply mkdir_from_emitted.
Qed.

(** *** What [os.mkdir] does *)

Lemma os_mkdir_ok p s s' :
  os_mkdir w p s = (s', Ok tt) ->
  dirs s' = {[p]} ∪ dirs s /\ cwd s' = cwd s.
Proof.
  unfold os_mkdir. repeat case_bool_decide; try discriminate.
  destruct (os_fail w (trace s) p); [discriminate|]. intros [= <-]; auto.
Qed.

Lemma os_mkdir_raise p s s' x :
  os_mkdir w p s = (s', Raise x) -> s' = s.
Proof.
  unfold os_mkdir. repeat case_bool_decide; try congruence.
  destruct (os_fail w (trace s) p); congruence.
Qed.

(** When the handler of [OSError] lets the call return, the directory
    is there. *)
Lemma exist_ok_post p ok e s s' :
  (if negb ok then raise e
   else d <- is_dir w p ;; if negb d then raise e else ret tt) s = (s', Ok tt) ->
  s' = s /\ p ∈ dirs s.
Proof.
  destruct (negb ok); [discriminate|]. unfold bind, is_dir.
  destruct (os_fail w (trace s) p) as [errno|].
  - destruct (ignore_error errno); discriminate.
  - case_bool_decide; [|discriminate]. simpl. now intros [= <-].
Qed.

Lemma mkdir_flat_post p ok s s' :
  mkdir_flat w p ok s = (s', Ok tt) -> p ∈ dirs s'.
Proof.
  unfold mkdir_flat, try_except.
  destruct (os_mkdir w p s) as [s1 [[]|x]] eqn:E.
  - intros [= <-]. apply os_mkdir_ok in E as [-> _]. set_solver.
  - destruct (is_OSError x); [|discriminate].
    destruct (is_FileNotFoundError x); [discriminate|].
    intros H. now apply exist_ok_post in H as [-> H].
Qed.

(** A successful [mkdir] leaves the directory behind. *)
Lemma mkdir_from_post r rps pa ok s s' :
  mkdir_from w r rps pa ok s = (s', Ok tt) -> mkPath r (rev rps) ∈ dirs s'.
Proof.
  destruct rps as [|x rps]; cbn [mkdir_from]; unfold try_except;
    match goal with
    | |- context [os_mkdir w ?p s] =>
        destruct (os_mkdir w p s) as [s1 [[]|e]] eqn:E
    end;
    try (intros [= <-]; apply os_mkdir_ok in E as [-> _]; set_solver);
    (destruct (is_OSError e); [|discriminate]);
    destruct (is_FileNotFoundError e); try discriminate;
    try (intros H; now apply exist_ok_post in H as [-> H]).
  destruct (negb pa); [discriminate|]. unfold bind.
  destruct (mkdir_from w r rps true true s1) as [s2 [[]|e2]]; [|discriminate].
  apply mkdir_flat_post.
Qed.

(** With [exist_ok=True] an existing directory is accepted, as long as
    the operating system lets [is_dir] look at it. *)
Lemma mkdir_from_existing r rps pa s :
  mkPath r (rev rps) ∈ dirs s ->
  os_fail w (trace s) (mkPath r (rev rps)) = None ->
  mkdir_from w r rps pa true s = (s, Ok tt).
Proof.
  intros Hin Hos.
  assert (Hd : is_dir w (mkPath r (rev rps)) s = (s, Ok true)).
  { unfold is_dir. now rewrite Hos, bool_decide_eq_true_2 by exact Hin. }
  destruct rps as [|x rps]; cbn [mkdir_from]; unfold try_except, os_mkdir;
    rewrite bool_decide_eq_true_2 by exact Hin; cbn [is_OSError
      is_FileNotFoundError negb]; unfold bind; now rewrite Hd.
Qed.

(** When [is_dir] is refused, [exist_ok=True] does not help. *)
Lemma mkdir_from_refused r rps pa s errno :
  mkPath r (rev rps) ∈ dirs s ->
  os_fail w (trace s) (mkPath r (rev rps)) = Some errno ->
  mkdir_from w r rps pa true s
  = (s, Raise (if ignore_error errno
               then FileExistsError (mkPath r (rev rps))
               else OSError errno (mkPath r (rev rps)))).
Proof.
  intros Hin Hos.
  assert (Hd : is_dir w (mkPath r (rev rps)) s
               = if ignore_error errno then (s, Ok false)
                 else (s, Raise (OSError errno (mkPath r (rev rps))))).
  { unfold is_dir. now rewrite Hos. }
  destruct rps as [|x rps]; cbn [mkdir_from]; unfold try_except, os_mkdir;
    rewrite bool_decide_eq_true_2 by exact Hin; cbn [is_OSError
      is_FileNotFoundError negb]; unfold bind; rewrite Hd;
    now destruct (ignore_error errno).
Qed.

Lemma parent_snoc r ps x :
  Pathlib.parent (mkPath r (ps ++ [x])) = mkPath r ps.
Proof.
  unfold Pathlib.parent. simpl.
  destruct (ps ++ [x]) eqn:E; [now destruct ps|].
  rewrite <- E, removelast_last. reflexivity.
Qed.

Lemma mkdir_flat_quiet p s :
  (forall h q, os_fail w h q = None) ->
  Pathlib.parent p ∈ dirs s ->
  exists s', mkdir_flat w p true s = (s', Ok tt) /\
             dirs s ⊆ dirs s' /\ cwd s' = cwd s.
Proof.
  intros Hos Hpar. unfold mkdir_flat, try_except, os_mkdir.
  case_bool_decide as Hin; simpl.
  - unfold bind, is_dir. rewrite Hos, bool_decide_eq_true_2 by exact Hin.
    simpl. eauto.
  - rewrite bool_decide_eq_true_2 by exact Hpar. rewrite Hos.
    eexists; split; [reflexivity|]. simpl. split; [set_solver|reflexivity].
Qed.

(** When the operating system refuses nothing and the root directory
    exists, [mkdir(parents=True, exist_ok=True)] succeeds. *)
Lemma mkdir_from_quiet r rps s :
  (forall h q, os_fail w h q = None) ->
  mkPath r [] ∈ dirs s ->
  exists s', mkdir_from w r rps true true s = (s', Ok tt) /\
             dirs s ⊆ dirs s' /\ cwd s' = cwd s.
Proof.
  intros Hos. revert s.
  induction rps as [|x rps IH]; intros s Hroot.
  - rewrite mkdir_from_existing by (exact Hroot || apply Hos). eauto.
  - cbn [mkdir_from]. unfold try_except.
    destruct (os_mkdir w (mkPath r (rev (x :: rps))) s) as [s1 [[]|e]] eqn:E.
    + apply os_mkdir_ok in E as [E1 E2].
      eexists; split; [reflexivity|]. split; [|exact E2].
      rewrite E1. apply union_subseteq_r.
    + pose proof (os_mkdir_raise _ _ _ _ E) as ->.
      revert E. unfold os_mkdir.
      case_bool_decide as Hin.
      * intros [= <-]. simpl. unfold bind, is_dir.
        rewrite Hos, bool_decide_eq_true_2 by exact Hin. simpl. eauto.
      * case_bool_decide as Hpar; [rewrite Hos; discriminate|].
        intros [= <-]. simpl. unfold bind.
        destruct (IH s Hroot) as (s2 & E2 & Hsub & Hcwd).
        rewrite E2.
        apply mkdir_from_post in E2.
        destruct (mkdir_flat_quiet (mkPath r (rev rps ++ [x])) s2 Hos)
          as (s3 & E3 & Hsub3 & Hcwd3).
        { now rewrite parent_snoc. }
        simpl. rewrite E3. eexists; split; [reflexivity|].
        split; [set_solver|congruence].
Qed.

(** *** [os.chdir] *)

Lemma os_chdir_emitted p s : emitted [Chdir p] s (os_chdir w p s).1.
Proof.
  unfold os_chdir, bind, log. simpl.
  destruct (os_fail w _ p); [now split|].
  case_bool_decide; now split.
Qed.

Lemma magic_cd_emitted arg s : emitted [MagicCd arg] s (magic_cd w arg s).1.
Proof.
  unfold magic_cd, bind. pose proof (call_emitted (MagicCd arg) s) as H.
  destruct (call w (MagicCd arg) s) as [s1 [[]|x]]; simpl in *; [|exact H].
  destruct (magic_target w (trace s1) arg) as [p|]; [|exact H].
  destruct (os_fail w (trace s1) p); [exact H|].
  case_bool_decide; exact H.
Qed.

End Primitives.

(* ===================================================================== *)
(** * One run *)
(* ===================================================================== *)

Lemma bind_cuda {B} w (k : bool -> M B) s :
  bind (cuda_is_available w) k s
  = k (cuda w (trace s)) (record (CudaIsAvailable (cuda w (trace s))) s).
Proof. reflexivity. Qed.

Section Cell.

Variable w : World.
Variable g : Globals.
Variables (version : string) (epoch batch_size : Z).
Variables (optimizer dataset_location : string).

Let run := train_yolo_with_wandb w g version epoch batch_size optimizer
                                 dataset_location.
Let steps := cell_events g version epoch batch_size optimizer dataset_location.

Ltac stopped_after l av T V :=
  exists l, av; simpl;
  split; [split; [exact T|exact V]|];
  split; [eexists; reflexivity|];
  split; [intros [=]|].

Lemma train_cell s :
  exists evs available,
    emitted evs s (run s).1 /\
    evs `prefix_of` steps available /\
    ((run s).2 = Ok tt -> evs = steps available) /\
    (forall pre a post, evs = pre ++ YoloTrain a :: post ->
       ext_fail w (trace s ++ pre) (YoloTrain a) = None ->
       post = [WandbFinish]) /\
    (forall pre b post, evs = pre ++ CudaIsAvailable b :: post ->
       b = cuda w (trace s ++ pre)) /\
    (forall pre a post x, evs = pre ++ YoloTrain a :: post ->
       ext_fail w (trace s ++ pre) (YoloTrain a) = Some x ->
       (run s).2 = Raise x /\ post = []).
Proof.
  subst run steps. unfold train_yolo_with_wandb, cell_events.
  set (D := DATASETS_PATH g).
  set (ep := experiment_path (HOME g) version epoch batch_size optimizer).
  set (wa := wandb_args g version epoch batch_size optimizer).
  set (ta := yolo_train_args g version epoch batch_size optimizer dataset_location).
  (* os.chdir *)
  pose proof (os_chdir_emitted w D s) as [T1 V1].
  destruct (os_chdir w D s) as [s1 [[]|x]] eqn:E1;
    [rewrite (bind_ok _ _ _ _ _ E1) | rewrite (bind_raise _ _ _ _ _ E1)];
    simpl in T1, V1.
  2:{ stopped_after [Chdir D] false T1 V1.
      split; [|split]; intros pre ? post; intros; split_list pre. }
  (* mkdir *)
  pose proof (path_mkdir_emitted w ep true true s1) as [T2 V2].
  destruct (path_mkdir w ep true true s1) as [s2 [[]|x]] eqn:E2;
    [rewrite (bind_ok _ _ _ _ _ E2) | rewrite (bind_raise _ _ _ _ _ E2)];
    simpl in T2, V2; rewrite T1 in T2; rewrite <- app_assoc in T2; simpl in T2;
    assert (V2' := eq_trans V2 V1).
  2:{ stopped_after [Chdir D; PathMkdir ep] false T2 V2'.
      split; [|split]; intros pre ? post; intros; split_list pre. }
  (* wandb.init *)
  pose proof (call_emitted w (WandbInit wa) s2) as [T3 V3].
  destruct (call w (WandbInit wa) s2) as [s3 [[]|x]] eqn:E3;
    [rewrite (bind_ok _ _ _ _ _ E3) | rewrite (bind_raise _ _ _ _ _ E3)];
    simpl in T3, V3; rewrite T2 in T3; rewrite <- app_assoc in T3; simpl in T3;
    assert (V3' := eq_trans V3 V2').
  2:{ stopped_after [Chdir D; PathMkdir ep; WandbInit wa] false T3 V3'.
      split; [|split]; intros pre ? post; intros; split_list pre. }
  (* YOLO(...) *)
  set (ld := YoloLoad ("yolov8" +:+ version +:+ ".pt")).
  pose proof (call_emitted w ld s3) as [T4 V4].
  destruct (call w ld s3) as [s4 [[]|x]] eqn:E4;
    [rewrite (bind_ok _ _ _ _ _ E4) | rewrite (bind_raise _ _ _ _ _ E4)];
    simpl in T4, V4; rewrite T3 in T4; rewrite <- app_assoc in T4; simpl in T4;
    assert (V4' := eq_trans V4 V3').
  2:{ stopped_after [Chdir D; PathMkdir ep; WandbInit wa; ld] false T4 V4'.
      split; [|split]; intros pre ? post; intros; subst ld; split_list pre. }
  (* torch.cuda.is_available() *)
  rewrite bind_cuda.
  set (av := cuda w (trace s4)).
  assert (Hav : av = cuda w (trace s ++ [Chdir D; PathMkdir ep; WandbInit wa; ld]))
    by (subst av; now rewrite T4).
  remember (record (CudaIsAvailable av) s4) as s5 eqn:Es5.
  assert (T5 : trace s5 = trace s ++ [Chdir D; PathMkdir ep; WandbInit wa; ld;
                                      CudaIsAvailable av]).
  { subst s5. simpl. rewrite T4, <- app_assoc. reflexivity. }
  assert (V5 : environ s5 = environ s) by (subst s5; simpl; congruence).
  clear Es5.
  (* model.train *)
  pose proof (call_emitted w (YoloTrain (ta av)) s5) as [T6 V6].
  pose proof (call_result w (YoloTrain (ta av)) s5) as R6.
  destruct (call w (YoloTrain (ta av)) s5) as [s6 [[]|x]] eqn:E6;
    [rewrite (bind_ok _ _ _ _ _ E6) | rewrite (bind_raise _ _ _ _ _ E6)];
    simpl in T6, V6, R6; rewrite T5 in T6; rewrite <- app_assoc in T6;
    simpl in T6; assert (V6' := eq_trans V6 V5).
  2:{ stopped_after [Chdir D; PathMkdir ep; WandbInit wa; ld;
                      CudaIsAvailable av; YoloTrain (ta av)] av T6 V6'.
      rewrite T5 in R6.
      split; [|split]; intros pre ? post; intros; subst ld; split_list pre.
      - match goal with H : ext_fail _ _ _ = None |- _ => rewrite H in R6 end.
        discriminate.
      - exact Hav.
      - match goal with H : ext_fail _ _ _ = Some _ |- _ => rewrite H in R6 end.
        split; [congruence|reflexivity]. }
  (* wandb.finish *)
  pose proof (call_emitted w WandbFinish s6) as [T7 V7].
  exists [Chdir D; PathMkdir ep; WandbInit wa; ld; CudaIsAvailable av;
          YoloTrain (ta av); WandbFinish], av.
  split; [split|].
  - rewrite T7, T6, <- app_assoc. reflexivity.
  - congruence.
  - split; [reflexivity|]. split; [reflexivity|].
    rewrite T5 in R6.
    split; [|split]; intros pre ? post; intros; subst ld; split_list pre.
    + reflexivity.
    + exact Hav.
    + match goal with H : ext_fail _ _ _ = Some _ |- _ => rewrite H in R6 end.
      discriminate.
Qed.

End Cell.

(* ===================================================================== *)
(** * Loops and the grid *)
(* ===================================================================== *)

Section Loops.

Context {A : Type}.

Lemma for_each_app (xs ys : list A) (body : A -> M unit) s :
  for_each (xs ++ ys) body s = (for_each xs body ;; for_each ys body) s.
Proof.
  revert s. induction xs as [|x xs IH]; intros s; [reflexivity|].
  simpl. unfold bind.
  destruct (body x s) as [s1 [[]|e]]; [|reflexivity].
  exact (IH s1).
Qed.

Lemma for_each_ext (xs : list A) (f g : A -> M unit) s :
  (forall x s, f x s = g x s) -> for_each xs f s = for_each xs g s.
Proof.
  intros Hfg. revert s. induction xs as [|x xs IH]; intros s; [reflexivity|].
  simpl. unfold bind. rewrite Hfg.
  destruct (g x s) as [s1 [[]|e]]; [apply IH|reflexivity].
Qed.

(** A loop whose body raises stops there: the state is the one the
    failing iteration left, and the exception is the loop's. *)
Lemma for_each_abort (pre post : list A) (c : A) (body : A -> M unit)
    s s1 s2 x :
  for_each pre body s = (s1, Ok tt) ->
  body c s1 = (s2, Raise x) ->
  for_each (pre ++ c :: post) body s = (s2, Raise x).
Proof.
  intros Hpre Hc. rewrite for_each_app. unfold bind. rewrite Hpre.
  simpl. unfold bind. now rewrite Hc.
Qed.

(** Conversely a loop only raises because one iteration did, after
    all the earlier ones returned. *)
Lemma for_each_raise_inv (xs : list A) (body : A -> M unit) s s2 x :
  for_each xs body s = (s2, Raise x) ->
  exists pre c post s1,
    xs = pre ++ c :: post /\
    for_each pre body s = (s1, Ok tt) /\
    body c s1 = (s2, Raise x).
Proof.
  revert s. induction xs as [|c xs IH]; intros s; [discriminate|].
  simpl. unfold bind.
  destruct (body c s) as [s1 [[]|e]] eqn:E.
  - intros H. destruct (IH _ H) as (pre & c' & post & s1' & -> & Hpre & Hc).
    exists (c :: pre), c', post, s1'. split; [reflexivity|].
    split; [|exact Hc]. simpl. unfold bind. now rewrite E.
  - intros [= <- <-]. exists [], c, xs, s. auto.
Qed.

End Loops.

Lemma for_each_flat_map {A B} (f : A -> list B) (xs : list A)
    (body : B -> M unit) s :
  for_each (flat_map f xs) body s
  = for_each xs (fun x => for_each (f x) body) s.
Proof.
  revert s. induction xs as [|x xs IH]; intros s; [reflexivity|].
  cbn [flat_map for_each]. rewrite for_each_app. unfold bind.
  destruct (for_each (f x) body s) as [s1 [[]|e]]; [apply IH|reflexivity].
Qed.

Lemma for_each_map {A B} (f : A -> B) (xs : list A) (body : B -> M unit) s :
  for_each (List.map f xs) body s = for_each xs (fun x => body (f x)) s.
Proof.
  revert s. induction xs as [|x xs IH]; intros s; [reflexivity|].
  simpl. unfold bind.
  destruct (body (f x) s) as [s1 [[]|e]]; [apply IH|reflexivity].
Qed.


Lemma grid_loop_flat w g vs es bs os loc s :
  grid_loop w g vs es bs os loc s
  = for_each (grid_cells vs es bs os) (run_cell w g loc) s.
Proof.
  unfold grid_loop, grid_cells.
  rewrite for_each_flat_map. apply for_each_ext. intros v s1.
  rewrite for_each_flat_map. apply for_each_ext. intros e s2.
  rewrite for_each_flat_map. apply for_each_ext. intros b s3.
  rewrite for_each_map. reflexivity.
Qed.

(** The cells are the combinations of one element of each list. *)
Lemma in_grid_cells vs es bs os v e b o :
  In (v, e, b, o) (grid_cells vs es bs os)
  <-> In v vs /\ In e es /\ In b bs /\ In o os.
Proof.
  unfold grid_cells. rewrite List.in_flat_map.
  setoid_rewrite List.in_flat_map. setoid_rewrite List.in_flat_map.
  setoid_rewrite List.in_map_iff. split.
  - intros (v' & Hv & e' & He & b' & Hb & o' & E & Ho).
    injection E as -> -> -> ->. auto.
  - intros (Hv & He & Hb & Ho). eauto 10.
Qed.

Lemma grid_cells_length vs es bs os :
  length (grid_cells vs es bs os)
  = (length vs * (length es * (length bs * length os)))%nat.
Proof.
  unfold grid_cells.
  apply List.flat_map_constant_length. intros v _.
  apply List.flat_map_constant_length. intros e _.
  apply List.flat_map_constant_length. intros b _.
  apply List.length_map.
Qed.

(* ===================================================================== *)
(** * What a program emits *)
(* ===================================================================== *)

Section Follows.

Variable R : State -> State -> Prop.
Context `{!PreOrder R}.

Lemma follows_ret {A} (a : A) : follows R (ret a).
Proof. intros s. reflexivity. Qed.

Lemma follows_raise {A} x : follows R (@raise A x).
Proof. intros s. reflexivity. Qed.

(** Pointwise sequencing: the continuation is only run on the value
    and in the state the first part produced. *)
Lemma follows_bind_at {A B} (m : M A) (k : A -> M B) s :
  R s (m s).1 ->
  (forall a, (m s).2 = Ok a -> R (m s).1 (k a (m s).1).1) ->
  R s (bind m k s).1.
Proof.
  unfold bind. destruct (m s) as [s1 [a|x]]; simpl; intros H1 H2; [|exact H1].
  etransitivity; [exact H1|]. now apply H2.
Qed.

Lemma follows_bind {A B} (m : M A) (k : A -> M B) :
  follows R m -> (forall a, follows R (k a)) -> follows R (bind m k).
Proof.
  intros Hm Hk s. apply follows_bind_at; [apply Hm|]. intros a _. apply Hk.
Qed.

Lemma follows_try {A} (m : M A) f (h : exn -> M A) :
  follows R m -> (forall x, follows R (h x)) -> follows R (try_except m f h).
Proof.
  intros Hm Hh s. unfold try_except.
  pose proof (Hm s) as H1.
  destruct (m s) as [s1 [a|x]]; simpl in *; [exact H1|].
  destruct (f x); [|exact H1].
  etransitivity; [exact H1|]. apply Hh.
Qed.

Lemma follows_for_each {A} (xs : list A) (body : A -> M unit) :
  (forall x, follows R (body x)) -> follows R (for_each xs body).
Proof.
  intros Hb. induction xs as [|x xs IH]; simpl.
  - apply follows_ret.
  - apply follows_bind; [apply Hb|]. intros _. exact IH.
Qed.

End Follows.

#[global] Instance reaches_preorder Q `{!Closed Q} : PreOrder (reaches Q).
Proof.
  split.
  - intros s. exists []. split; [apply emitted_refl|apply closed_nil].
  - intros s1 s2 s3 (l1 & E1 & Q1) (l2 & E2 & Q2).
    exists (l1 ++ l2). split; [eapply emitted_trans; eassumption|].
    apply closed_app; [exact Q1|]. destruct E1 as [<- _]. exact Q2.
Qed.

#[global] Instance reaches_trace_preorder Q `{!Closed Q} :
  PreOrder (reaches_trace Q).
Proof.
  split.
  - intros s. exists []. split; [now rewrite app_nil_r|apply closed_nil].
  - intros s1 s2 s3 (l1 & E1 & Q1) (l2 & E2 & Q2).
    exists (l1 ++ l2). split; [rewrite E2, E1; symmetry; apply app_assoc|].
    apply closed_app; [exact Q1|]. rewrite <- E1. exact Q2.
Qed.

Lemma reaches_weaken Q s s' : reaches Q s s' -> reaches_trace Q s s'.
Proof. intros (l & [E _] & HQ). now exists l. Qed.

#[global] Instance Forall_closed (P : event -> Prop) :
  Closed (fun _ => Forall P).
Proof. split; [constructor|]. intros h a b Ha Hb. now apply Forall_app. Qed.

Lemma setup_not_training e : setup_event e = true -> training_event e = false.
Proof. now destruct e. Qed.

Section CellTraces.

Variable w : World.
Variable Q : list event -> list event -> Prop.
Context `{!Closed Q}.

Section Setup.

Hypothesis HQ : forall h e, setup_event e = true -> Q h [e].

Lemma call_follows e : setup_event e = true -> follows (reaches Q) (call w e).
Proof. intros He s. exists [e]. split; [apply call_emitted|now apply HQ]. Qed.

Lemma log_follows e : setup_event e = true -> follows (reaches Q) (log e).
Proof. intros He s. exists [e]. split; [apply log_emitted|now apply HQ]. Qed.

Lemma shell_follows cmd : follows (reaches Q) (shell w cmd).
Proof. intros s. exists [Shell cmd]. split; [apply shell_emitted|now apply HQ]. Qed.

Lemma magic_cd_follows dir : follows (reaches Q) (magic_cd w dir).
Proof.
  intros s. exists [MagicCd dir]. split; [apply magic_cd_emitted|now apply HQ].
Qed.

Lemma path_mkdir_follows p pa ok : follows (reaches Q) (path_mkdir w p pa ok).
Proof.
  intros s. exists [PathMkdir p]. split; [apply path_mkdir_emitted|now apply HQ].
Qed.

Lemma ensure_package_installed_follows pkg imp ver :
  follows (reaches Q) (ensure_package_installed w pkg imp ver).
Proof.
  unfold ensure_package_installed.
  apply follows_try; [apply _| |intros _].
  - apply follows_bind; [apply _|now apply call_follows|].
    intros _. now apply log_follows.
  - apply follows_bind; [apply _|now apply log_follows|]. intros _.
    apply follows_bind; [apply _|now apply call_follows|]. intros _.
    now apply log_follows.
Qed.

Lemma cell_gpu_check_follows : follows (reaches Q) (cell_gpu_check w).
Proof. apply shell_follows. Qed.

Lemma cell_project_dir_follows : follows (reaches Q) (cell_project_dir w).
Proof.
  unfold cell_project_dir.
  apply follows_bind; [apply _|intros s; reflexivity|]. intros c.
  apply follows_bind; [apply _|apply path_mkdir_follows|]. intros _.
  apply follows_bind; [apply _|now apply log_follows|]. intros _.
  apply follows_ret; apply _.
Qed.

Lemma cell_install_yolo_follows : follows (reaches Q) (cell_install_yolo w).
Proof.
  unfold cell_install_yolo.
  apply follows_bind; [apply _|apply ensure_package_installed_follows|].
  intros _.
  repeat (apply follows_bind; [apply _|now apply call_follows|]; intros _).
  now apply call_follows.
Qed.

Lemma cell_test_inference_follows g :
  follows (reaches Q) (cell_test_inference w g).
Proof.
  unfold cell_test_inference.
  apply follows_bind; [apply _|now apply call_follows|]. intros _.
  apply follows_bind; [apply _|apply magic_cd_follows|]. intros _.
  apply follows_bind; [apply _|apply shell_follows|]. intros _.
  now apply call_follows.
Qed.

(** The credential cell changes the environment, so only its trace is
    described. *)
Lemma cell_roboflow_env_follows :
  follows (reaches_trace Q) (cell_roboflow_env w).
Proof.
  assert (Hw : forall A (m : M A),
             follows (reaches Q) m -> follows (reaches_trace Q) m).
  { intros A m Hm s. apply reaches_weaken, Hm. }
  unfold cell_roboflow_env.
  do 2 (apply follows_bind;
        [apply _|apply Hw, ensure_package_installed_follows|]; intros _).
  do 2 (apply follows_bind; [apply _|now apply Hw, call_follows|]; intros _).
  apply follows_bind; [apply _| |intros _].
  - unfold load_dotenv.
    apply follows_bind; [apply _|now apply Hw, call_follows|]. intros _ s.
    exists []. split; [simpl; now rewrite app_nil_r|apply closed_nil].
  - apply follows_bind; [apply _|intros s; reflexivity|]. intros key.
    destruct (negb (Py.truthy_opt key)); [apply follows_raise; apply _|].
    apply follows_bind; [apply _|now apply Hw, log_follows|]. intros _.
    apply follows_ret; apply _.
Qed.

End Setup.

Section Later.

Hypothesis HQ : forall h e, training_event e = false -> Q h [e].

Lemma later_setup : forall h e, setup_event e = true -> Q h [e].
Proof. intros h e He. apply HQ. now apply setup_not_training. Qed.


Lemma call_follows' e :
  training_event e = false -> follows (reaches Q) (call w e).
Proof. intros He s. exists [e]. split; [apply call_emitted|now apply HQ]. Qed.

Lemma os_chdir_follows p : follows (reaches Q) (os_chdir w p).
Proof.
  intros s. exists [Chdir p]. split; [apply os_chdir_emitted|now apply HQ].
Qed.

Lemma cell_download_follows g key :
  follows (reaches Q) (cell_download w g key).
Proof.
  unfold cell_download.
  apply follows_bind; [apply _|apply os_chdir_follows|]. intros _.
  repeat (apply follows_bind; [apply _|now apply call_follows'|]; intros _).
  apply follows_bind; [apply _|intros s; reflexivity|]. intros s'.
  apply follows_ret; apply _.
Qed.

Lemma cell_wandb_setup_follows : follows (reaches Q) (cell_wandb_setup w).
Proof.
  unfold cell_wandb_setup.
  do 2 (apply follows_bind;
        [apply _|apply ensure_package_installed_follows, later_setup|];
        intros _).
  repeat (apply follows_bind; [apply _|now apply call_follows'|]; intros _).
  apply follows_bind;
    [apply _|apply log_follows; [apply later_setup|reflexivity]|].
  intros _.
  apply log_follows; [apply later_setup|reflexivity].
Qed.

Variable g : Globals.

Hypothesis HQ_run : forall h c available evs,
  evs `prefix_of` run_events g (grid_dataset_location g) c available ->
  (forall pre b post, evs = pre ++ CudaIsAvailable b :: post ->
     b = cuda w (h ++ pre)) ->
  Q h evs.

Lemma train_yolo_with_wandb_follows v e b o :
  follows (reaches Q)
    (train_yolo_with_wandb w g v e b o (grid_dataset_location g)).
Proof.
  intros s.
  destruct (train_cell w g v e b o (grid_dataset_location g) s)
    as (evs & av & Hem & Hpre & _ & _ & Hcuda & _).
  exists evs. split; [exact Hem|].
  exact (HQ_run (trace s) (v, e, b, o) av evs Hpre Hcuda).
Qed.

Lemma cell_grid_search_follows : follows (reaches Q) (cell_grid_search w g).
Proof.
  unfold cell_grid_search, grid_loop.
  do 4 (apply follows_for_each; [apply _|]; intros ?).
  apply train_yolo_with_wandb_follows.
Qed.

End Later.

End CellTraces.

Lemma cell_project_dir_value w s g :
  (cell_project_dir w s).2 = Ok g -> g = globals_of (cwd s).
Proof.
  unfold cell_project_dir, path_cwd.
  rewrite (bind_ok _ _ s s (cwd s) eq_refl).
  unfold bind.
  destruct (path_mkdir w _ true true s) as [s1 [[]|x]]; [|discriminate].
  simpl. now intros [= <-].
Qed.

(** What a whole run of the notebook emits, for a property [Q] of traces
    that every event outside the per-run procedure has and that every
    initial segment of a run has. *)
Lemma notebook_follows w (Q : list event -> list event -> Prop) `{!Closed Q} s :
  (forall h e, training_event e = false -> Q h [e]) ->
  (forall h c available evs,
     evs `prefix_of` run_events (globals_of (cwd s))
                                (grid_dataset_location (globals_of (cwd s)))
                                c available ->
     (forall pre b post, evs = pre ++ CudaIsAvailable b :: post ->
        b = cuda w (h ++ pre)) ->
     Q h evs) ->
  reaches_trace Q s (notebook w s).1.
Proof.
  intros HQ HQ_run.
  assert (HQ_setup : forall h e, setup_event e = true -> Q h [e]).
  { intros h e He. apply HQ. now apply setup_not_training. }
  assert (Hw : forall A (m : M A),
             follows (reaches Q) m -> follows (reaches_trace Q) m).
  { intros A m Hm s'. apply reaches_weaken, Hm. }
  unfold notebook.
  apply follows_bind_at; [apply _|now apply Hw, cell_gpu_check_follows|].
  intros _ _.
  set (s1 := (cell_gpu_check w s).1).
  assert (Hcwd : cwd s1 = cwd s) by reflexivity.
  apply follows_bind_at; [apply _|now apply Hw, cell_project_dir_follows|].
  intros g Hg. apply cell_project_dir_value in Hg. rewrite Hcwd in Hg.
  subst g. generalize (cell_project_dir w s1).1. clear s1 Hcwd.
  change (follows (reaches_trace Q)
    (cell_install_yolo w;;
     cell_test_inference w (globals_of (cwd s));;
     api_key <- cell_roboflow_env w;;
     dataset <- cell_download w (globals_of (cwd s)) api_key;;
     cell_wandb_setup w;;
     cell_grid_search w (globals_of (cwd s)))).
  apply follows_bind; [apply _|now apply Hw, cell_install_yolo_follows|].
  intros _.
  apply follows_bind; [apply _|now apply Hw, cell_test_inference_follows|].
  intros _.
  apply follows_bind; [apply _|now apply cell_roboflow_env_follows|].
  intros key.
  apply follows_bind; [apply _|now apply Hw, cell_download_follows|].
  intros _.
  apply follows_bind; [apply _|now apply Hw, cell_wandb_setup_follows|].
  intros _.
  now apply Hw, cell_grid_search_follows.
Qed.

(* ===================================================================== *)
(** * Runs in a quiet world *)
(* ===================================================================== *)

Section Succeeds.

Variable P : gset Path.

Lemma succeeds_ret {A} (a : A) : succeeds P (ret a).
Proof. intros s _. exists s, a. auto. Qed.

Lemma succeeds_bind {A B} (m : M A) (k : A -> M B) :
  succeeds P m -> (forall a, succeeds P (k a)) -> succeeds P (bind m k).
Proof.
  intros Hm Hk s HP.
  destruct (Hm s HP) as (s1 & a & E1 & D1 & V1).
  destruct (Hk a s1) as (s2 & b & E2 & D2 & V2); [set_solver|].
  exists s2, b. rewrite (bind_ok _ _ _ _ _ E1).
  split; [exact E2|]. split; [set_solver|congruence].
Qed.

Lemma succeeds_try {A} (m : M A) f h :
  succeeds P m -> succeeds P (try_except m f h).
Proof.
  intros Hm s HP. destruct (Hm s HP) as (s1 & a & E1 & D1 & V1).
  exists s1, a. unfold try_except. rewrite E1. auto.
Qed.

Lemma log_succeeds e : succeeds P (log e).
Proof. intros s _. exists (record e s), tt. auto. Qed.

Lemma get_state_succeeds : succeeds P get_state.
Proof. intros s _. exists s, s. auto. Qed.

Variable w : World.
Hypothesis Hq : quiet w.

Lemma call_succeeds e : succeeds P (call w e).
Proof.
  destruct Hq as (Hext & _ & Hmono). intros s _.
  unfold call. rewrite Hext. eexists _, tt. split; [reflexivity|].
  simpl. auto.
Qed.

Lemma shell_succeeds cmd : succeeds P (shell w cmd).
Proof.
  destruct Hq as (_ & _ & Hmono). intros s _.
  eexists _, tt. split; [reflexivity|]. simpl. auto.
Qed.

Lemma cuda_is_available_succeeds : succeeds P (cuda_is_available w).
Proof. intros s _. eexists _, _. split; [reflexivity|]. simpl. auto. Qed.

Lemma magic_cd_succeeds dir : succeeds P (magic_cd w dir).
Proof.
  intros s HP. unfold magic_cd.
  destruct (call_succeeds (MagicCd dir) s HP) as (s1 & [] & E1 & D1 & V1).
  rewrite (bind_ok _ _ _ _ _ E1).
  destruct (magic_target w (trace s1) dir) as [p|]; [|eexists _, tt; auto].
  destruct (os_fail w (trace s1) p); [eexists _, tt; auto|].
  case_bool_decide; eexists _, tt; simpl; auto.
Qed.

Lemma os_chdir_succeeds p : p ∈ P -> succeeds P (os_chdir w p).
Proof.
  destruct Hq as (_ & Hos & _). intros Hp s HP.
  unfold os_chdir, bind, log. simpl. rewrite Hos.
  rewrite bool_decide_eq_true_2 by set_solver.
  eexists _, tt. simpl. auto.
Qed.

Lemma path_mkdir_succeeds p : Pathlib.anchor p ∈ P -> succeeds P (path_mkdir w p true true).
Proof.
  destruct Hq as (_ & Hos & _). intros Hp s HP.
  unfold path_mkdir, bind, log.
  destruct (mkdir_from_quiet w (root p) (rev (parts p)) (record (PathMkdir p) s) Hos)
    as (s1 & E1 & D1 & _).
  { simpl. unfold Pathlib.anchor in Hp. set_solver. }
  pose proof (mkdir_from_emitted w (root p) (rev (parts p)) true true
                                 (record (PathMkdir p) s)) as [_ V].
  rewrite E1 in *. exists s1, tt. simpl in *. auto.
Qed.

Lemma ensure_package_installed_succeeds pkg imp ver :
  succeeds P (ensure_package_installed w pkg imp ver).
Proof.
  unfold ensure_package_installed. apply succeeds_try.
  apply succeeds_bind; [apply call_succeeds|]. intros _. apply log_succeeds.
Qed.

Lemma cell_gpu_check_succeeds : succeeds P (cell_gpu_check w).
Proof. apply shell_succeeds. Qed.

Lemma cell_install_yolo_succeeds : succeeds P (cell_install_yolo w).
Proof.
  unfold cell_install_yolo.
  apply succeeds_bind; [apply ensure_package_installed_succeeds|]. intros _.
  repeat (apply succeeds_bind; [apply call_succeeds|]; intros _).
  apply call_succeeds.
Qed.

Lemma cell_test_inference_succeeds g : succeeds P (cell_test_inference w g).
Proof.
  unfold cell_test_inference.
  apply succeeds_bind; [apply call_succeeds|]. intros _.
  apply succeeds_bind; [apply magic_cd_succeeds|]. intros _.
  apply succeeds_bind; [apply shell_succeeds|]. intros _.
  apply call_succeeds.
Qed.

Lemma train_yolo_with_wandb_succeeds g v e b o loc :
  DATASETS_PATH g ∈ P -> Pathlib.anchor (HOME g) ∈ P ->
  succeeds P (train_yolo_with_wandb w g v e b o loc).
Proof.
  intros HD HA. unfold train_yolo_with_wandb.
  apply succeeds_bind; [now apply os_chdir_succeeds|]. intros _.
  apply succeeds_bind.
  { apply path_mkdir_succeeds. unfold Pathlib.anchor.
    now rewrite PathFacts.experiment_path_root. }
  intros _.
  do 2 (apply succeeds_bind; [apply call_succeeds|]; intros _).
  apply succeeds_bind; [apply cuda_is_available_succeeds|]. intros av.
  apply succeeds_bind; [apply call_succeeds|]. intros _.
  apply call_succeeds.
Qed.

End Succeeds.

(* ===================================================================== *)
(** * Runs without a credential *)
(* ===================================================================== *)

Section Aborts.

Variable w : World.
Variable Q : list event -> list event -> Prop.
Context `{!Closed Q}.

Lemma aborts_bind_l {A B} (m : M A) (k : A -> M B) :
  aborts w Q m -> aborts w Q (bind m k).
Proof.
  intros Hm s Hs. destruct (Hm s Hs) as (Hr & x & Hx).
  unfold bind. destruct (m s) as [s1 [a|y]]; simpl in *; [discriminate|].
  eauto.
Qed.

Lemma aborts_bind_r {A B} (m : M A) (k : A -> M B) :
  follows (reaches Q) m -> (forall a, aborts w Q (k a)) -> aborts w Q (bind m k).
Proof.
  intros Hm Hk s Hs. pose proof (Hm s) as Hr.
  unfold bind. destruct (m s) as [s1 [a|y]]; simpl in *.
  - destruct Hr as (l1 & [T1 V1] & Q1).
    destruct (Hk a s1) as ((l2 & T2 & Q2) & x & Hx).
    { unfold environ_at_check in *. now rewrite V1. }
    split; [|eauto]. exists (l1 ++ l2).
    split; [rewrite T2, T1; symmetry; apply app_assoc|].
    apply closed_app; [exact Q1|]. now rewrite <- T1.
  - split; [now apply reaches_weaken|eauto].
Qed.

Hypothesis HQ : forall h e, setup_event e = true -> Q h [e].

(** The end of the credential cell, from [load_dotenv()] on. *)
Lemma credential_check_aborts :
  aborts w Q
    (load_dotenv w;;
     api_key <- os_getenv credential;;
     if negb (Py.truthy_opt api_key) then raise api_key_error
     else log (Print "✅ API key loaded successfully");; ret api_key).
Proof.
  intros s Hs. unfold load_dotenv, bind, os_getenv, call.
  destruct (ext_fail w (trace s) LoadDotenv); simpl.
  - split; [|eauto]. exists [LoadDotenv]. split; [reflexivity|now apply HQ].
  - unfold environ_at_check in Hs. rewrite Hs. simpl.
    split; [|eauto]. exists [LoadDotenv]. split; [reflexivity|now apply HQ].
Qed.

Lemma cell_roboflow_env_aborts : aborts w Q (cell_roboflow_env w).
Proof.
  unfold cell_roboflow_env.
  do 2 (apply aborts_bind_r;
        [now apply ensure_package_installed_follows|]; intros _).
  do 2 (apply aborts_bind_r; [now apply call_follows|]; intros _).
  apply credential_check_aborts.
Qed.

Lemma notebook_aborts : aborts w Q (notebook w).
Proof.
  unfold notebook.
  apply aborts_bind_r; [now apply cell_gpu_check_follows|]. intros _.
  apply aborts_bind_r; [now apply cell_project_dir_follows|]. intros g.
  apply aborts_bind_r; [now apply cell_install_yolo_follows|]. intros _.
  apply aborts_bind_r; [now apply cell_test_inference_follows|]. intros _.
  apply aborts_bind_l, cell_roboflow_env_aborts.
Qed.

End Aborts.

Section AbortsWith.

Variable w : World.
Variable P : gset Path.
Variable x : exn.

Lemma aborts_with_bind_l {A B} (m : M A) (k : A -> M B) :
  aborts_with w P x m -> aborts_with w P x (bind m k).
Proof.
  intros Hm s Hs HP. specialize (Hm s Hs HP).
  unfold bind. destruct (m s) as [s1 [a|y]]; simpl in *; congruence.
Qed.

Lemma aborts_with_bind_r {A B} (m : M A) (k : A -> M B) :
  succeeds P m -> (forall a, aborts_with w P x (k a)) ->
  aborts_with w P x (bind m k).
Proof.
  intros Hm Hk s Hs HP.
  destruct (Hm s HP) as (s1 & a & E1 & D1 & V1).
  rewrite (bind_ok _ _ _ _ _ E1). apply Hk.
  - unfold environ_at_check in *. now rewrite V1.
  - set_solver.
Qed.

End AbortsWith.

Lemma cell_project_dir_succeeds w c :
  quiet w ->
  forall s, cwd s = c -> {[Pathlib.anchor c]} ⊆ dirs s ->
    exists s' a, cell_project_dir w s = (s', Ok a) /\
                 dirs s ⊆ dirs s' /\ environ s' = environ s.
Proof.
  intros Hq s Hc HP. unfold cell_project_dir.
  rewrite (bind_ok _ _ s s (cwd s) eq_refl).
  apply (succeeds_bind {[Pathlib.anchor c]}); [|intros _|exact HP].
  - apply path_mkdir_succeeds; [exact Hq|].
    rewrite Hc. unfold Pathlib.anchor.
    change "datasets" with (String "d" "atasets").
    rewrite PathFacts.div_relative by reflexivity.
    change "yolov8" with (String "y" "olov8").
    rewrite PathFacts.div_relative by reflexivity.
    cbn [root]. destruct c as [r [|p ps]]; set_solver.
  - apply succeeds_bind; [apply log_succeeds|]. intros _. apply succeeds_ret.
Qed.

Lemma notebook_aborts_with w s :
  quiet w ->
  Py.truthy_opt (environ_at_check w s !! credential) = false ->
  Pathlib.anchor (cwd s) ∈ dirs s ->
  (notebook w s).2 = Raise api_key_error.
Proof.
  intros Hq Hs Ha. set (P := ({[Pathlib.anchor (cwd s)]} : gset Path)).
  assert (HP : P ⊆ dirs s) by set_solver.
  unfold notebook.
  destruct (cell_gpu_check_succeeds P w Hq s HP) as (s1 & [] & E1 & D1 & V1).
  rewrite (bind_ok _ _ _ _ _ E1).
  assert (C1 : cwd s1 = cwd s) by (now injection E1 as <-).
  destruct (cell_project_dir_succeeds w (cwd s) Hq s1 C1) as (s2 & g & E2 & D2 & V2);
    [set_solver|].
  rewrite (bind_ok _ _ _ _ _ E2).
  revert s2 E2 D2 V2. 
  cut (aborts_with w P api_key_error
         (cell_install_yolo w;;
          cell_test_inference w g;;
          api_key <- cell_roboflow_env w;;
          dataset <- cell_download w g api_key;;
          cell_wandb_setup w;;
          cell_grid_search w g)).
  { intros H s2 E2 D2 V2. apply H; [|set_solver].
    unfold environ_at_check in *. now rewrite V2, V1. }
  apply aborts_with_bind_r; [exact (cell_install_yolo_succeeds P w Hq)|]. intros _.
  apply aborts_with_bind_r; [exact (cell_test_inference_succeeds P w Hq g)|]. intros _.
  apply aborts_with_bind_l. unfold cell_roboflow_env.
  do 2 (apply aborts_with_bind_r;
        [apply (ensure_package_installed_succeeds P w Hq)|]; intros _).
  do 2 (apply aborts_with_bind_r; [apply (call_succeeds P w Hq)|]; intros _).
  intros s3 Hs3 _. destruct Hq as (Hext & _).
  unfold load_dotenv, bind, os_getenv, call. rewrite Hext. simpl.
  unfold environ_at_check, credential in Hs3. now rewrite Hs3.
Qed.

(** ** The outcome does not depend on how the credential is missing *)

#[global] Instance anything_closed : Closed (fun _ _ => True).
Proof. now split. Qed.

Lemma follows_keeps_environ {A} (m : M A) :
  follows (reaches (fun _ _ => True)) m -> keeps_environ m.
Proof. intros H s. now destruct (H s) as (evs & [_ V] & _). Qed.

Section EnvBlind.

Lemma env_blind_ret {A} (a : A) : env_blind (ret a).
Proof. intros s1 s2 H. now split. Qed.

Lemma env_blind_raise {A} x : env_blind (@raise A x).
Proof. intros s1 s2 H. now split. Qed.

Lemma env_blind_bind {A B} (m : M A) (k : A -> M B) :
  env_blind m -> (forall a, env_blind (k a)) -> env_blind (bind m k).
Proof.
  intros Hm Hk s1 s2 H. destruct (Hm s1 s2 H) as [H1 E]. unfold bind.
  destruct (m s1) as [t1 [a|x]], (m s2) as [t2 [b|y]]; simpl in *;
    try discriminate.
  - injection E as <-. now apply Hk.
  - injection E as <-. now split.
Qed.

Lemma env_blind_try {A} (m : M A) f (h : exn -> M A) :
  env_blind m -> (forall x, env_blind (h x)) -> env_blind (try_except m f h).
Proof.
  intros Hm Hh s1 s2 H. destruct (Hm s1 s2 H) as [H1 E]. unfold try_except.
  destruct (m s1) as [t1 [a|x]], (m s2) as [t2 [b|y]]; simpl in *;
    try discriminate.
  - now split.
  - injection E as <-. destruct (f x); [now apply Hh|now split].
Qed.

Lemma env_blind_log e : env_blind (log e).
Proof. agree_intro. now split. Qed.

Lemma env_blind_path_cwd : env_blind path_cwd.
Proof. agree_intro. now split. Qed.

Variable w : World.

Lemma env_blind_call e : env_blind (call w e).
Proof.
  agree_intro. unfold call. simpl.
  now destruct (ext_fail w t2 e).
Qed.

Lemma env_blind_shell cmd : env_blind (shell w cmd).
Proof. agree_intro. now split. Qed.

Lemma env_blind_magic_cd dir : env_blind (magic_cd w dir).
Proof.
  agree_intro. unfold magic_cd, bind, call. simpl.
  destruct (ext_fail w t2 (MagicCd dir)); [now split|]. simpl.
  destruct (magic_target w _ dir) as [p|]; [|now split].
  destruct (os_fail w _ p); [now split|].
  now case_bool_decide.
Qed.

Lemma env_blind_is_dir p : env_blind (is_dir w p).
Proof.
  agree_intro. unfold is_dir. simpl.
  destruct (os_fail w t2 p) as [errno|]; [|now split].
  now destruct (ignore_error errno).
Qed.

Lemma env_blind_os_mkdir p : env_blind (os_mkdir w p).
Proof.
  agree_intro. unfold os_mkdir. simpl.
  repeat case_bool_decide; try now split.
  destruct (os_fail w _ _); now split.
Qed.

Lemma env_blind_exist_ok p ok e :
  env_blind (if negb ok then raise e
             else d <- is_dir w p ;; if negb d then raise e else ret tt).
Proof.
  destruct (negb ok); [apply env_blind_raise|].
  apply env_blind_bind; [apply env_blind_is_dir|]. intros d.
  destruct (negb d); [apply env_blind_raise|apply env_blind_ret].
Qed.

Lemma env_blind_mkdir_flat p ok : env_blind (mkdir_flat w p ok).
Proof.
  unfold mkdir_flat. apply env_blind_try; [apply env_blind_os_mkdir|].
  intros x. destruct (is_FileNotFoundError x); [apply env_blind_raise|].
  apply env_blind_exist_ok.
Qed.

Lemma env_blind_mkdir_from r rps pa ok : env_blind (mkdir_from w r rps pa ok).
Proof.
  revert pa ok. induction rps as [|x rps IH]; intros pa ok; cbn [mkdir_from];
    (apply env_blind_try; [apply env_blind_os_mkdir|]); intros e;
    destruct (is_FileNotFoundError e);
    try apply env_blind_raise;
    try apply env_blind_exist_ok.
  destruct (negb pa); [apply env_blind_raise|].
  apply env_blind_bind; [apply IH|]. intros _. apply env_blind_mkdir_flat.
Qed.

Lemma env_blind_path_mkdir p pa ok : env_blind (path_mkdir w p pa ok).
Proof.
  unfold path_mkdir. apply env_blind_bind; [apply env_blind_log|].
  intros _. apply env_blind_mkdir_from.
Qed.

Lemma env_blind_ensure_package_installed pkg imp ver :
  env_blind (ensure_package_installed w pkg imp ver).
Proof.
  unfold ensure_package_installed. apply env_blind_try.
  - apply env_blind_bind; [apply env_blind_call|]. intros _.
    apply env_blind_log.
  - intros _. apply env_blind_bind; [apply env_blind_log|]. intros _.
    apply env_blind_bind; [apply env_blind_call|]. intros _.
    apply env_blind_log.
Qed.

Lemma env_blind_cell_project_dir : env_blind (cell_project_dir w).
Proof.
  unfold cell_project_dir.
  apply env_blind_bind; [apply env_blind_path_cwd|]. intros c.
  apply env_blind_bind; [apply env_blind_path_mkdir|]. intros _.
  apply env_blind_bind; [apply env_blind_log|]. intros _.
  apply env_blind_ret.
Qed.

Lemma env_blind_cell_install_yolo : env_blind (cell_install_yolo w).
Proof.
  unfold cell_install_yolo.
  apply env_blind_bind; [apply env_blind_ensure_package_installed|]. intros _.
  repeat (apply env_blind_bind; [apply env_blind_call|]; intros _).
  apply env_blind_call.
Qed.

Lemma env_blind_cell_test_inference g : env_blind (cell_test_inference w g).
Proof.
  unfold cell_test_inference.
  apply env_blind_bind; [apply env_blind_call|]. intros _.
  apply env_blind_bind; [apply env_blind_magic_cd|]. intros _.
  apply env_blind_bind; [apply env_blind_shell|]. intros _.
  apply env_blind_call.
Qed.

Lemma aborts_alike_bind_l {A B} (m : M A) (k : A -> M B) :
  aborts_alike w m -> aborts_alike w (bind m k).
Proof.
  intros Hm s1 s2 H F1 F2. destruct (Hm s1 s2 H F1 F2) as (H' & x & E1 & E2).
  unfold bind.
  destruct (m s1) as [t1 [a|y1]], (m s2) as [t2 [b|y2]]; simpl in *;
    try discriminate.
  injection E1 as ->. injection E2 as ->. eauto.
Qed.

Lemma aborts_alike_bind_r {A B} (m : M A) (k : A -> M B) :
  env_blind m -> keeps_environ m -> (forall a, aborts_alike w (k a)) ->
  aborts_alike w (bind m k).
Proof.
  intros Hm Hv Hk s1 s2 H F1 F2. destruct (Hm s1 s2 H) as [H' E].
  pose proof (Hv s1) as V1. pose proof (Hv s2) as V2. unfold bind.
  destruct (m s1) as [t1 [a|y1]], (m s2) as [t2 [b|y2]]; simpl in *;
    try discriminate.
  - injection E as <-. apply Hk; [exact H'| |];
      unfold environ_at_check in *; congruence.
  - injection E as <-. eauto.
Qed.

(** From [load_dotenv()] on, the credential cell ends in the same way
    whether the variable is unset or empty. *)
Lemma credential_check_alike :
  aborts_alike w
    (load_dotenv w;;
     api_key <- os_getenv credential;;
     if negb (Py.truthy_opt api_key) then raise api_key_error
     else log (Print "✅ API key loaded successfully");; ret api_key).
Proof.
  agree_intro. unfold environ_at_check. simpl. intros F1 F2.
  unfold load_dotenv, bind, os_getenv, call. simpl.
  destruct (ext_fail w t2 LoadDotenv); simpl.
  - split; [now split|eauto].
  - rewrite F1, F2. simpl. split; [now split|eauto].
Qed.

Lemma notebook_aborts_alike : aborts_alike w (notebook w).
Proof.
  assert (HQ : forall (h : list event) e, setup_event e = true -> True) by auto.
  unfold notebook.
  apply aborts_alike_bind_r;
    [apply env_blind_shell
    |apply follows_keeps_environ, cell_gpu_check_follows; first [apply _|exact HQ]|].
  intros _.
  apply aborts_alike_bind_r;
    [apply env_blind_cell_project_dir
    |apply follows_keeps_environ, cell_project_dir_follows; first [apply _|exact HQ]|].
  intros g.
  apply aborts_alike_bind_r;
    [apply env_blind_cell_install_yolo
    |apply follows_keeps_environ, cell_install_yolo_follows; first [apply _|exact HQ]|].
  intros _.
  apply aborts_alike_bind_r;
    [apply env_blind_cell_test_inference
    |apply follows_keeps_environ, cell_test_inference_follows; first [apply _|exact HQ]|].
  intros _.
  apply aborts_alike_bind_l. unfold cell_roboflow_env.
  do 2 (apply aborts_alike_bind_r;
        [apply env_blind_ensure_package_installed
        |apply follows_keeps_environ, ensure_package_installed_follows;
           first [apply _|exact HQ]|];
        intros _).
  do 2 (apply aborts_alike_bind_r;
        [apply env_blind_call
        |apply follows_keeps_environ, call_follows; first [apply _|exact HQ|reflexivity]|];
        intros _).
  apply credential_check_alike.
Qed.

End EnvBlind.

(* ===================================================================== *)
(** * Properties of the training calls *)
(* ===================================================================== *)

#[global] Instance device_rule_closed w : Closed (device_rule w).
Proof.
  split.
  - intros h pre a post E. now destruct pre.
  - intros h l1 l2 H1 H2 pre a post E.
    apply app_eq_app in E as [l [[-> E]|[-> ->]]].
    + destruct l as [|e l].
      * simpl in E. subst l2. rewrite app_nil_r in *.
        destruct (H2 [] a post eq_refl) as (_ & _ & pre' & Hp & _).
        now destruct pre'.
      * injection E as <- ->. exact (H1 pre a l eq_refl).
    + destruct (H2 l a post eq_refl) as (Hw & Hu & pre' & -> & Hd).
      split; [exact Hw|]. split; [exact Hu|].
      exists (l1 ++ pre'). rewrite !app_assoc in *. auto.
Qed.

Lemma device_rule_run w h g loc c available evs :
  evs `prefix_of` run_events g loc c available ->
  (forall pre b post, evs = pre ++ CudaIsAvailable b :: post ->
     b = cuda w (h ++ pre)) ->
  device_rule w h evs.
Proof.
  destruct c as [[[v e] b] o]. intros [k Hk] Hcuda pre a post ->.
  unfold run_events, cell_events in Hk.
  split_list pre.
  repeat split.
  eexists [_; _; _; _]. simpl.
  rewrite <- (Hcuda [_; _; _; _] available (YoloTrain _ :: post) eq_refl).
  auto.
Qed.

Lemma reads_dataset_run g loc c available evs :
  evs `prefix_of` run_events g loc c available ->
  reads_dataset (loc +:+ "/data.yaml") evs.
Proof.
  destruct c as [[[v e] b] o]. intros [k Hk].
  assert (H : reads_dataset (loc +:+ "/data.yaml")
                (run_events g loc (v, e, b, o) available)).
  { unfold reads_dataset, run_events, cell_events.
    repeat constructor; intros a [=]. now subst a. }
  rewrite Hk in H. now apply Forall_app in H.
Qed.

#[global] Instance reads_dataset_closed yaml :
  Closed (fun _ => reads_dataset yaml).
Proof. unfold reads_dataset. apply Forall_closed. Qed.


Lemma quiet_sample : quiet Sample.quiet_world.
Proof. repeat split; intros; reflexivity. Qed.

Lemma run_cells_quiet w g loc cs s :
  quiet w ->
  Pathlib.anchor (HOME g) ∈ dirs s -> DATASETS_PATH g ∈ dirs s ->
  exists s' availables,
    for_each cs (run_cell w g loc) s = (s', Ok tt) /\
    length availables = length cs /\
    emitted (concat (zip_with (run_events g loc) cs availables)) s s'.
Proof.
  intros Hq. revert s. induction cs as [|c cs IH]; intros s Ha Hd.
  - exists s, []. repeat split. simpl. now rewrite app_nil_r.
  - destruct c as [[[v e] b] o]. cbn [for_each run_cell].
    set (P := ({[DATASETS_PATH g; Pathlib.anchor (HOME g)]} : gset Path)).
    assert (HP : P ⊆ dirs s).
    { intros p [->%elem_of_singleton| ->%elem_of_singleton]%elem_of_union;
        assumption. }
    assert (HPd : DATASETS_PATH g ∈ P)
      by (apply elem_of_union_l, elem_of_singleton; reflexivity).
    assert (HPa : Pathlib.anchor (HOME g) ∈ P)
      by (apply elem_of_union_r, elem_of_singleton; reflexivity).
    destruct (train_yolo_with_wandb_succeeds P w Hq g v e b o loc HPd HPa s HP)
      as (s1 & [] & E1 & D1 & V1).
    destruct (train_cell w g v e b o loc s) as (evs & av & Hem & _ & Hok & _).
    rewrite E1 in Hem, Hok. simpl in Hem, Hok. rewrite (Hok eq_refl) in Hem.
    destruct (IH s1 (D1 _ Ha) (D1 _ Hd)) as (s2 & avs & E2 & Hlen & Hem2).
    exists s2, (av :: avs). rewrite (bind_ok _ _ _ _ _ E1).
    split; [exact E2|]. split; [simpl; congruence|].
    cbn [zip_with concat]. eapply emitted_trans; eassumption.
Qed.

(* ===================================================================== *)
(** * The whole notebook in a quiet world *)
(* ===================================================================== *)

#[global] Instance no_training_closed : Closed no_training.
Proof. unfold no_training. apply Forall_closed. Qed.

Section QuietRun.

Variable w : World.
Hypothesis Hq : quiet w.

Lemma quiet_single (h : list event) e : training_event e = false -> no_training h [e].
Proof. intros He. repeat constructor. exact He. Qed.

Lemma quiet_single_setup (h : list event) e : setup_event e = true -> no_training h [e].
Proof. intros He. apply quiet_single. now apply setup_not_training. Qed.

(** The project-directory cell creates the datasets directory. *)
Lemma cell_project_dir_quiet s :
  Pathlib.anchor (cwd s) ∈ dirs s ->
  exists s', cell_project_dir w s = (s', Ok (globals_of (cwd s))) /\
             dirs s ⊆ dirs s' /\ reaches no_training s s' /\
             DATASETS_PATH (globals_of (cwd s)) ∈ dirs s'.
Proof.
  intros Ha.
  destruct (cell_project_dir_succeeds w (cwd s) Hq s eq_refl)
    as (s' & g & E & D & _).
  { now apply singleton_subseteq_l. }
  pose proof (cell_project_dir_value w s g) as Hg. rewrite E in Hg.
  specialize (Hg eq_refl). subst g.
  pose proof (cell_project_dir_follows w no_training quiet_single_setup s) as Hr.
  rewrite E in Hr. exists s'. split; [exact E|]. split; [exact D|].
  split; [exact Hr|].
  revert E. unfold cell_project_dir, path_cwd.
  rewrite (bind_ok _ _ s s (cwd s) eq_refl). unfold bind.
  destruct (path_mkdir w _ true true s) as [s1 [[]|x]] eqn:E1; [|discriminate].
  simpl. intros [= <-]. simpl.
  unfold path_mkdir, bind, log in E1. apply mkdir_from_post in E1.
  rewrite rev_involutive in E1.
  now destruct (Pathlib.parent (cwd s) / "yolov8" / "datasets")%path.
Qed.

(** With a usable credential the credential cell returns it. *)
Lemma cell_roboflow_env_quiet P s :
  P ⊆ dirs s ->
  Py.truthy_opt (environ_at_check w s !! credential) = true ->
  exists s', cell_roboflow_env w s
             = (s', Ok (environ_at_check w s !! credential)) /\
             dirs s ⊆ dirs s' /\ reaches_trace no_training s s'.
Proof.
  intros HP Ht.
  pose proof (cell_roboflow_env_follows w no_training quiet_single_setup s) as Hr.
  cut (exists s', cell_roboflow_env w s
                  = (s', Ok (environ_at_check w s !! credential)) /\
                  dirs s ⊆ dirs s').
  { intros (s' & E & D). rewrite E in Hr. eauto. }
  clear Hr. unfold cell_roboflow_env.
  destruct (ensure_package_installed_succeeds P w Hq "python-dotenv"
              (Some "dotenv") "" s HP) as (s1 & [] & E1 & D1 & V1).
  rewrite (bind_ok _ _ _ _ _ E1).
  destruct (ensure_package_installed_succeeds P w Hq "roboflow" None "" s1)
    as (s2 & [] & E2 & D2 & V2); [etransitivity; eassumption|].
  rewrite (bind_ok _ _ _ _ _ E2).
  destruct (call_succeeds P w Hq (ImportModule "dotenv") s2)
    as (s3 & [] & E3 & D3 & V3); [repeat (etransitivity; [|eassumption]); reflexivity|].
  rewrite (bind_ok _ _ _ _ _ E3).
  destruct (call_succeeds P w Hq (ImportModule "roboflow") s3)
    as (s4 & [] & E4 & D4 & V4); [repeat (etransitivity; [|eassumption]); reflexivity|].
  rewrite (bind_ok _ _ _ _ _ E4).
  destruct Hq as (Hext & _ & Hmono).
  unfold load_dotenv, bind, os_getenv, call, log. rewrite Hext. simpl.
  assert (Hk : (environ s4 ∪ dotenv_file w) !! "ROBOFLOW_API_KEY"
               = environ_at_check w s !! credential).
  { unfold environ_at_check. now rewrite V4, V3, V2, V1. }
  rewrite Hk, Ht. simpl. eexists. split; [reflexivity|]. simpl.
  repeat (etransitivity; [eassumption|]). apply Hmono.
Qed.

Lemma cell_download_succeeds P g key :
  DATASETS_PATH g ∈ P -> succeeds P (cell_download w g key).
Proof.
  intros HD. unfold cell_download.
  apply succeeds_bind; [now apply os_chdir_succeeds|]. intros _.
  repeat (apply succeeds_bind; [now apply call_succeeds|]; intros _).
  apply succeeds_bind; [apply get_state_succeeds|]. intros s'.
  apply succeeds_ret.
Qed.

Lemma cell_wandb_setup_succeeds P : succeeds P (cell_wandb_setup w).
Proof.
  unfold cell_wandb_setup.
  do 2 (apply succeeds_bind;
        [now apply ensure_package_installed_succeeds|]; intros _).
  repeat (apply succeeds_bind; [now apply call_succeeds|]; intros _).
  apply succeeds_bind; [apply log_succeeds|]. intros _. apply log_succeeds.
Qed.

(** One cell that returns and emits no training event. *)
Lemma quiet_step {A} P (m : M A) s :
  succeeds P m -> follows (reaches no_training) m -> P ⊆ dirs s ->
  exists s' a evs,
    m s = (s', Ok a) /\ dirs s ⊆ dirs s' /\ environ s' = environ s /\
    trace s' = trace s ++ evs /\
    Forall (fun e => training_event e = false) evs.
Proof.
  intros Hs Hf HP. destruct (Hs s HP) as (s' & a & E & D & V).
  destruct (Hf s) as (evs & [T _] & HQ). rewrite E in T.
  exists s', a, evs. auto.
Qed.

(** In a quiet world, with a usable credential, the whole notebook
    returns: the cells before the grid search emit no training event,
    and the grid search then runs its 160 cells. *)
Lemma notebook_quiet_run s :
  Pathlib.anchor (cwd s) ∈ dirs s ->
  Py.truthy_opt (environ_at_check w s !! credential) = true ->
  let g := globals_of (cwd s) in
  exists s' before availables,
    notebook w s = (s', Ok tt) /\
    Forall (fun e => training_event e = false) before /\
    length availables = 160%nat /\
    trace s' = trace s ++ before ++
      concat (zip_with (run_events g (grid_dataset_location g))
                (grid_cells versions epochs batch_sizes optimizers) availables).
Proof.
  intros Ha Ht g. unfold notebook.
  set (P0 := ({[Pathlib.anchor (cwd s)]} : gset Path)).
  assert (HP0 : P0 ⊆ dirs s) by now apply singleton_subseteq_l.
  (* GPU check *)
  destruct (quiet_step P0 (cell_gpu_check w) s) as (s1 & [] & l1 & E1 & D1 & V1 & T1 & F1);
    [now apply cell_gpu_check_succeeds
    |apply cell_gpu_check_follows; first [apply _|exact quiet_single_setup]
    |exact HP0|].
  rewrite (bind_ok _ _ _ _ _ E1).
  assert (C1 : cwd s1 = cwd s) by (now injection E1 as <-).
  (* project directory *)
  destruct (cell_project_dir_quiet s1) as (s2 & E2 & D2 & (l2 & [T2 V2] & F2) & HD).
  { rewrite C1. apply D1, Ha. }
  rewrite C1 in E2, HD. fold g in E2, HD.
  rewrite (bind_ok _ _ _ _ _ E2).
  set (P := ({[DATASETS_PATH g; Pathlib.anchor (HOME g)]} : gset Path)).
  assert (HA : Pathlib.anchor (HOME g) = Pathlib.anchor (cwd s)).
  { unfold g, globals_of, Pathlib.anchor. cbn [HOME]. f_equal.
    change "yolov8" with (String "y" "olov8").
    rewrite PathFacts.div_relative by reflexivity. cbn [root].
    unfold Pathlib.parent. now destruct (parts (cwd s)). }
  assert (HPd : DATASETS_PATH g ∈ P)
    by (apply elem_of_union_l, elem_of_singleton; reflexivity).
  assert (HPa : Pathlib.anchor (HOME g) ∈ P)
    by (apply elem_of_union_r, elem_of_singleton; reflexivity).
  assert (HP2 : P ⊆ dirs s2).
  { intros p [->%elem_of_singleton| ->%elem_of_singleton]%elem_of_union;
      [exact HD|]. rewrite HA. apply D2, D1, Ha. }
  (* install and verify YOLOv8 *)
  destruct (quiet_step P (cell_install_yolo w) s2) as (s3 & [] & l3 & E3 & D3 & V3 & T3 & F3);
    [now apply cell_install_yolo_succeeds
    |apply cell_install_yolo_follows; first [apply _|exact quiet_single_setup]
    |exact HP2|].
  rewrite (bind_ok _ _ _ _ _ E3).
  (* test inference *)
  destruct (quiet_step P (cell_test_inference w g) s3) as (s4 & [] & l4 & E4 & D4 & V4 & T4 & F4);
    [now apply cell_test_inference_succeeds
    |apply cell_test_inference_follows; first [apply _|exact quiet_single_setup]
    |etransitivity; [exact HP2|exact D3]|].
  rewrite (bind_ok _ _ _ _ _ E4).
  (* credential *)
  assert (HP4 : P ⊆ dirs s4)
    by (etransitivity; [exact HP2|etransitivity; [exact D3|exact D4]]).
  assert (Hk : environ_at_check w s4 !! credential
               = environ_at_check w s !! credential).
  { unfold environ_at_check. now rewrite V4, V3, V2, V1. }
  destruct (cell_roboflow_env_quiet P s4 HP4) as (s5 & E5 & D5 & l5 & T5 & F5).
  { now rewrite Hk. }
  rewrite (bind_ok _ _ _ _ _ E5).
  (* download *)
  destruct (quiet_step P (cell_download w g (environ_at_check w s4 !! credential)) s5)
    as (s6 & loc & l6 & E6 & D6 & V6 & T6 & F6);
    [now apply cell_download_succeeds
    |apply cell_download_follows; first [apply _|exact quiet_single]
    |etransitivity; [exact HP4|exact D5]|].
  rewrite (bind_ok _ _ _ _ _ E6).
  (* Weights & Biases *)
  destruct (quiet_step P (cell_wandb_setup w) s6) as (s7 & [] & l7 & E7 & D7 & V7 & T7 & F7);
    [now apply cell_wandb_setup_succeeds
    |apply cell_wandb_setup_follows; first [apply _|exact quiet_single]
    |etransitivity; [exact HP4|etransitivity; [exact D5|exact D6]]|].
  rewrite (bind_ok _ _ _ _ _ E7).
  (* grid search *)
  assert (HP7 : P ⊆ dirs s7).
  { etransitivity; [exact HP4|].
    etransitivity; [exact D5|]. etransitivity; [exact D6|exact D7]. }
  destruct (run_cells_quiet w g (grid_dataset_location g)
              (grid_cells versions epochs batch_sizes optimizers) s7 Hq)
    as (s8 & avs & E8 & Hlen & [T8 _]); [now apply HP7..|].
  exists s8, (l1 ++ l2 ++ l3 ++ l4 ++ l5 ++ l6 ++ l7), avs.
  unfold cell_grid_search. rewrite grid_loop_flat.
  split; [exact E8|]. split; [now repeat apply Forall_app_2|].
  split; [exact Hlen|].
  rewrite T8, T7, T6, T5, T4, T3, T2, T1. now rewrite <- !app_assoc.
Qed.

End QuietRun.

(* ===================================================================== *)
(** * How far a run gets *)
(* ===================================================================== *)

Lemma path_eta p : mkPath (root p) (parts p) = p.
Proof. now destruct p. Qed.

Section Progress.

Variable w : World.
Variable g : Globals.
Variables (version : string) (epoch batch_size : Z).
Variables (optimizer dataset_location : string).

Let run := train_yolo_with_wandb w g version epoch batch_size optimizer
                                 dataset_location.
Let dir := experiment_path (HOME g) version epoch batch_size optimizer.
Let init := WandbInit (wandb_args g version epoch batch_size optimizer).
Let args := yolo_train_args g version epoch batch_size optimizer
                            dataset_location.

Ltac stopped l T :=
  exists l; simpl; split; [exact T|]; split; [eexists; reflexivity|].

(** A run takes its steps one after the other and stops exactly at the
    first that fails; the training call follows the accelerator query. *)
Lemma train_cell_progress s :
  exists evs,
    trace (run s).1 = trace s ++ evs /\
    (exists rest, evs = Chdir (DATASETS_PATH g) :: rest) /\
    (forall x, (run s).2 = Raise x ->
       exists pre last, evs = pre ++ [last] /\ fails_at w g s pre last x) /\
    (forall pre av post, evs = pre ++ CudaIsAvailable av :: post ->
       exists post', post = YoloTrain (args av) :: post').
Proof.
  subst run dir init args. unfold train_yolo_with_wandb.
  set (D := DATASETS_PATH g).
  set (ep := experiment_path (HOME g) version epoch batch_size optimizer).
  set (wa := wandb_args g version epoch batch_size optimizer).
  set (ta := yolo_train_args g version epoch batch_size optimizer dataset_location).
  (* os.chdir *)
  pose proof (os_chdir_emitted w D s) as [T1 _].
  destruct (os_chdir w D s) as [s1 [[]|x]] eqn:E1;
    [rewrite (bind_ok _ _ _ _ _ E1) | rewrite (bind_raise _ _ _ _ _ E1)];
    simpl in T1.
  2:{ stopped [Chdir D] T1.
      split; [intros y [= <-]; exists [], (Chdir D); split; [reflexivity|];
              simpl; now rewrite E1|].
      intros pre av post E; split_list pre. }
  (* mkdir *)
  pose proof (path_mkdir_emitted w ep true true s1) as [T2 _].
  destruct (path_mkdir w ep true true s1) as [s2 [[]|x]] eqn:E2;
    [rewrite (bind_ok _ _ _ _ _ E2) | rewrite (bind_raise _ _ _ _ _ E2)];
    simpl in T2; rewrite T1 in T2; rewrite <- app_assoc in T2; simpl in T2.
  2:{ stopped [Chdir D; PathMkdir ep] T2.
      split; [intros y [= <-]; exists [Chdir D], (PathMkdir ep);
              split; [reflexivity|]; exists s1; split; [exact E1|];
              now rewrite E2|].
      intros pre av post E; split_list pre. }
  (* wandb.init *)
  pose proof (call_emitted w (WandbInit wa) s2) as [T3 _].
  pose proof (call_result w (WandbInit wa) s2) as R3.
  destruct (call w (WandbInit wa) s2) as [s3 [[]|x]] eqn:E3;
    [rewrite (bind_ok _ _ _ _ _ E3) | rewrite (bind_raise _ _ _ _ _ E3)];
    simpl in T3, R3; rewrite T2 in T3, R3; rewrite <- app_assoc in T3; simpl in T3.
  2:{ stopped [Chdir D; PathMkdir ep; WandbInit wa] T3.
      split; [intros y [= <-]; exists [Chdir D; PathMkdir ep], (WandbInit wa);
              split; [reflexivity|]; simpl;
              destruct (ext_fail w _ (WandbInit wa)); congruence|].
      intros pre av post E; split_list pre. }
  (* YOLO(...) *)
  set (ld := YoloLoad ("yolov8" +:+ version +:+ ".pt")).
  pose proof (call_emitted w ld s3) as [T4 _].
  pose proof (call_result w ld s3) as R4.
  destruct (call w ld s3) as [s4 [[]|x]] eqn:E4;
    [rewrite (bind_ok _ _ _ _ _ E4) | rewrite (bind_raise _ _ _ _ _ E4)];
    simpl in T4, R4; rewrite T3 in T4, R4; rewrite <- app_assoc in T4; simpl in T4.
  2:{ stopped [Chdir D; PathMkdir ep; WandbInit wa; ld] T4.
      split; [intros y [= <-]; exists [Chdir D; PathMkdir ep; WandbInit wa], ld;
              split; [reflexivity|]; simpl;
              destruct (ext_fail w _ ld); congruence|].
      intros pre av post E; subst ld; split_list pre. }
  (* torch.cuda.is_available() *)
  rewrite bind_cuda.
  set (av := cuda w (trace s4)).
  remember (record (CudaIsAvailable av) s4) as s5 eqn:Es5.
  assert (T5 : trace s5 = trace s ++ [Chdir D; PathMkdir ep; WandbInit wa; ld;
                                      CudaIsAvailable av]).
  { subst s5. simpl. rewrite T4, <- app_assoc. reflexivity. }
  clear Es5.
  (* model.train *)
  pose proof (call_emitted w (YoloTrain (ta av)) s5) as [T6 _].
  pose proof (call_result w (YoloTrain (ta av)) s5) as R6.
  destruct (call w (YoloTrain (ta av)) s5) as [s6 [[]|x]] eqn:E6;
    [rewrite (bind_ok _ _ _ _ _ E6) | rewrite (bind_raise _ _ _ _ _ E6)];
    simpl in T6, R6; rewrite T5 in T6, R6; rewrite <- app_assoc in T6;
    simpl in T6.
  2:{ stopped [Chdir D; PathMkdir ep; WandbInit wa; ld;
               CudaIsAvailable av; YoloTrain (ta av)] T6.
      split; [intros y [= <-];
              exists [Chdir D; PathMkdir ep; WandbInit wa; ld; CudaIsAvailable av],
                (YoloTrain (ta av));
              split; [reflexivity|]; simpl;
              destruct (ext_fail w _ (YoloTrain (ta av))); congruence|].
      intros pre av' post E; subst ld; split_list pre. eauto. }
  (* wandb.finish *)
  pose proof (call_emitted w WandbFinish s6) as [T7 _].
  pose proof (call_result w WandbFinish s6) as R7.
  rewrite T6 in R7.
  exists [Chdir D; PathMkdir ep; WandbInit wa; ld; CudaIsAvailable av;
          YoloTrain (ta av); WandbFinish].
  split; [rewrite T7, T6, <- app_assoc; reflexivity|].
  split; [eexists; reflexivity|].
  split.
  { intros y Hy.
    exists [Chdir D; PathMkdir ep; WandbInit wa; ld; CudaIsAvailable av;
            YoloTrain (ta av)], WandbFinish.
    split; [reflexivity|]. simpl. rewrite Hy in R7.
    destruct (ext_fail w _ WandbFinish); congruence. }
  intros pre av' post E; subst ld; split_list pre. eauto.
Qed.


End Progress.

(** Every cell has its run among the runs of the cells. *)
Lemma runs_contain g loc cs avs c :
  length avs = length cs -> In c cs ->
  exists av pre post,
    concat (zip_with (run_events g loc) cs avs)
    = pre ++ run_events g loc c av ++ post.
Proof.
  revert avs. induction cs as [|c' cs IH]; intros [|av avs] Hl Hin;
    try discriminate; [contradiction|].
  cbn [zip_with concat]. destruct Hin as [->|Hin].
  - exists av, [], (concat (zip_with (run_events g loc) cs avs)). reflexivity.
  - destruct (IH avs) as (av' & pre & post & E); [now injection Hl|exact Hin|].
    exists av', (run_events g loc c' av ++ pre), post.
    now rewrite E, <- app_assoc.
Qed.

(** When nothing fails, the notebook makes the training call of every
    combination of the four lists, right after an accelerator query. *)
Lemma notebook_quiet_trains w s :
  quiet w ->
  Pathlib.anchor (cwd s) ∈ dirs s ->
  Py.truthy_opt (environ_at_check w s !! credential) = true ->
  let g := globals_of (cwd s) in
  exists evs,
    (notebook w s).2 = Ok tt /\
    trace (notebook w s).1 = trace s ++ evs /\
    forall v e b o,
      In v versions -> In e epochs -> In b batch_sizes -> In o optimizers ->
      exists pre av post,
        evs = pre ++ CudaIsAvailable av
                  :: YoloTrain (yolo_train_args g v e b o
                                  (grid_dataset_location g) av) :: post.
Proof.
  intros Hq Ha Ht g.
  destruct (notebook_quiet_run w Hq s Ha Ht)
    as (s' & before & avs & E & _ & Hl & T).
  fold g in T. rewrite E. simpl.
  eexists. split; [reflexivity|]. split; [exact T|].
  intros v e b o Hv He Hb Ho.
  destruct (runs_contain g (grid_dataset_location g)
              (grid_cells versions epochs batch_sizes optimizers) avs
              (v, e, b, o)) as (av & pre & post & Hc).
  { rewrite Hl. reflexivity. }
  { now apply in_grid_cells. }
  rewrite Hc. cbn [run_events cell_events].
  exists (before ++ pre ++ [Chdir (DATASETS_PATH g);
                            PathMkdir (experiment_path (HOME g) v e b o);
                            WandbInit (wandb_args g v e b o);
                            YoloLoad ("yolov8" +:+ v +:+ ".pt")]), av,
    (WandbFinish :: post).
  rewrite <- !app_assoc. reflexivity.
Qed.

(* ===================================================================== *)
(** * The properties the specification states *)
(* ===================================================================== *)

(** C1.  In a quiet world, started where the datasets directory exists,
    the four nested loops over any four lists return normally, and their
    trace is one seven-step block per cell of the Cartesian product, in
    the order of the nesting; the cells are exactly the combinations of
    one element of each list.  For the lists of the notebook there are
    160 cells, pairwise distinct, and the cell at position
    [((i*4 + j)*4 + k)*2 + l] pairs the [i]-th model size, the [j]-th
    epoch count, the [k]-th batch size and the [l]-th optimizer: the
    model size varies slowest and the optimizer fastest. *)
Theorem grid_search_runs_every_cell w g s :
  quiet w ->
  Pathlib.anchor (HOME g) ∈ dirs s ->
  DATASETS_PATH g ∈ dirs s ->
  (forall vs es bs os loc,
     let cells := grid_cells vs es bs os in
     (forall v e b o,
        In (v, e, b, o) cells <-> In v vs /\ In e es /\ In b bs /\ In o os) /\
     length cells = (length vs * (length es * (length bs * length os)))%nat /\
     exists s' availables,
       grid_loop w g vs es bs os loc s = (s', Ok tt) /\
       length availables = length cells /\
       trace s' = trace s ++
         concat (zip_with (run_events g loc) cells availables)) /\
  let cells := grid_cells versions epochs batch_sizes optimizers in
  length cells = 160%nat /\
  NoDup cells /\
  (forall i j k l v e b o,
     versions !! i = Some v -> epochs !! j = Some e ->
     batch_sizes !! k = Some b -> optimizers !! l = Some o ->
     cells !! (((i * 4 + j) * 4 + k) * 2 + l)%nat = Some (v, e, b, o)) /\
  exists s' availables,
    cell_grid_search w g s = (s', Ok tt) /\
    length availables = 160%nat /\
    trace s' = trace s ++
      concat (zip_with (run_events g (grid_dataset_location g)) cells availables).
Proof.
  intros Hq Ha Hd.
  assert (Hloop : forall vs es bs os loc,
            exists s' availables,
              grid_loop w g vs es bs os loc s = (s', Ok tt) /\
              length availables = length (grid_cells vs es bs os) /\
              trace s' = trace s ++
                concat (zip_with (run_events g loc) (grid_cells vs es bs os)
                                 availables)).
  { intros vs es bs os loc.
    destruct (run_cells_quiet w g loc (grid_cells vs es bs os) s Hq Ha Hd)
      as (s' & avs & E & Hlen & [T _]).
    exists s', avs. rewrite grid_loop_flat. auto. }
  split.
  { intros vs es bs os loc cells.
    split; [apply in_grid_cells|]. split; [apply grid_cells_length|].
    apply Hloop. }
  intros cells.
  split; [reflexivity|].
  split; [apply (bool_decide_unpack _); vm_compute; exact I|].
  split.
  - intros i j k l v e b o Hi Hj Hk Hl.
    destruct i as [|[|[|[|[|i]]]]]; try discriminate Hi;
      destruct j as [|[|[|[|j]]]]; try discriminate Hj;
      destruct k as [|[|[|[|k]]]]; try discriminate Hk;
      destruct l as [|[|l]]; try discriminate Hl;
      apply (inj Some) in Hi, Hj, Hk, Hl; subst v e b o; reflexivity.
  - apply Hloop.
Qed.

Lemma grid_search_runs_every_cell_witness :
  exists s' availables,
    cell_grid_search Sample.quiet_world Sample.globals Sample.before_grid
    = (s', Ok tt) /\
    length availables = 160%nat /\
    trace s' = trace Sample.before_grid ++
      concat (zip_with
                (run_events Sample.globals (grid_dataset_location Sample.globals))
                (grid_cells versions epochs batch_sizes optimizers) availables).
Proof.
  refine (proj2 (proj2 (proj2 (proj2
            (grid_search_runs_every_cell Sample.quiet_world Sample.globals
               Sample.before_grid quiet_sample _ _))))).
  - apply (bool_decide_unpack _). vm_compute. exact I.
  - apply (bool_decide_unpack _). vm_compute. exact I.
Defined.

(** C2.  For a valid configuration the experiment directory is [home]
    joined with
    [experiments/yolov8<model_size>/epoch_<e>_batch_<b>_optimizer_<o>]:
    three components below [home], and two valid configurations with
    the same directory are the same configuration.  The path is a
    function of [home] and of the four values only; no state enters. *)
Theorem experiment_path_unique home v e b o :
  valid_config v e b o ->
  experiment_path home v e b o
  = (home / ("experiments/yolov8" +:+ v +:+ "/epoch_" +:+ Py.str_int e
             +:+ "_batch_" +:+ Py.str_int b +:+ "_optimizer_" +:+ o))%path /\
  parts (experiment_path home v e b o)
  = parts home ++ ["experiments"; "yolov8" +:+ v;
                   "epoch_" +:+ Py.str_int e +:+ "_batch_" +:+ Py.str_int b
                   +:+ "_optimizer_" +:+ o] /\
  forall v' e' b' o',
    valid_config v' e' b' o' ->
    experiment_path home v' e' b' o' = experiment_path home v e b o ->
    v' = v /\ e' = e /\ b' = b /\ o' = o.
Proof.
  intros Hv. destruct (PathFacts.valid_no_slash _ _ _ _ Hv) as [Sv So].
  rewrite PathFacts.experiment_path_parts by assumption.
  split; [|split; [reflexivity|]].
  - change ("experiments/yolov8" +:+ v +:+ "/epoch_" +:+ Py.str_int e
            +:+ "_batch_" +:+ Py.str_int b +:+ "_optimizer_" +:+ o)
      with (String "e" ("xperiments/yolov8" +:+ v +:+ "/epoch_"
            +:+ Py.str_int e +:+ "_batch_" +:+ Py.str_int b
            +:+ "_optimizer_" +:+ o)).
    rewrite PathFacts.div_relative by reflexivity. f_equal. f_equal.
    change (String "e" ("xperiments/yolov8" +:+ v +:+ "/epoch_"
            +:+ Py.str_int e +:+ "_batch_" +:+ Py.str_int b
            +:+ "_optimizer_" +:+ o))
      with ("experiments" +:+ String "/" (("yolov8" +:+ v)
            +:+ String "/" (experiment_name e b o))).
    rewrite !PathFacts.components_app.
    rewrite PathFacts.experiment_name_components by exact So.
    rewrite (PathFacts.components_one ("yolov8" +:+ v)); [reflexivity| |reflexivity].
    rewrite PyFacts.occurs_app, Sv. reflexivity.
  - intros v' e' b' o' Hv' E.
    destruct (PathFacts.valid_no_slash _ _ _ _ Hv') as [Sv' So'].
    rewrite <- (PathFacts.experiment_path_parts home v e b o) in E by assumption.
    now apply (PathFacts.experiment_path_inj home).
Qed.

Lemma experiment_path_unique_witness :
  parts (experiment_path Sample.notebook_dir "x" 200 16 "SGD")
  = ["home"; "user"; "notebook"; "experiments"; "yolov8x";
     "epoch_200_batch_16_optimizer_SGD"].
Proof.
  assert (Hv : valid_config "x" 200 16 "SGD").
  { unfold valid_config, versions, optimizers.
    repeat split; [simpl; auto 10|simpl; auto]. }
  pose proof (proj1 (proj2 (experiment_path_unique Sample.notebook_dir
                              "x" 200 16 "SGD" Hv))) as E.
  vm_compute in E. vm_compute. exact E.
Defined.

(** C3.  The configuration ("n", 50, 2, "Adam") is run in the directory
    [experiments/yolov8n/epoch_50_batch_2_optimizer_Adam] below the
    project directory [base / "yolov8"], and its tracking session is
    named [yolov8n-epoch_50_batch_2_optimizer_Adam]. *)
Theorem example_configuration base :
  let home := (base / "yolov8")%path in
  experiment_path home "n" 50 2 "Adam"
  = (home / "experiments/yolov8n/epoch_50_batch_2_optimizer_Adam")%path /\
  Pathlib.str (experiment_path home "n" 50 2 "Adam")
  = Pathlib.str home +:+ "/experiments/yolov8n/epoch_50_batch_2_optimizer_Adam" /\
  Pathlib.str (experiment_path (Pathlib.of_string "") "n" 50 2 "Adam")
  = "experiments/yolov8n/epoch_50_batch_2_optimizer_Adam" /\
  run_name "n" 50 2 "Adam" = "yolov8n-epoch_50_batch_2_optimizer_Adam" /\
  forall g,
    Wandb.name (wandb_args g "n" 50 2 "Adam")
    = "yolov8n-epoch_50_batch_2_optimizer_Adam".
Proof.
  intros home.
  assert (En : experiment_name 50 2 "Adam" = "epoch_50_batch_2_optimizer_Adam")
    by (vm_compute; reflexivity).
  assert (Ep : experiment_path home "n" 50 2 "Adam"
               = mkPath (root base)
                   ((parts base ++ ["yolov8"])
                    ++ ["experiments"; "yolov8n";
                        "epoch_50_batch_2_optimizer_Adam"])).
  { rewrite PathFacts.experiment_path_parts by reflexivity. now rewrite En. }
  split; [|split; [|split; [|split]]].
  - rewrite Ep. reflexivity.
  - rewrite Ep, PathFacts.str_below;
      [reflexivity|now destruct (parts base)|discriminate].
  - vm_compute. reflexivity.
  - vm_compute. reflexivity.
  - intros g. vm_compute. reflexivity.
Qed.

(** Without a usable credential at the check the notebook raises; what
    it has emitted by then are events of the setup cells only, so no
    dataset download, no tracking session, no model loading and no
    training; and when nothing else fails the exception is the
    [ValueError] of the check. *)
Lemma notebook_without_credential w s :
  Py.truthy_opt (environ_at_check w s !! credential) = false ->
  (exists x, (notebook w s).2 = Raise x) /\
  (exists evs, trace (notebook w s).1 = trace s ++ evs /\
               Forall (fun e => setup_event e = true) evs) /\
  (quiet w -> Pathlib.anchor (cwd s) ∈ dirs s ->
   (notebook w s).2 = Raise api_key_error).
Proof.
  intros Hs.
  assert (HQ : forall (h : list event) e,
             setup_event e = true -> Forall (fun e => setup_event e = true) [e]).
  { intros _ e He. repeat constructor. exact He. }
  destruct (notebook_aborts w (fun _ => Forall (fun e => setup_event e = true))
              HQ s Hs) as [Hr Hx].
  split; [exact Hx|]. split; [exact Hr|].
  intros Hq Ha. now apply notebook_aborts_with.
Qed.

(** C4.  If [ROBOFLOW_API_KEY] is absent from the environment the check
    reads, the notebook stops with an exception before any dataset
    download, tracking session or training invocation: the events before
    the abort are those of the setup cells.  When nothing else fails the
    exception is the descriptive [ValueError] of the check. *)
Theorem missing_credential_aborts w s :
  environ_at_check w s !! credential = None ->
  (exists x, (notebook w s).2 = Raise x) /\
  (exists evs, trace (notebook w s).1 = trace s ++ evs /\
               Forall (fun e => setup_event e = true) evs /\
               forall a, YoloTrain a ∉ evs) /\
  (quiet w -> Pathlib.anchor (cwd s) ∈ dirs s ->
   (notebook w s).2
   = Raise (ValueError
       "❌ API key not found. Ensure .env file contains ROBOFLOW_API_KEY.")).
Proof.
  intros Hnone.
  destruct (notebook_without_credential w s) as (Hx & (evs & T & F) & Hq).
  { now rewrite Hnone. }
  split; [exact Hx|]. split; [|exact Hq].
  exists evs. split; [exact T|]. split; [exact F|].
  intros a Hin. rewrite Forall_forall in F.
  apply F in Hin. discriminate.
Qed.

Lemma missing_credential_aborts_witness :
  (notebook Sample.quiet_world (Sample.fresh ∅)).2 = Raise api_key_error.
Proof.
  apply (missing_credential_aborts Sample.quiet_world (Sample.fresh ∅)).
  - vm_compute. reflexivity.
  - exact quiet_sample.
  - apply (bool_decide_unpack _). vm_compute. exact I.
Defined.

(** The claim as the specification states it fails: without the
    credential the notebook does stop at the check, but not before any
    work.  By then it has run the GPU check, created the project
    directories, verified the packages, changed into the project
    directory and run the test inference. *)
Lemma missing_credential_abort_is_late :
  environ_at_check Sample.quiet_world (Sample.fresh ∅) !! credential = None /\
  (notebook Sample.quiet_world (Sample.fresh ∅)).2 = Raise api_key_error /\
  trace (notebook Sample.quiet_world (Sample.fresh ∅)).1
  = [Shell "nvidia-smi";
     PathMkdir (DATASETS_PATH Sample.globals);
     Print "📁 Project directory: /home/user/yolov8";
     ImportModule "ultralytics";
     Print "✅ ultralytics is already installed";
     ImportModule "ultralytics"; ImportModule "ultralytics";
     UltralyticsChecks; ImportModule "IPython.display";
     MagicCd "/home/user/yolov8";
     Shell "yolo task=detect mode=predict model=yolov8n.pt conf=0.25 source=/home/user/img/test.jpg save=True";
     DisplayImage "runs/detect/predict/test.jpg" 600;
     ImportModule "dotenv"; Print "✅ dotenv is already installed";
     ImportModule "roboflow"; Print "✅ roboflow is already installed";
     ImportModule "dotenv"; ImportModule "roboflow"; LoadDotenv] /\
  (DATASETS_PATH Sample.globals ∉ dirs (Sample.fresh ∅)) /\
  (DATASETS_PATH Sample.globals
   ∈ dirs (notebook Sample.quiet_world (Sample.fresh ∅)).1) /\
  cwd (Sample.fresh ∅) = Sample.notebook_dir /\
  cwd (notebook Sample.quiet_world (Sample.fresh ∅)).1 = HOME Sample.globals /\
  (HOME Sample.globals <> Sample.notebook_dir).
Proof.
  split; [vm_compute; reflexivity|].
  split; [vm_compute; reflexivity|].
  split; [vm_compute; reflexivity|].
  split; [apply (bool_decide_unpack _); vm_compute; exact I|].
  split; [apply (bool_decide_unpack _); vm_compute; exact I|].
  split; [reflexivity|].
  split; [vm_compute; reflexivity|].
  apply (bool_decide_unpack _). vm_compute. exact I.
Qed.


(** C9.  A credential that is set to the empty string is treated like a
    missing one: the check tests truthiness.  The notebook stops before
    any training invocation, with the [ValueError] of the check when
    nothing else fails; and a run in which the variable is unset, from a
    state that is otherwise the same, emits the same events and ends
    with the same exception. *)
Theorem empty_credential_aborts w s :
  environ_at_check w s !! credential = Some "" ->
  (exists x, (notebook w s).2 = Raise x) /\
  (exists evs, trace (notebook w s).1 = trace s ++ evs /\
               Forall (fun e => setup_event e = true) evs /\
               forall a, YoloTrain a ∉ evs) /\
  (quiet w -> Pathlib.anchor (cwd s) ∈ dirs s ->
   (notebook w s).2 = Raise api_key_error) /\
  (forall s',
     trace s' = trace s -> dirs s' = dirs s -> cwd s' = cwd s ->
     environ_at_check w s' !! credential = None ->
     trace (notebook w s').1 = trace (notebook w s).1 /\
     (notebook w s').2 = (notebook w s).2).
Proof.
  intros Hempty.
  destruct (notebook_without_credential w s) as (Hx & (evs & T & F) & Hq).
  { now rewrite Hempty. }
  split; [exact Hx|]. split; [|split; [exact Hq|]].
  - exists evs. split; [exact T|]. split; [exact F|].
    intros a Hin. rewrite Forall_forall in F.
    apply F in Hin. discriminate.
  - intros s' Ht Hd Hc Hnone.
    destruct (notebook_aborts_alike w s' s) as ((Ht' & _) & x & E1 & E2).
    + now split.
    + now rewrite Hnone.
    + now rewrite Hempty.
    + split; [exact Ht'|congruence].
Qed.

Lemma empty_credential_aborts_witness :
  (notebook Sample.quiet_world (Sample.fresh {[ "ROBOFLOW_API_KEY" := "" ]})).2
  = Raise api_key_error.
Proof.
  refine (proj1 (proj2 (proj2
            (empty_credential_aborts Sample.quiet_world
               (Sample.fresh {[ "ROBOFLOW_API_KEY" := "" ]}) _))) quiet_sample _).
  - vm_compute. reflexivity.
  - apply (bool_decide_unpack _). vm_compute. exact I.
Defined.

(** C5.  No run-level error handling.  Inside a run, an exception of the
    training call leaves the run at once and is the run's exception.
    When the run of a cell raises, after the runs of the cells before it
    returned, the grid search raises the same exception in the very
    state the failing run left: no later cell is started, nothing is
    retried and nothing is recovered.  Conversely the grid search only
    raises in this way. *)
Theorem grid_search_aborts_on_failure w g :
  let loc := grid_dataset_location g in
  let cells := grid_cells versions epochs batch_sizes optimizers in
  (forall v e b o s pre a post x,
     trace (train_yolo_with_wandb w g v e b o loc s).1
     = trace s ++ pre ++ YoloTrain a :: post ->
     ext_fail w (trace s ++ pre) (YoloTrain a) = Some x ->
     (train_yolo_with_wandb w g v e b o loc s).2 = Raise x /\ post = []) /\
  (forall s s2 x,
     cell_grid_search w g s = (s2, Raise x) <->
     exists pre c post s1,
       cells = pre ++ c :: post /\
       for_each pre (run_cell w g loc) s = (s1, Ok tt) /\
       run_cell w g loc c s1 = (s2, Raise x)).
Proof.
  intros loc cells. split.
  - intros v e b o s pre a post x T Hx.
    destruct (train_cell w g v e b o loc s)
      as (evs & av & [T' _] & _ & _ & _ & _ & Hraise).
    rewrite T' in T. apply app_inv_head in T.
    exact (Hraise pre a post x T Hx).
  - intros s s2 x. unfold cell_grid_search. rewrite grid_loop_flat.
    fold loc cells. split.
    + apply for_each_raise_inv.
    + intros (pre & c & post & s1 & -> & Hpre & Hc).
      eapply for_each_abort; eassumption.
Qed.

Lemma grid_search_aborts_on_failure_witness :
  (cell_grid_search Sample.oom_world Sample.globals Sample.before_grid).2
  = Raise (ExternalError "CUDA out of memory").
Proof.
  set (loc := grid_dataset_location Sample.globals).
  set (c := ("n", 50%Z, 2%Z, "Adam") : run_config).
  set (r := run_cell Sample.oom_world Sample.globals loc c Sample.before_grid).
  assert (Hr : r = (r.1, Raise (ExternalError "CUDA out of memory"))).
  { assert (H2 : r.2 = Raise (ExternalError "CUDA out of memory"))
      by (vm_compute; reflexivity).
    rewrite <- H2. apply surjective_pairing. }
  rewrite (proj2 (proj2 (grid_search_aborts_on_failure Sample.oom_world
                           Sample.globals)
                    Sample.before_grid r.1 (ExternalError "CUDA out of memory"))).
  - reflexivity.
  - exists [], c, (tl (grid_cells versions epochs batch_sizes optimizers)),
      Sample.before_grid.
    split; [reflexivity|]. split; [reflexivity|exact Hr].
Defined.


(** C7.  The training call of a run, whatever the configuration: it is
    made right after the accelerator query, with the configuration of
    the run, the weight decay 0.0005, three warm-up epochs and the
    device the answer of the query picks, ["cuda"] when the accelerator
    is available and ["cpu"] otherwise; a run that returns has made it,
    and a run that raises stopped at the step that failed.  In a whole
    run of the notebook, in any world, every training call carries these
    settings; and when nothing fails the notebook makes the training
    call of every combination of the four lists. *)
Theorem training_calls_use_fixed_settings w :
  (forall g v e b o loc s,
     let run := train_yolo_with_wandb w g v e b o loc in
     exists evs,
       trace (run s).1 = trace s ++ evs /\
       (forall pre available post,
          evs = pre ++ CudaIsAvailable available :: post ->
          available = cuda w (trace s ++ pre) /\
          exists post',
            post
            = YoloTrain {| Yolo.data := loc +:+ "/data.yaml";
                           Yolo.epochs := e;
                           Yolo.batch := b;
                           Yolo.optimizer := o;
                           Yolo.weight_decay := 5 # 10000;
                           Yolo.warmup_epochs := 3;
                           Yolo.save_dir :=
                             Pathlib.str (experiment_path (HOME g) v e b o);
                           Yolo.device :=
                             if available then "cuda" else "cpu" |}
              :: post') /\
       ((run s).2 = Ok tt ->
        exists pre available post,
          evs = pre ++ CudaIsAvailable available :: post) /\
       (forall x, (run s).2 = Raise x ->
          exists pre last, evs = pre ++ [last] /\ fails_at w g s pre last x)) /\
  (forall s,
     exists evs,
       trace (notebook w s).1 = trace s ++ evs /\
       (forall pre a post, evs = pre ++ YoloTrain a :: post ->
          Yolo.weight_decay a = 5 # 10000 /\
          Yolo.warmup_epochs a = 3%Z /\
          exists pre',
            let available := cuda w (trace s ++ pre') in
            pre = pre' ++ [CudaIsAvailable available] /\
            Yolo.device a = (if available then "cuda" else "cpu")) /\
       (quiet w -> Pathlib.anchor (cwd s) ∈ dirs s ->
        Py.truthy_opt (environ_at_check w s !! credential) = true ->
        forall v e b o,
          In v versions -> In e epochs -> In b batch_sizes -> In o optimizers ->
          exists pre a post,
            evs = pre ++ YoloTrain a :: post /\
            Yolo.epochs a = e /\ Yolo.batch a = b /\ Yolo.optimizer a = o /\
            Yolo.save_dir a
            = Pathlib.str (experiment_path (HOME (globals_of (cwd s))) v e b o))).
Proof.
  split.
  - intros g v e b o loc s run.
    destruct (train_cell w g v e b o loc s)
      as (evs & av & [T _] & Hp & Hok & _ & Hcuda & _).
    destruct (train_cell_progress w g v e b o loc s)
      as (evs' & T' & _ & Hstop & Hnext).
    fold run in T, T'. rewrite T in T'. apply app_inv_head in T'. subst evs'.
    exists evs. split; [exact T|]. split; [|split; [|exact Hstop]].
    + intros pre available post E.
      split; [exact (Hcuda pre available post E)|].
      destruct (Hnext pre available post E) as (post' & ->).
      exists post'. reflexivity.
    + intros Hr. rewrite (Hok Hr). unfold cell_events.
      now exists [Chdir (DATASETS_PATH g);
                  PathMkdir (experiment_path (HOME g) v e b o);
                  WandbInit (wandb_args g v e b o);
                  YoloLoad ("yolov8" +:+ v +:+ ".pt")], av,
        [YoloTrain (yolo_train_args g v e b o loc av); WandbFinish].
  - intros s.
    destruct (notebook_follows w (device_rule w) s) as (evs & T & H).
    + intros h e He pre a post E.
      destruct pre as [|? [|? ?]]; try discriminate.
      injection E as ->. discriminate.
    + intros h c av evs Hp Hc. eapply device_rule_run; eassumption.
    + exists evs. split; [exact T|]. split; [exact H|].
      intros Hq Ha Ht v e b o Hv He Hb Ho.
      destruct (notebook_quiet_trains w s Hq Ha Ht)
        as (evs' & _ & T' & Hall).
      rewrite T in T'. apply app_inv_head in T'. subst evs'.
      destruct (Hall v e b o Hv He Hb Ho) as (pre & av & post & E).
      exists (pre ++ [CudaIsAvailable av]),
        (yolo_train_args (globals_of (cwd s)) v e b o
           (grid_dataset_location (globals_of (cwd s))) av), post.
      split; [rewrite E, <- app_assoc; reflexivity|]. auto.
Qed.

(** C8.  The experiment directory a run creates depends on the
    configuration only.  When the directory already exists and the
    operating system lets [is_dir] look at it, the creation step of the
    run succeeds and changes nothing: the run goes on to open the
    tracking session.  When the operating system refuses that look (a
    parent that is not searchable, say), [exist_ok=True] does not help:
    the run stops at the creation step with the [OSError], or with
    [FileExistsError] when the error is one [is_dir] answers with
    [False]. *)
Theorem experiment_dir_idempotent w g v e b o loc s :
  let run := train_yolo_with_wandb w g v e b o loc in
  let dir := experiment_path (HOME g) v e b o in
  let h := trace s ++ [Chdir (DATASETS_PATH g); PathMkdir dir] in
  DATASETS_PATH g ∈ dirs s ->
  os_fail w (trace s ++ [Chdir (DATASETS_PATH g)]) (DATASETS_PATH g) = None ->
  dir ∈ dirs s ->
  (forall w' s' loc' p,
     PathMkdir p ∈ trace (train_yolo_with_wandb w' g v e b o loc' s').1 ->
     PathMkdir p ∈ trace s' \/ p = dir) /\
  match os_fail w h dir with
  | None =>
      exists s1 s2,
        os_chdir w (DATASETS_PATH g) s = (s1, Ok tt) /\
        path_mkdir w dir true true s1 = (s2, Ok tt) /\
        dirs s2 = dirs s /\ trace s2 = h /\
        run s = train_from_init w g v e b o loc s2
  | Some errno =>
      (run s).2 = Raise (if ignore_error errno then FileExistsError dir
                         else OSError errno dir) /\
      trace (run s).1 = h /\ dirs (run s).1 = dirs s
  end.
Proof.
  intros run dir h HD Hos Hdir. split.
  - intros w' s' loc' p Hin.
    destruct (train_cell w' g v e b o loc' s') as (evs & av & [T _] & [k Hk] & _).
    rewrite T in Hin. apply elem_of_app in Hin as [Hin|Hin]; [now left|right].
    assert (Hin' : PathMkdir p ∈ evs ++ k) by (apply elem_of_app; now left).
    rewrite <- Hk in Hin'. unfold cell_events in Hin'.
    repeat (apply elem_of_cons in Hin' as [Hin'|Hin']; [try discriminate|]).
    + now injection Hin'.
    + now apply elem_of_nil in Hin'.
  - assert (E1 : os_chdir w (DATASETS_PATH g) s
                 = (mkState (trace s ++ [Chdir (DATASETS_PATH g)]) (dirs s)
                            (DATASETS_PATH g) (environ s), Ok tt)).
    { unfold os_chdir, bind, log. simpl. rewrite Hos.
      now rewrite bool_decide_eq_true_2 by exact HD. }
    set (s1 := mkState (trace s ++ [Chdir (DATASETS_PATH g)]) (dirs s)
                       (DATASETS_PATH g) (environ s)) in *.
    assert (Hh : trace (record (PathMkdir dir) s1) = h).
    { unfold h. simpl. now rewrite <- app_assoc. }
    assert (Hp : mkPath (root dir) (rev (rev (parts dir))) = dir).
    { rewrite rev_involutive. apply path_eta. }
    assert (Hin : mkPath (root dir) (rev (rev (parts dir)))
                  ∈ dirs (record (PathMkdir dir) s1)).
    { rewrite Hp. exact Hdir. }
    destruct (os_fail w h dir) as [errno|] eqn:Ho.
    + assert (E2 : path_mkdir w dir true true s1
                   = (record (PathMkdir dir) s1,
                      Raise (if ignore_error errno then FileExistsError dir
                             else OSError errno dir))).
      { unfold path_mkdir, bind, log.
        rewrite (mkdir_from_refused w _ _ true _ errno Hin);
          rewrite Hp, ?Hh; [reflexivity|exact Ho]. }
      unfold run, train_yolo_with_wandb.
      rewrite (bind_ok _ _ _ _ _ E1), (bind_raise _ _ _ _ _ E2).
      split; [reflexivity|]. split; [exact Hh|reflexivity].
    + assert (E2 : path_mkdir w dir true true s1
                   = (record (PathMkdir dir) s1, Ok tt)).
      { unfold path_mkdir, bind, log.
        apply mkdir_from_existing; [exact Hin|]. now rewrite Hp, Hh. }
      exists s1, (record (PathMkdir dir) s1).
      split; [exact E1|]. split; [exact E2|]. split; [reflexivity|].
      split; [exact Hh|].
      unfold run, train_yolo_with_wandb.
      now rewrite (bind_ok _ _ _ _ _ E1), (bind_ok _ _ _ _ _ E2).
Qed.

Lemma experiment_dir_idempotent_witness :
  exists s1 s2,
    os_chdir Sample.quiet_world (DATASETS_PATH Sample.globals)
      Scenario.second_run = (s1, Ok tt) /\
    path_mkdir Sample.quiet_world
      (experiment_path (HOME Sample.globals) "n" 50 2 "Adam") true true s1
    = (s2, Ok tt) /\
    dirs s2 = dirs Scenario.second_run /\
    trace s2 = [Chdir (DATASETS_PATH Sample.globals);
                PathMkdir (experiment_path (HOME Sample.globals) "n" 50 2 "Adam")] /\
    train_yolo_with_wandb Sample.quiet_world Sample.globals "n" 50 2 "Adam"
      "TA-5" Scenario.second_run
    = train_from_init Sample.quiet_world Sample.globals "n" 50 2 "Adam" "TA-5" s2.
Proof.
  refine (proj2 (experiment_dir_idempotent Sample.quiet_world Sample.globals
                   "n" 50 2 "Adam" "TA-5" Scenario.second_run _ eq_refl _)).
  - apply (bool_decide_unpack _). vm_compute. exact I.
  - apply (bool_decide_unpack _). vm_compute. exact I.
Defined.

(** The claim as the specification states it fails: the experiment
    directory exists, and creating it raises. *)
Lemma existing_directory_creation_raises :
  experiment_path (HOME Sample.globals) "n" 50 2 "Adam"
  ∈ dirs Scenario.second_run /\
  (path_mkdir Scenario.experiments_unsearchable
     (experiment_path (HOME Sample.globals) "n" 50 2 "Adam") true true
     Scenario.second_run).2
  = Raise (OSError "EACCES"
             (experiment_path (HOME Sample.globals) "n" 50 2 "Adam")) /\
  (train_yolo_with_wandb Scenario.experiments_unsearchable Sample.globals
     "n" 50 2 "Adam" "TA-5" Scenario.second_run).2
  = Raise (OSError "EACCES"
             (experiment_path (HOME Sample.globals) "n" 50 2 "Adam")).
Proof.
  split; [apply (bool_decide_unpack _); vm_compute; exact I|].
  split; vm_compute; reflexivity.
Qed.

(** C10.  Every run the grid search starts is handed the same dataset
    location, so its training call, made right after the accelerator
    query, reads the manifest [data.yaml] of the directory [TA-5] below
    the datasets directory.  In a whole run of the notebook, in any
    world, every training call reads that manifest, which is fixed by the
    directory the notebook was started in: the configuration of the run
    plays no part in it, and neither does what the dataset download
    returned.  When nothing fails, the training call of each of the 160
    combinations is made, with that manifest. *)
Theorem dataset_location_is_constant w s :
  let yaml := Pathlib.str (Pathlib.parent (cwd s) / "yolov8" / "datasets"
                           / "TA-5")%path +:+ "/data.yaml" in
  (forall g c s0,
     let run := run_cell w g (grid_dataset_location g) c in
     exists evs,
       trace (run s0).1 = trace s0 ++ evs /\
       (forall pre available post,
          evs = pre ++ CudaIsAvailable available :: post ->
          exists a post',
            post = YoloTrain a :: post' /\
            Yolo.data a
            = Pathlib.str (DATASETS_PATH g / "TA-5")%path +:+ "/data.yaml") /\
       ((run s0).2 = Ok tt -> exists a, YoloTrain a ∈ evs)) /\
  exists evs,
    trace (notebook w s).1 = trace s ++ evs /\
    (forall a, YoloTrain a ∈ evs -> Yolo.data a = yaml) /\
    (quiet w -> Pathlib.anchor (cwd s) ∈ dirs s ->
     Py.truthy_opt (environ_at_check w s !! credential) = true ->
     forall v e b o,
       In v versions -> In e epochs -> In b batch_sizes -> In o optimizers ->
       exists a,
         YoloTrain a ∈ evs /\
         Yolo.epochs a = e /\ Yolo.batch a = b /\ Yolo.optimizer a = o /\
         Yolo.save_dir a
         = Pathlib.str (experiment_path (HOME (globals_of (cwd s))) v e b o) /\
         Yolo.data a = yaml).
Proof.
  intros yaml. split.
  - intros g [[[v e] b] o] s0 run. subst run. cbn [run_cell].
    destruct (train_cell w g v e b o (grid_dataset_location g) s0)
      as (evs & av & [T _] & _ & Hok & _).
    destruct (train_cell_progress w g v e b o (grid_dataset_location g) s0)
      as (evs' & T' & _ & _ & Hnext).
    rewrite T in T'. apply app_inv_head in T'. subst evs'.
    exists evs. split; [exact T|]. split.
    + intros pre available post E.
      destruct (Hnext pre available post E) as (post' & ->).
      eexists _, post'. split; reflexivity.
    + intros Hr. rewrite (Hok Hr). unfold cell_events.
      eexists. repeat (apply elem_of_cons; first [left; reflexivity|right]).
  - destruct (notebook_follows w (fun _ => reads_dataset yaml) s) as (evs & T & H).
    + intros _ e He. repeat constructor. intros a ->. discriminate.
    + intros _ c av evs Hp _. eapply reads_dataset_run. exact Hp.
    + exists evs. split; [exact T|].
      assert (Hall : forall a, YoloTrain a ∈ evs -> Yolo.data a = yaml).
      { intros a Hin. unfold reads_dataset in H. rewrite Forall_forall in H.
        now apply (H _ Hin). }
      split; [exact Hall|].
      intros Hq Ha Ht v e b o Hv He Hb Ho.
      destruct (notebook_quiet_trains w s Hq Ha Ht) as (evs' & _ & T' & Hc).
      rewrite T in T'. apply app_inv_head in T'. subst evs'.
      destruct (Hc v e b o Hv He Hb Ho) as (pre & av & post & E).
      exists (yolo_train_args (globals_of (cwd s)) v e b o
                (grid_dataset_location (globals_of (cwd s))) av).
      split; [|split; [|split; [|split; [|split]]]];
        [|reflexivity..|].
      * rewrite E. apply elem_of_app. right.
        apply elem_of_cons. right. apply elem_of_cons. now left.
      * apply Hall. rewrite E. apply elem_of_app. right.
        apply elem_of_cons. right. apply elem_of_cons. now left.
Qed.

(* ===================================================================== *)
(** * Further properties of the code *)
(* ===================================================================== *)

(** The rest of the development is about what the cells do in the
    situations the specification leaves open: a package that is missing,
    a directory that cannot be created or entered, a third-party call
    that raises somewhere in the notebook, and the order in which the
    cells depend on one another. *)

(** ** Paths and their strings *)

Module PathStr.

#[local] Arguments Ascii.eqb : simpl never.

Lemma split_slash_no_slash s :
  Forall (fun x => Py.occurs "/" x = false) (Py.split_slash s).
Proof.
  induction s as [|c s IH]; simpl; [repeat constructor|].
  destruct (Ascii.eqb c "/") eqn:Ec; [now constructor|].
  destruct (Py.split_slash s) as [|x xs]; [repeat constructor; simpl; now rewrite Ec|].
  inversion IH as [|? ? Hx Hxs]; subst. constructor; [|exact Hxs].
  simpl. now rewrite Ec, Hx.
Qed.

Lemma components_good rel :
  forallb good_component (Pathlib.components rel) = true.
Proof.
  unfold Pathlib.components. apply forallb_forall. intros x Hx.
  apply List.filter_In in Hx as [Hin Hk].
  pose proof (split_slash_no_slash rel) as H.
  rewrite List.Forall_forall in H. unfold good_component.
  now rewrite Hk, (H x Hin).
Qed.

Lemma splitroot_root part :
  let r := (Pathlib.splitroot part).1 in r = "" \/ r = "/" \/ r = "//".
Proof.
  unfold Pathlib.splitroot.
  destruct (Py.lstrip_slash part) as [[|[|[|n]]] rel]; simpl; auto.
Qed.

(** Parsing a string gives a well-formed path. *)
Lemma of_string_well_formed s : well_formed (Pathlib.of_string s) = true.
Proof.
  unfold Pathlib.of_string, well_formed.
  pose proof (splitroot_root s) as Hr.
  destruct (Pathlib.splitroot s) as [r rel]. simpl in *.
  rewrite components_good, andb_true_r.
  destruct Hr as [->|[->| ->]]; reflexivity.
Qed.

Lemma well_formed_parts p :
  well_formed p = true -> forallb good_component (parts p) = true.
Proof. unfold well_formed. intros H. now apply andb_true_iff in H. Qed.

(** Joining keeps paths well formed. *)
Lemma div_well_formed p s :
  well_formed p = true -> well_formed (p / s)%path = true.
Proof.
  intros Hp. unfold Pathlib.div.
  pose proof (of_string_well_formed s) as Hq.
  destruct (Py.truthy_str (root (Pathlib.of_string s))); [exact Hq|].
  unfold well_formed in *. simpl.
  apply andb_true_iff in Hp as [Hr Hps], Hq as [_ Hqs].
  now rewrite Hr, forallb_app, Hps, Hqs.
Qed.

Lemma experiment_path_well_formed home v e b o :
  well_formed home = true -> well_formed (experiment_path home v e b o) = true.
Proof. intros H. unfold experiment_path. now do 2 apply div_well_formed. Qed.

Lemma good_component_head x :
  good_component x = true ->
  exists c r, x = String c r /\ Ascii.eqb c "/" = false.
Proof.
  unfold good_component, Pathlib.keep_component.
  destruct x as [|c r]; [discriminate|]. intros H.
  exists c, r. split; [reflexivity|].
  apply andb_true_iff in H as [_ H]. simpl in H.
  now destruct (Ascii.eqb c "/").
Qed.

Lemma lstrip_slash_head c r :
  Ascii.eqb c "/" = false -> Py.lstrip_slash (String c r) = (O, String c r).
Proof. intros H. simpl. now rewrite H. Qed.

Lemma good_component_one x :
  good_component x = true -> Pathlib.components x = [x].
Proof.
  unfold good_component. intros H. apply andb_true_iff in H as [Hk Hs].
  apply PathFacts.components_one; [|exact Hk].
  now destruct (Py.occurs "/" x).
Qed.

(** The components of a printed path are read back as they were. *)
Lemma components_concat ps :
  forallb good_component ps = true ->
  Pathlib.components (String.concat "/" ps) = ps.
Proof.
  induction ps as [|x ps IH]; [reflexivity|].
  intros H. cbn [forallb] in H. apply andb_true_iff in H as [Hx Hps].
  destruct ps as [|y ps].
  - now apply good_component_one.
  - change (String.concat "/" (x :: y :: ps))
      with (x +:+ String "/" (String.concat "/" (y :: ps))).
    rewrite PathFacts.components_app, (good_component_one x Hx), (IH Hps).
    reflexivity.
Qed.

Lemma concat_head x ps :
  good_component x = true ->
  exists c r, String.concat "/" (x :: ps) = String c r /\ Ascii.eqb c "/" = false.
Proof.
  intros Hx. destruct (good_component_head x Hx) as (c & r & -> & Hc).
  destruct ps as [|y ps]; [now exists c, r|].
  exists c, (r +:+ "/" +:+ String.concat "/" (y :: ps)). now split.
Qed.

Lemma lstrip_slash_concat ps :
  forallb good_component ps = true ->
  Py.lstrip_slash (String.concat "/" ps) = (O, String.concat "/" ps).
Proof.
  destruct ps as [|x ps]; [reflexivity|]. intros H.
  cbn [forallb] in H. apply andb_true_iff in H as [Hx _].
  destruct (concat_head x ps Hx) as (c & r & -> & Hc).
  now apply lstrip_slash_head.
Qed.

Lemma of_string_rooted n r ps :
  forallb good_component ps = true ->
  Py.lstrip_slash r = (n, "") -> r <> "" ->
  Py.lstrip_slash (r +:+ String.concat "/" ps) = (n, String.concat "/" ps).
Proof.
  intros Hps. revert n. induction r as [|c r IH]; intros n Hr Hne; [congruence|].
  change (String c r +:+ String.concat "/" ps)
    with (String c (r +:+ String.concat "/" ps)).
  cbn [Py.lstrip_slash] in *.
  destruct (Ascii.eqb c "/"); [|discriminate].
  destruct r as [|c' r'].
  - injection Hr as <-. change ("" +:+ String.concat "/" ps)
      with (String.concat "/" ps).
    now rewrite (lstrip_slash_concat ps Hps).
  - destruct (Py.lstrip_slash (String c' r')) as [m rest] eqn:E.
    injection Hr as <- ->. now rewrite (IH m eq_refl).
Qed.

(** [Path(str(p)) == p]. *)
Lemma of_string_str p :
  well_formed p = true -> Pathlib.of_string (Pathlib.str p) = p.
Proof.
  destruct p as [r ps]. unfold well_formed. cbn [root parts]. intros H.
  apply andb_true_iff in H as [Hr Hps].
  pose proof (lstrip_slash_concat ps Hps) as Hl.
  pose proof (components_concat ps Hps) as Hc.
  unfold Pathlib.of_string, Pathlib.splitroot.
  apply orb_true_iff in Hr as [Hr|Hr]; [apply orb_true_iff in Hr as [Hr|Hr]|];
    apply String.eqb_eq in Hr; subst r.
  - destruct ps as [|x ps]; [reflexivity|].
    change (Pathlib.str (mkPath "" (x :: ps))) with (String.concat "/" (x :: ps)).
    now rewrite Hl, Hc.
  - replace (Pathlib.str (mkPath "/" ps)) with ("/" +:+ String.concat "/" ps)
      by now destruct ps.
    rewrite (of_string_rooted 1 "/" ps Hps eq_refl) by discriminate.
    now rewrite Hc.
  - replace (Pathlib.str (mkPath "//" ps)) with ("//" +:+ String.concat "/" ps)
      by now destruct ps.
    rewrite (of_string_rooted 2 "//" ps Hps eq_refl) by discriminate.
    now rewrite Hc.
Qed.

(** Two well-formed paths that print alike are the same path. *)
Lemma str_inj p q :
  well_formed p = true -> well_formed q = true ->
  Pathlib.str p = Pathlib.str q -> p = q.
Proof.
  intros Hp Hq E.
  rewrite <- (of_string_str p Hp), <- (of_string_str q Hq). now rewrite E.
Qed.

End PathStr.

(** ** Installing packages on demand *)

(** X1.  When the module can be imported, [ensure_package_installed]
    reports it and returns: the import and the message are all it does,
    [pip] is not called.  The module imported is [import_name], or
    [package_name] when [import_name] is [None] or empty. *)
Theorem ensure_package_installed_present w package_name import_name
    version_spec s :
  let name := Py.or_default import_name package_name in
  ext_fail w (trace s) (ImportModule name) = None ->
  let s' := (ensure_package_installed w package_name import_name version_spec s).1 in
  (ensure_package_installed w package_name import_name version_spec s).2 = Ok tt /\
  trace s' = trace s ++ [ImportModule name;
                         Print ("✅ " +:+ name +:+ " is already installed")] /\
  (import_name = None \/ import_name = Some "" -> name = package_name).
Proof.
  intros name Hok s'. subst s'.
  unfold ensure_package_installed, try_except, bind, call, log. fold name.
  rewrite Hok. simpl. rewrite <- app_assoc.
  repeat split. intros [->| ->]; reflexivity.
Qed.

Lemma ensure_package_installed_present_witness :
  trace (ensure_package_installed Sample.quiet_world "python-dotenv"
           (Some "dotenv") "" (Sample.fresh ∅)).1
  = [ImportModule "dotenv"; Print "✅ dotenv is already installed"].
Proof.
  refine (proj1 (proj2 (ensure_package_installed_present Sample.quiet_world
                          "python-dotenv" (Some "dotenv") "" (Sample.fresh ∅) _))).
  reflexivity.
Defined.

(** X2.  When the import raises [ImportError], the package is installed
    with [sys.executable -m pip install <package_name><version_spec>]:
    the requirement is built from [package_name], not from the module
    name.  A failing [pip] is not caught, and after a successful [pip]
    the function returns without importing the module again. *)
Theorem ensure_package_installed_missing w package_name import_name
    version_spec s x :
  let name := Py.or_default import_name package_name in
  let run := ensure_package_installed w package_name import_name version_spec in
  let argv := [sys_executable w; "-m"; "pip"; "install";
               package_name +:+ version_spec] in
  let h := trace s ++ [ImportModule name;
                       Print ("❌ " +:+ name +:+ " not found. Installing...")] in
  ext_fail w (trace s) (ImportModule name) = Some x ->
  is_ImportError x = true ->
  match ext_fail w h (CheckCall argv) with
  | None =>
      (run s).2 = Ok tt /\
      trace (run s).1
      = h ++ [CheckCall argv; Print ("✅ " +:+ package_name +:+ " installed")]
  | Some y =>
      (run s).2 = Raise y /\ trace (run s).1 = h ++ [CheckCall argv]
  end.
Proof.
  intros name run argv h Hx Himp. subst run h.
  unfold ensure_package_installed, try_except, bind, call, log. fold name.
  rewrite Hx. simpl. rewrite Himp. simpl. fold argv.
  rewrite <- !app_assoc. simpl.
  destruct (ext_fail w _ (CheckCall argv)); simpl;
    rewrite <- ?app_assoc; auto.
Qed.

Lemma ensure_package_installed_missing_witness :
  (ensure_package_installed Scenario.wandb_missing "wandb" None ""
     (Sample.fresh ∅)).2 = Ok tt /\
  trace (ensure_package_installed Scenario.wandb_missing "wandb" None ""
           (Sample.fresh ∅)).1
  = [ImportModule "wandb"; Print "❌ wandb not found. Installing...";
     CheckCall ["/usr/bin/python3"; "-m"; "pip"; "install"; "wandb"];
     Print "✅ wandb installed"].
Proof.
  exact (ensure_package_installed_missing Scenario.wandb_missing "wandb" None ""
           (Sample.fresh ∅) (ImportError "wandb") eq_refl eq_refl).
Defined.

(** X3.  An exception of the import that is not an [ImportError] is not
    handled: it leaves the function at once, nothing is printed and
    [pip] is not called. *)
Theorem ensure_package_installed_other_error w package_name import_name
    version_spec s x :
  let name := Py.or_default import_name package_name in
  let run := ensure_package_installed w package_name import_name version_spec in
  ext_fail w (trace s) (ImportModule name) = Some x ->
  is_ImportError x = false ->
  (run s).2 = Raise x /\ trace (run s).1 = trace s ++ [ImportModule name].
Proof.
  intros name run Hx Himp. subst run.
  unfold ensure_package_installed, try_except, bind, call, log. fold name.
  rewrite Hx. simpl. rewrite Himp. auto.
Qed.

Lemma ensure_package_installed_other_error_witness :
  (ensure_package_installed Scenario.torch_broken "torch" None ""
     (Sample.fresh ∅)).2
  = Raise (ExternalError "OSError: libcudart.so not found").
Proof.
  exact (proj1 (ensure_package_installed_other_error Scenario.torch_broken
                  "torch" None "" (Sample.fresh ∅) _ eq_refl eq_refl)).
Defined.

(** X4.  Being installed is not being importable: the install cell
    imports [ultralytics] itself right after
    [ensure_package_installed], outside any handler.  When the module is
    missing, [pip] succeeds and the import then raises all the same, the
    cell reports the package as installed and then stops with the
    exception of the import; [ultralytics.checks()] is not reached. *)
Theorem install_yolo_import_still_fails w s x0 x :
  let argv := [sys_executable w; "-m"; "pip"; "install"; "ultralytics>=8,<9"] in
  let h := trace s ++ [ImportModule "ultralytics";
                       Print "❌ ultralytics not found. Installing..."] in
  let h' := h ++ [CheckCall argv; Print "✅ ultralytics installed"] in
  ext_fail w (trace s) (ImportModule "ultralytics") = Some x0 ->
  is_ImportError x0 = true ->
  ext_fail w h (CheckCall argv) = None ->
  ext_fail w h' (ImportModule "ultralytics") = Some x ->
  (cell_install_yolo w s).2 = Raise x /\
  trace (cell_install_yolo w s).1 = h' ++ [ImportModule "ultralytics"].
Proof.
  intros argv h h' H0 Himp Hpip Hx.
  assert (He : (ensure_package_installed w "ultralytics" None ">=8,<9" s).2
               = Ok tt /\
               trace (ensure_package_installed w "ultralytics" None ">=8,<9" s).1
               = h').
  { unfold ensure_package_installed, try_except, bind, call, log.
    change (Py.or_default None "ultralytics") with "ultralytics".
    rewrite H0. cbn [trace record]. rewrite Himp.
    change ("ultralytics" +:+ ">=8,<9") with "ultralytics>=8,<9".
    change ("❌ " +:+ "ultralytics" +:+ " not found. Installing...")
      with "❌ ultralytics not found. Installing...".
    change ("✅ " +:+ "ultralytics" +:+ " installed")
      with "✅ ultralytics installed".
    fold argv.
    replace ((trace s ++ [ImportModule "ultralytics"])
             ++ [Print "❌ ultralytics not found. Installing..."])
      with h by (unfold h; now rewrite <- app_assoc).
    rewrite Hpip. cbn [trace record fst snd]. unfold h'.
    now rewrite <- app_assoc. }
  destruct He as [R T].
  unfold cell_install_yolo.
  destruct (ensure_package_installed w "ultralytics" None ">=8,<9" s)
    as [s1 [[]|y]] eqn:E; simpl in R, T; [|discriminate].
  rewrite (bind_ok _ _ _ _ _ E).
  assert (Ec : call w (ImportModule "ultralytics") s1
               = (mkState (h' ++ [ImportModule "ultralytics"])
                    (ext_dirs w h' (ImportModule "ultralytics") (dirs s1))
                    (cwd s1) (environ s1), Raise x)).
  { unfold call. now rewrite T, Hx. }
  rewrite (bind_raise _ _ _ _ _ Ec). auto.
Qed.

Lemma install_yolo_import_still_fails_witness :
  (cell_install_yolo Scenario.ultralytics_unusable (Sample.fresh ∅)).2
  = Raise (ImportError "ultralytics").
Proof.
  exact (proj1 (install_yolo_import_still_fails Scenario.ultralytics_unusable
                  (Sample.fresh ∅) (ImportError "ultralytics")
                  (ImportError "ultralytics") eq_refl eq_refl eq_refl eq_refl)).
Defined.

(** ** Directories: what is kept and what is created *)

Section Directories.

Variable w : World.

Lemma os_mkdir_grows p s : dirs s ⊆ dirs (os_mkdir w p s).1.
Proof.
  unfold os_mkdir. repeat case_bool_decide; simpl; try reflexivity.
  destruct (os_fail w (trace s) p); [reflexivity|]. apply union_subseteq_r.
Qed.

Lemma os_mkdir_cwd p s : cwd (os_mkdir w p s).1 = cwd s.
Proof.
  unfold os_mkdir. repeat case_bool_decide; try reflexivity.
  now destruct (os_fail w (trace s) p).
Qed.

(** The handler of [OSError] in [Path.mkdir] only looks. *)
Lemma exist_ok_follows (R : State -> State -> Prop) `{!PreOrder R} p ok e :
  follows R (if negb ok then raise e
             else d <- is_dir w p ;; if negb d then raise e else ret tt).
Proof. intros s. rewrite exist_ok_state. reflexivity. Qed.

#[local] Instance keeps_place_preorder : PreOrder keeps_place.
Proof.
  split.
  - intros s. now split.
  - intros s1 s2 s3 [D1 C1] [D2 C2]. split; [|congruence].
    etransitivity; eassumption.
Qed.

Lemma os_mkdir_keeps_place p : follows keeps_place (os_mkdir w p).
Proof. intros s. split; [apply os_mkdir_grows|apply os_mkdir_cwd]. Qed.

Lemma mkdir_flat_keeps_place p ok : follows keeps_place (mkdir_flat w p ok).
Proof.
  unfold mkdir_flat. apply follows_try; [apply _|apply os_mkdir_keeps_place|].
  intros x. destruct (is_FileNotFoundError x); [apply follows_raise; apply _|].
  apply exist_ok_follows. apply _.
Qed.

(** [Path.mkdir] removes no directory and does not move the process. *)
Lemma mkdir_from_keeps_place r rps pa ok :
  follows keeps_place (mkdir_from w r rps pa ok).
Proof.
  revert pa ok. induction rps as [|x rps IH]; intros pa ok; cbn [mkdir_from];
    (apply follows_try; [apply _|apply os_mkdir_keeps_place|]); intros e;
    destruct (is_FileNotFoundError e);
    try (apply follows_raise; apply _);
    try (apply exist_ok_follows; apply _).
  destruct (negb pa); [apply follows_raise; apply _|].
  apply follows_bind; [apply _|apply IH|]. intros _.
  apply mkdir_flat_keeps_place.
Qed.

Lemma path_mkdir_keeps_place p pa ok :
  follows keeps_place (path_mkdir w p pa ok).
Proof.
  unfold path_mkdir. apply follows_bind; [apply _|intros s; now split|].
  intros _. apply mkdir_from_keeps_place.
Qed.

(** *** The directory tree stays closed *)

#[local] Instance keeps_tree_preorder : PreOrder keeps_tree.
Proof. split; [now intros s|]. intros s1 s2 s3 H1 H2 H. auto. Qed.

Lemma os_mkdir_keeps_tree p : follows keeps_tree (os_mkdir w p).
Proof.
  intros s H. unfold os_mkdir.
  case_bool_decide; [exact H|]. case_bool_decide as Hp; [|exact H].
  destruct (os_fail w (trace s) p); [exact H|].
  simpl. intros q [->%elem_of_singleton|Hq]%elem_of_union.
  - now apply elem_of_union_r.
  - apply elem_of_union_r. now apply H.
Qed.

Lemma mkdir_flat_keeps_tree p ok : follows keeps_tree (mkdir_flat w p ok).
Proof.
  unfold mkdir_flat. apply follows_try; [apply _|apply os_mkdir_keeps_tree|].
  intros x. destruct (is_FileNotFoundError x); [apply follows_raise; apply _|].
  apply exist_ok_follows. apply _.
Qed.

(** [Path.mkdir] never leaves a directory without its parent. *)
Lemma mkdir_from_keeps_tree r rps pa ok :
  follows keeps_tree (mkdir_from w r rps pa ok).
Proof.
  revert pa ok. induction rps as [|x rps IH]; intros pa ok; cbn [mkdir_from];
    (apply follows_try; [apply _|apply os_mkdir_keeps_tree|]); intros e;
    destruct (is_FileNotFoundError e);
    try (apply follows_raise; apply _);
    try (apply exist_ok_follows; apply _).
  destruct (negb pa); [apply follows_raise; apply _|].
  apply follows_bind; [apply _|apply IH|]. intros _.
  apply mkdir_flat_keeps_tree.
Qed.

Lemma path_mkdir_keeps_tree p pa ok : follows keeps_tree (path_mkdir w p pa ok).
Proof.
  unfold path_mkdir. apply follows_bind; [apply _|now intros s|].
  intros _. apply mkdir_from_keeps_tree.
Qed.

End Directories.

#[local] Instance stays_preorder : PreOrder stays.
Proof. split; [now intros s|]. intros s1 s2 s3 H1 H2. unfold stays in *. congruence. Qed.

Lemma call_stays w e : follows stays (call w e).
Proof. intros s. unfold call. now destruct (ext_fail w (trace s) e). Qed.

Lemma path_mkdir_stays w p pa ok : follows stays (path_mkdir w p pa ok).
Proof. intros s. apply (path_mkdir_keeps_place w p pa ok s). Qed.

(** *** The project-directory cell *)

(** X5.  When the project-directory cell returns, the names it binds
    are [BASE], the parent of the working directory, [HOME = BASE/yolov8]
    and [DATASETS_PATH = HOME/datasets], each the parent of the next;
    the datasets directory exists; no directory was removed; the process
    has not moved; and in a directory tree in which every directory has
    its parent, [HOME] and [BASE] exist as well and the tree still has
    that property. *)
Theorem cell_project_dir_returns w s s' g :
  cell_project_dir w s = (s', Ok g) ->
  BASE g = Pathlib.parent (cwd s) /\
  Pathlib.parent (HOME g) = BASE g /\
  Pathlib.parent (DATASETS_PATH g) = HOME g /\
  DATASETS_PATH g ∈ dirs s' /\
  dirs s ⊆ dirs s' /\
  cwd s' = cwd s /\
  trace s' = trace s ++
    [PathMkdir (DATASETS_PATH g);
     Print ("📁 Project directory: " +:+ Pathlib.str (HOME g))] /\
  (tree_closed (dirs s) ->
   tree_closed (dirs s') /\ HOME g ∈ dirs s' /\ BASE g ∈ dirs s').
Proof.
  intros E. pose proof (cell_project_dir_value w s g) as Hg.
  rewrite E in Hg. specialize (Hg eq_refl). subst g.
  revert E. unfold cell_project_dir, path_cwd.
  rewrite (bind_ok _ _ s s (cwd s) eq_refl). unfold bind.
  set (D := (Pathlib.parent (cwd s) / "yolov8" / "datasets")%path).
  pose proof (path_mkdir_keeps_place w D true true s) as [Hd Hc].
  pose proof (path_mkdir_emitted w D true true s) as [Ht _].
  destruct (path_mkdir w D true true s) as [s1 [[]|x]] eqn:E1; [|discriminate].
  simpl in *. intros [= <-]. simpl.
  split; [reflexivity|].
  split; [destruct (Pathlib.parent (cwd s)); exact (parent_snoc _ _ _)|].
  split; [destruct (Pathlib.parent (cwd s)); exact (parent_snoc _ _ _)|].
  assert (HD : D ∈ dirs s1).
  { unfold path_mkdir, bind, log in E1. apply mkdir_from_post in E1.
    rewrite rev_involutive in E1. now destruct D. }
  split; [exact HD|].
  split; [exact Hd|]. split; [exact Hc|].
  split; [rewrite Ht, <- app_assoc; reflexivity|].
  intros Htree.
  pose proof (path_mkdir_keeps_tree w D true true s Htree) as Htree'.
  rewrite E1 in Htree'. simpl in Htree'.
  split; [exact Htree'|].
  assert (P1 : Pathlib.parent D = (Pathlib.parent (cwd s) / "yolov8")%path)
    by (unfold D; destruct (Pathlib.parent (cwd s)); exact (parent_snoc _ _ _)).
  assert (P2 : Pathlib.parent (Pathlib.parent (cwd s) / "yolov8")%path
               = Pathlib.parent (cwd s))
    by (destruct (Pathlib.parent (cwd s)); exact (parent_snoc _ _ _)).
  apply Htree' in HD. rewrite P1 in HD. split; [exact HD|].
  apply Htree' in HD. now rewrite P2 in HD.
Qed.

Lemma cell_project_dir_returns_witness :
  DATASETS_PATH Sample.globals
  ∈ dirs (cell_project_dir Sample.quiet_world (Sample.fresh ∅)).1.
Proof.
  set (r := cell_project_dir Sample.quiet_world (Sample.fresh ∅)).
  assert (Hr : r = (r.1, Ok Sample.globals)).
  { assert (H2 : r.2 = Ok Sample.globals) by (vm_compute; reflexivity).
    rewrite <- H2. apply surjective_pairing. }
  exact (proj1 (proj2 (proj2 (proj2
           (cell_project_dir_returns Sample.quiet_world (Sample.fresh ∅)
              r.1 Sample.globals Hr))))).
Defined.

(** *** A refused creation *)

Lemma snoc_ne r (ps : list string) x : mkPath r (ps ++ [x]) <> mkPath r ps.
Proof.
  intros E. apply (f_equal (fun p => length (parts p))) in E.
  simpl in E. rewrite length_app in E. simpl in E. lia.
Qed.

(** The operating system refuses to create [p] in its parent. *)
Lemma mkdir_flat_refused w r ps x s errno :
  let p := mkPath r (ps ++ [x]) in
  p ∉ dirs s -> mkPath r ps ∈ dirs s -> os_fail w (trace s) p = Some errno ->
  mkdir_flat w p true s = (s, Raise (OSError errno p)).
Proof.
  intros p Hnot Hpar Hos. unfold mkdir_flat, try_except, os_mkdir.
  rewrite bool_decide_eq_false_2 by exact Hnot.
  rewrite bool_decide_eq_true_2
    by (unfold p; rewrite (parent_snoc r ps x); exact Hpar).
  rewrite Hos.
  cbn [is_OSError is_FileNotFoundError negb]. unfold bind, is_dir.
  rewrite Hos. now destruct (ignore_error errno).
Qed.

Lemma mkdir_from_refused_leaf w r ps x s errno :
  let p := mkPath r (ps ++ [x]) in
  p ∉ dirs s -> mkPath r ps ∈ dirs s -> os_fail w (trace s) p = Some errno ->
  mkdir_from w r (x :: rev ps) true true s = (s, Raise (OSError errno p)).
Proof.
  intros p Hnot Hpar Hos. cbn [mkdir_from rev]. rewrite rev_involutive.
  fold p. unfold try_except, os_mkdir.
  rewrite bool_decide_eq_false_2 by exact Hnot.
  rewrite bool_decide_eq_true_2
    by (unfold p; rewrite (parent_snoc r ps x); exact Hpar).
  rewrite Hos.
  cbn [is_OSError is_FileNotFoundError negb]. unfold bind, is_dir.
  rewrite Hos. now destruct (ignore_error errno).
Qed.

(** The parent is missing and can be created; the directory itself is
    then refused, and the parent stays behind. *)
Lemma mkdir_from_refused_after_parent w r ps y x s errno :
  let q := mkPath r (ps ++ [y]) in
  let p := mkPath r ((ps ++ [y]) ++ [x]) in
  p ∉ dirs s -> q ∉ dirs s -> mkPath r ps ∈ dirs s ->
  os_fail w (trace s) q = None -> os_fail w (trace s) p = Some errno ->
  mkdir_from w r (x :: y :: rev ps) true true s
  = (mkState (trace s) ({[q]} ∪ dirs s) (cwd s) (environ s),
     Raise (OSError errno p)).
Proof.
  intros q p Hp Hq Hpar Hoq Hop.
  assert (Eq : mkdir_from w r (y :: rev ps) true true s
               = (mkState (trace s) ({[q]} ∪ dirs s) (cwd s) (environ s), Ok tt)).
  { cbn [mkdir_from rev]. rewrite rev_involutive. fold q.
    unfold try_except, os_mkdir.
    rewrite bool_decide_eq_false_2 by exact Hq.
    rewrite bool_decide_eq_true_2
      by (unfold q; rewrite (parent_snoc r ps y); exact Hpar).
    now rewrite Hoq. }
  change (mkdir_from w r (x :: y :: rev ps) true true s)
    with (try_except (os_mkdir w (mkPath r (rev (x :: y :: rev ps)))) is_OSError
            (fun e =>
               if is_FileNotFoundError e then
                 if negb true then raise e
                 else mkdir_from w r (y :: rev ps) true true ;;
                      mkdir_flat w (mkPath r (rev (x :: y :: rev ps))) true
               else if negb true then raise e
               else d <- is_dir w (mkPath r (rev (x :: y :: rev ps))) ;;
                    if negb d then raise e else ret tt) s).
  replace (mkPath r (rev (x :: y :: rev ps))) with p
    by (unfold p; cbn [rev]; now rewrite rev_involutive).
  unfold try_except at 1. unfold os_mkdir at 1.
  rewrite bool_decide_eq_false_2 by exact Hp.
  rewrite bool_decide_eq_false_2
    by (unfold p; rewrite (parent_snoc r (ps ++ [y]) x); exact Hq).
  cbn [is_OSError is_FileNotFoundError negb].
  rewrite (bind_ok _ _ _ _ _ Eq).
  apply (mkdir_flat_refused w r (ps ++ [y]) x); simpl.
  - intros [E%elem_of_singleton|E]%elem_of_union; [|now apply Hp].
    now apply snoc_ne in E.
  - apply elem_of_union_l, elem_of_singleton. reflexivity.
  - exact Hop.
Qed.

Lemma path_mkdir_refused_leaf w r ps x s errno :
  let p := mkPath r (ps ++ [x]) in
  p ∉ dirs s -> mkPath r ps ∈ dirs s ->
  os_fail w (trace s ++ [PathMkdir p]) p = Some errno ->
  path_mkdir w p true true s
  = (record (PathMkdir p) s, Raise (OSError errno p)).
Proof.
  intros p Hnot Hpar Hos. unfold path_mkdir, bind, log.
  change (root p) with r. change (rev (parts p)) with (rev (ps ++ [x])).
  rewrite rev_app_distr. cbn [rev app].
  now apply (mkdir_from_refused_leaf w r ps x (record (PathMkdir p) s)).
Qed.

Lemma path_mkdir_refused_after_parent w r ps y x s errno :
  let q := mkPath r (ps ++ [y]) in
  let p := mkPath r ((ps ++ [y]) ++ [x]) in
  p ∉ dirs s -> q ∉ dirs s -> mkPath r ps ∈ dirs s ->
  os_fail w (trace s ++ [PathMkdir p]) q = None ->
  os_fail w (trace s ++ [PathMkdir p]) p = Some errno ->
  path_mkdir w p true true s
  = (mkState (trace s ++ [PathMkdir p]) ({[q]} ∪ dirs s) (cwd s) (environ s),
     Raise (OSError errno p)).
Proof.
  intros q p Hp Hq Hpar Hoq Hop. unfold path_mkdir, bind, log.
  change (root p) with r.
  change (rev (parts p)) with (rev ((ps ++ [y]) ++ [x])).
  rewrite !rev_app_distr. cbn [rev app].
  now rewrite (mkdir_from_refused_after_parent w r ps y x
                 (record (PathMkdir p) s) errno).
Qed.

(** X6.  [exist_ok=True] only forgives a directory that is already
    there.  When the operating system refuses to create the datasets
    directory, which does not exist, the cell raises that [OSError] and
    prints nothing.  If [HOME] was there, nothing has been created; if
    [HOME] was missing below an existing [BASE] and could be created, it
    has been created by then and stays behind. *)
Theorem cell_project_dir_refused w s errno :
  let B := Pathlib.parent (cwd s) in
  let H := (B / "yolov8")%path in
  let D := (H / "datasets")%path in
  let h := trace s ++ [PathMkdir D] in
  D ∉ dirs s ->
  os_fail w h D = Some errno ->
  (H ∈ dirs s ->
   (cell_project_dir w s).2 = Raise (OSError errno D) /\
   trace (cell_project_dir w s).1 = h /\
   dirs (cell_project_dir w s).1 = dirs s) /\
  (H ∉ dirs s -> B ∈ dirs s -> os_fail w h H = None ->
   (cell_project_dir w s).2 = Raise (OSError errno D) /\
   trace (cell_project_dir w s).1 = h /\
   dirs (cell_project_dir w s).1 = {[H]} ∪ dirs s).
Proof.
  cbv zeta. unfold cell_project_dir, path_cwd.
  rewrite (bind_ok _ _ s s (cwd s) eq_refl).
  generalize (Pathlib.parent (cwd s)). intros [r ps].
  change ({| root := r; parts := ps |} / "yolov8" / "datasets")%path
    with (mkPath r ((ps ++ ["yolov8"]) ++ ["datasets"])).
  change ({| root := r; parts := ps |} / "yolov8")%path
    with (mkPath r (ps ++ ["yolov8"])).
  intros Hnot Hos. split.
  - intros HH.
    rewrite (bind_raise _ _ _ _ _
               (path_mkdir_refused_leaf w r (ps ++ ["yolov8"]) "datasets" s
                  errno Hnot HH Hos)).
    auto.
  - intros HH HB HoH.
    rewrite (bind_raise _ _ _ _ _
               (path_mkdir_refused_after_parent w r ps "yolov8" "datasets" s
                  errno Hnot HH HB HoH Hos)).
    auto.
Qed.

Lemma cell_project_dir_refused_witness :
  (cell_project_dir Scenario.read_only Scenario.home_exists).2
  = Raise (OSError "EROFS" (DATASETS_PATH Sample.globals)).
Proof.
  refine (proj1 (proj1 (cell_project_dir_refused Scenario.read_only
                          Scenario.home_exists "EROFS" _ eq_refl) _));
    apply (bool_decide_unpack _); vm_compute; exact I.
Defined.

(** *** Changing into the datasets directory *)

Lemma os_chdir_missing w p s :
  os_fail w (trace s ++ [Chdir p]) p = None -> p ∉ dirs s ->
  os_chdir w p s = (record (Chdir p) s, Raise (FileNotFoundError p)).
Proof.
  intros Hos Hnot. unfold os_chdir, bind, log. simpl. rewrite Hos.
  now rewrite bool_decide_eq_false_2.
Qed.

Lemma os_chdir_moves w p s :
  os_fail w (trace s ++ [Chdir p]) p = None -> p ∈ dirs s ->
  exists s1, os_chdir w p s = (s1, Ok tt) /\ cwd s1 = p.
Proof.
  intros Hos Hin. unfold os_chdir, bind, log. simpl. rewrite Hos.
  rewrite bool_decide_eq_true_2 by exact Hin. eauto.
Qed.

Lemma train_rest_stays w g v e b o loc :
  follows stays
    (path_mkdir w (experiment_path (HOME g) v e b o) true true ;;
     call w (WandbInit (wandb_args g v e b o)) ;;
     call w (YoloLoad ("yolov8" +:+ v +:+ ".pt")) ;;
     available <- cuda_is_available w ;;
     call w (YoloTrain (yolo_train_args g v e b o loc available)) ;;
     call w WandbFinish).
Proof.
  apply follows_bind; [apply _|apply path_mkdir_stays|]. intros _.
  do 2 (apply follows_bind; [apply _|apply call_stays|]; intros _).
  apply follows_bind; [apply _|now intros s|]. intros av.
  apply follows_bind; [apply _|apply call_stays|]. intros _.
  apply call_stays.
Qed.

(** X7.  A run does not create the datasets directory: when it is
    missing, [train_yolo_with_wandb] raises [FileNotFoundError] at its
    first statement; no experiment directory is made, no tracking session
    is opened, and the process does not move. *)
Theorem train_without_datasets_dir w g v e b o loc s :
  os_fail w (trace s ++ [Chdir (DATASETS_PATH g)]) (DATASETS_PATH g) = None ->
  DATASETS_PATH g ∉ dirs s ->
  (train_yolo_with_wandb w g v e b o loc s).2
    = Raise (FileNotFoundError (DATASETS_PATH g)) /\
  trace (train_yolo_with_wandb w g v e b o loc s).1
    = trace s ++ [Chdir (DATASETS_PATH g)] /\
  dirs (train_yolo_with_wandb w g v e b o loc s).1 = dirs s /\
  cwd (train_yolo_with_wandb w g v e b o loc s).1 = cwd s.
Proof.
  intros Hos Hnot. unfold train_yolo_with_wandb.
  rewrite (bind_raise _ _ _ _ _ (os_chdir_missing w _ s Hos Hnot)). auto.
Qed.

Lemma train_without_datasets_dir_witness :
  (train_yolo_with_wandb Sample.quiet_world Sample.globals "n" 50 2 "Adam"
     "TA-5" (Sample.fresh ∅)).2
  = Raise (FileNotFoundError (DATASETS_PATH Sample.globals)).
Proof.
  refine (proj1 (train_without_datasets_dir Sample.quiet_world Sample.globals
                   "n" 50 2 "Adam" "TA-5" (Sample.fresh ∅) eq_refl _)).
  apply (bool_decide_unpack _). vm_compute. exact I.
Defined.

(** X8.  The download cell fails the same way, before the dataset
    provider is contacted. *)
Theorem download_without_datasets_dir w g key s :
  os_fail w (trace s ++ [Chdir (DATASETS_PATH g)]) (DATASETS_PATH g) = None ->
  DATASETS_PATH g ∉ dirs s ->
  (cell_download w g key s).2 = Raise (FileNotFoundError (DATASETS_PATH g)) /\
  trace (cell_download w g key s).1 = trace s ++ [Chdir (DATASETS_PATH g)] /\
  cwd (cell_download w g key s).1 = cwd s.
Proof.
  intros Hos Hnot. unfold cell_download.
  rewrite (bind_raise _ _ _ _ _ (os_chdir_missing w _ s Hos Hnot)). auto.
Qed.

Lemma download_without_datasets_dir_witness :
  (cell_download Sample.quiet_world Sample.globals (Some "key")
     (Sample.fresh ∅)).2
  = Raise (FileNotFoundError (DATASETS_PATH Sample.globals)).
Proof.
  refine (proj1 (download_without_datasets_dir Sample.quiet_world
                   Sample.globals (Some "key") (Sample.fresh ∅) eq_refl _)).
  apply (bool_decide_unpack _). vm_compute. exact I.
Defined.

(** X9.  Once the change of directory has succeeded, a run leaves the
    process in the datasets directory whatever happens next: whether the
    run returns or one of its later steps raises. *)
Theorem train_leaves_in_datasets_dir w g v e b o loc s :
  os_fail w (trace s ++ [Chdir (DATASETS_PATH g)]) (DATASETS_PATH g) = None ->
  DATASETS_PATH g ∈ dirs s ->
  cwd (train_yolo_with_wandb w g v e b o loc s).1 = DATASETS_PATH g.
Proof.
  intros Hos Hin. unfold train_yolo_with_wandb.
  destruct (os_chdir_moves w _ s Hos Hin) as (s1 & E & C).
  rewrite (bind_ok _ _ _ _ _ E), <- C.
  apply (train_rest_stays w g v e b o loc s1).
Qed.

Lemma train_leaves_in_datasets_dir_witness :
  cwd (train_yolo_with_wandb Sample.oom_world Sample.globals "n" 50 2 "Adam"
         "TA-5" Sample.before_grid).1
  = DATASETS_PATH Sample.globals.
Proof.
  refine (train_leaves_in_datasets_dir Sample.oom_world Sample.globals
            "n" 50 2 "Adam" "TA-5" Sample.before_grid eq_refl _).
  apply (bool_decide_unpack _). vm_compute. exact I.
Defined.

(** ** Names of runs and of their directories *)

Lemma bind_ok_inv {A B} (m : M A) (k : A -> M B) s s' b :
  bind m k s = (s', Ok b) ->
  exists s1 a, m s = (s1, Ok a) /\ k a s1 = (s', Ok b).
Proof.
  unfold bind. destruct (m s) as [s1 [a|x]]; [eauto|discriminate].
Qed.

Lemma run_name_inj v e b o v' e' b' o' :
  Py.occurs "-" v = false -> Py.occurs "-" v' = false ->
  run_name v e b o = run_name v' e' b' o' ->
  v = v' /\ e = e' /\ b = b' /\ o = o'.
Proof.
  intros Hv Hv'. unfold run_name. intros H.
  apply String.app_inj in H.
  change ("-" +:+ experiment_name e b o)
    with (String "-" (experiment_name e b o)) in H.
  change ("-" +:+ experiment_name e' b' o')
    with (String "-" (experiment_name e' b' o')) in H.
  apply PyFacts.cut_unique in H as [-> H]; [|assumption..].
  apply PathFacts.experiment_name_inj in H. tauto.
Qed.

Lemma save_dir_inj home v e b o v' e' b' o' :
  well_formed home = true ->
  Py.occurs "/" v = false -> Py.occurs "/" o = false ->
  Py.occurs "/" v' = false -> Py.occurs "/" o' = false ->
  Pathlib.str (experiment_path home v e b o)
  = Pathlib.str (experiment_path home v' e' b' o') ->
  v = v' /\ e = e' /\ b = b' /\ o = o'.
Proof.
  intros Hh Hv Ho Hv' Ho' E.
  apply PathStr.str_inj in E; try now apply PathStr.experiment_path_well_formed.
  now apply (PathFacts.experiment_path_inj home).
Qed.

(** X10.  The directory of a run is handed to the trainer and to the
    tracking service as a string, and it is the same string; when [HOME]
    is a path as [pathlib] builds them, two runs that differ in the model
    size, the number of epochs, the batch size or the optimizer (neither
    name containing a slash) are given different strings. *)
Theorem save_dir_unique g v e b o v' e' b' o' loc loc' av av' :
  well_formed (HOME g) = true ->
  Py.occurs "/" v = false -> Py.occurs "/" o = false ->
  Py.occurs "/" v' = false -> Py.occurs "/" o' = false ->
  (v, e, b, o) <> (v', e', b', o') ->
  Wandb.dir (wandb_args g v e b o)
  = Yolo.save_dir (yolo_train_args g v e b o loc av) /\
  Yolo.save_dir (yolo_train_args g v e b o loc av)
  <> Yolo.save_dir (yolo_train_args g v' e' b' o' loc' av').
Proof.
  intros Hh Hv Ho Hv' Ho' Hne. split; [reflexivity|].
  cbn [yolo_train_args Yolo.save_dir]. intros E. apply Hne.
  apply save_dir_inj in E; try assumption.
  destruct E as (-> & -> & -> & ->). reflexivity.
Qed.

Lemma save_dir_unique_witness :
  Yolo.save_dir (yolo_train_args Sample.globals "n" 50 2 "Adam" "TA-5" true)
  <> Yolo.save_dir (yolo_train_args Sample.globals "n" 50 2 "SGD" "TA-5" true).
Proof.
  refine (proj2 (save_dir_unique Sample.globals "n" 50 2 "Adam" "n" 50 2 "SGD"
                   "TA-5" "TA-5" true true _ eq_refl eq_refl eq_refl eq_refl _)).
  - vm_compute. reflexivity.
  - intros E. apply (f_equal snd) in E. discriminate E.
Defined.

(** X11.  Runs are told apart by their name on the tracking service as
    well: for model sizes without a hyphen, two runs with the same name
    have the same four values. *)
Theorem run_name_unique g v e b o v' e' b' o' :
  Py.occurs "-" v = false -> Py.occurs "-" v' = false ->
  (v, e, b, o) <> (v', e', b', o') ->
  Wandb.name (wandb_args g v e b o) <> Wandb.name (wandb_args g v' e' b' o').
Proof.
  intros Hv Hv' Hne E. apply Hne. cbn [wandb_args Wandb.name] in E.
  apply run_name_inj in E; try assumption.
  destruct E as (-> & -> & -> & ->). reflexivity.
Qed.

Lemma run_name_unique_witness :
  Wandb.name (wandb_args Sample.globals "n" 50 2 "Adam")
  <> Wandb.name (wandb_args Sample.globals "s" 50 2 "Adam").
Proof.
  refine (run_name_unique Sample.globals "n" 50 2 "Adam" "s" 50 2 "Adam"
            eq_refl eq_refl _).
  intros E. apply (f_equal (fun c => c.1.1.1)) in E. discriminate E.
Defined.

(** ** The credential cell *)

Lemma ensure_package_installed_environ w pkg imp ver s :
  environ (ensure_package_installed w pkg imp ver s).1 = environ s.
Proof.
  apply (follows_keeps_environ (ensure_package_installed w pkg imp ver)).
  now apply ensure_package_installed_follows.
Qed.

Lemma call_environ w e s : environ (call w e s).1 = environ s.
Proof. apply call_emitted. Qed.

(** When the credential cell returns, it returns the value the
    environment holds for the credential once the [.env] file has been
    loaded, and that value is not empty. *)
Lemma cell_roboflow_env_returns w s s' key :
  cell_roboflow_env w s = (s', Ok key) ->
  key = environ_at_check w s !! credential /\
  Py.truthy_opt key = true /\
  environ s' = environ_at_check w s.
Proof.
  unfold cell_roboflow_env. intros E.
  apply bind_ok_inv in E as (s1 & [] & E1 & E).
  apply bind_ok_inv in E as (s2 & [] & E2 & E).
  apply bind_ok_inv in E as (s3 & [] & E3 & E).
  apply bind_ok_inv in E as (s4 & [] & E4 & E).
  apply bind_ok_inv in E as (s5 & [] & E5 & E).
  assert (V : environ s4 = environ s).
  { pose proof (ensure_package_installed_environ w "python-dotenv"
                  (Some "dotenv") "" s) as V1.
    pose proof (ensure_package_installed_environ w "roboflow" None "" s1) as V2.
    pose proof (call_environ w (ImportModule "dotenv") s2) as V3.
    pose proof (call_environ w (ImportModule "roboflow") s3) as V4.
    rewrite E1 in V1. rewrite E2 in V2. rewrite E3 in V3. rewrite E4 in V4.
    simpl in *. congruence. }
  unfold load_dotenv in E5.
  apply bind_ok_inv in E5 as (s4' & [] & E5' & E5).
  pose proof (call_environ w LoadDotenv s4) as V5. rewrite E5' in V5.
  simpl in V5. injection E5 as <-.
  unfold bind, os_getenv in E. cbn [environ] in E.
  rewrite V5, V in E. fold (environ_at_check w s) in E.
  change "ROBOFLOW_API_KEY" with credential in E.
  destruct (Py.truthy_opt (environ_at_check w s !! credential)) eqn:Ht;
    simpl in E; [|discriminate].
  injection E as <- <-. auto.
Qed.

(** X13.  Where the key comes from.  [load_dotenv()] does not override:
    when the credential cell returns, the key is the value of
    [ROBOFLOW_API_KEY] in [os.environ] if the variable is set there, and
    the one of the [.env] file otherwise; it is not empty; and the
    bindings of the file stay in [os.environ] for the cells that
    follow. *)
Theorem credential_resolution w s s' key :
  cell_roboflow_env w s = (s', Ok key) ->
  key = match environ s !! credential with
        | Some v => Some v
        | None => dotenv_file w !! credential
        end /\
  Py.truthy_opt key = true /\
  environ s' = environ s ∪ dotenv_file w.
Proof.
  intros E. apply cell_roboflow_env_returns in E as (-> & Ht & V).
  split; [|split; [exact Ht|exact V]].
  unfold environ_at_check.
  destruct (environ s !! credential) as [v|] eqn:Ev.
  - now apply lookup_union_Some_l.
  - now apply lookup_union_r.
Qed.

Lemma credential_resolution_witness :
  environ (cell_roboflow_env Scenario.key_in_dotenv (Sample.fresh ∅)).1
  = environ (Sample.fresh ∅) ∪ dotenv_file Scenario.key_in_dotenv.
Proof.
  set (r := cell_roboflow_env Scenario.key_in_dotenv (Sample.fresh ∅)).
  assert (H2 : r.2 = Ok (Some "from-dotenv")) by (vm_compute; reflexivity).
  assert (Hr : r = (r.1, Ok (Some "from-dotenv")))
    by (rewrite <- H2; apply surjective_pairing).
  exact (proj2 (proj2 (credential_resolution Scenario.key_in_dotenv
                         (Sample.fresh ∅) r.1 (Some "from-dotenv") Hr))).
Defined.

(** ** The grid search in any world *)

(** However the runs end, the loop has gone through the first [k] cells
    completely, in order, and then at most through an initial segment of
    the run of cell [k]; it returns only after the last cell. *)
Lemma run_cells_shape w g loc cs s :
  exists k avs last,
    length avs = k /\ (k <= length cs)%nat /\
    trace (for_each cs (run_cell w g loc) s).1
    = trace s ++ concat (zip_with (run_events g loc) (take k cs) avs) ++ last /\
    (last = [] \/
     exists c av, cs !! k = Some c /\ last `prefix_of` run_events g loc c av) /\
    ((for_each cs (run_cell w g loc) s).2 = Ok tt ->
     k = length cs /\ last = []) /\
    (forall x, (for_each cs (run_cell w g loc) s).2 = Raise x ->
     exists c av, cs !! k = Some c /\ last `prefix_of` run_events g loc c av).
Proof.
  revert s. induction cs as [|c cs IH]; intros s.
  - exists 0%nat, [], []. simpl. rewrite app_nil_r.
    repeat split; auto. intros x [=].
  - destruct c as [[[v e] b] o]. cbn [for_each run_cell].
    destruct (train_cell w g v e b o loc s)
      as (evs & av & [T _] & Hpre & Hok & _).
    unfold bind.
    destruct (train_yolo_with_wandb w g v e b o loc s) as [s1 [[]|x]] eqn:E;
      simpl in T, Hok.
    + destruct (IH s1) as (k & avs & last & Hl & Hk & Ht & Hlast & Hret & Hraise).
      exists (S k), (av :: avs), last.
      split; [simpl; now rewrite Hl|]. split; [simpl; lia|].
      split.
      { rewrite Ht, T, (Hok eq_refl). cbn [take zip_with concat run_events].
        now rewrite <- !app_assoc. }
      split; [exact Hlast|].
      split; [|exact Hraise].
      intros H. destruct (Hret H) as [-> ->]. auto.
    + exists 0%nat, [], evs. simpl.
      split; [reflexivity|]. split; [lia|]. split; [exact T|].
      split; [right; exists (v, e, b, o), av; auto|].
      split; [intros [=]|]. intros y _. exists (v, e, b, o), av. auto.
Qed.

(** *** Counting tracking sessions *)

Lemma sessions_opened_app a b :
  sessions_opened (a ++ b) = (sessions_opened a + sessions_opened b)%nat.
Proof. unfold sessions_opened. now rewrite List.filter_app, length_app. Qed.

Lemma sessions_closed_app a b :
  sessions_closed (a ++ b) = (sessions_closed a + sessions_closed b)%nat.
Proof. unfold sessions_closed. now rewrite List.filter_app, length_app. Qed.

Lemma sessions_none evs :
  Forall (fun e => training_event e = false) evs ->
  sessions_opened evs = 0%nat /\ sessions_closed evs = 0%nat.
Proof.
  induction 1 as [|e evs He _ [IH1 IH2]]; [now split|].
  change (e :: evs) with ([e] ++ evs).
  rewrite sessions_opened_app, sessions_closed_app, IH1, IH2.
  now destruct e.
Qed.

Lemma sessions_runs g loc cs avs :
  length avs = length cs ->
  sessions_opened (concat (zip_with (run_events g loc) cs avs)) = length cs /\
  sessions_closed (concat (zip_with (run_events g loc) cs avs)) = length cs.
Proof.
  revert avs. induction cs as [|c cs IH]; intros [|av avs] Hl;
    try discriminate; [now split|].
  cbn [zip_with concat].
  rewrite sessions_opened_app, sessions_closed_app.
  destruct (IH avs) as [-> ->]; [now injection Hl|].
  now destruct c as [[[v e] b] o].
Qed.

Lemma sessions_partial g loc c av last :
  last `prefix_of` run_events g loc c av ->
  (sessions_opened last = sessions_closed last \/
   sessions_opened last = S (sessions_closed last)) /\
  (sessions_closed last <= 1)%nat.
Proof.
  destruct c as [[[v e] b] o]. intros [rest E].
  unfold run_events, cell_events in E.
  split_list last; cbn; auto.
Qed.


(** ** The order of the cells in any world *)

Lemma notebook_split w s :
  notebook w s = (p <- cells_before_download w ;; cells_from_download w p) s.
Proof.
  unfold notebook, cells_before_download, cells_from_download, bind, ret.
  destruct (cell_gpu_check w s) as [s1 [[]|x1]]; [|reflexivity].
  destruct (cell_project_dir w s1) as [s2 [g|x2]]; [|reflexivity].
  destruct (cell_install_yolo w s2) as [s3 [[]|x3]]; [|reflexivity].
  destruct (cell_test_inference w g s3) as [s4 [[]|x4]]; [|reflexivity].
  destruct (cell_roboflow_env w s4) as [s5 [key|x5]]; reflexivity.
Qed.

Lemma setup_single (h : list event) e :
  setup_event e = true -> Forall (fun e => setup_event e = true) [e].
Proof. intros He. repeat constructor. exact He. Qed.

Lemma cells_before_download_trace w :
  follows (reaches_trace (fun _ => Forall (fun e => setup_event e = true)))
    (cells_before_download w).
Proof.
  set (Q := fun _ : list event => Forall (fun e => setup_event e = true)).
  assert (Hw : forall A (m : M A),
             follows (reaches Q) m -> follows (reaches_trace Q) m).
  { intros A m Hm s. apply reaches_weaken, Hm. }
  unfold cells_before_download.
  apply follows_bind;
    [apply _|apply Hw, cell_gpu_check_follows; first [exact setup_single|apply _]|].
  intros _.
  apply follows_bind;
    [apply _|apply Hw, cell_project_dir_follows; first [exact setup_single|apply _]|].
  intros g.
  apply follows_bind;
    [apply _|apply Hw, cell_install_yolo_follows; first [exact setup_single|apply _]|].
  intros _.
  apply follows_bind;
    [apply _|apply Hw, cell_test_inference_follows; first [exact setup_single|apply _]|].
  intros _.
  apply follows_bind;
    [apply _|apply cell_roboflow_env_follows; first [exact setup_single|apply _]|].
  intros key. apply follows_ret. apply _.
Qed.

Lemma cells_before_download_returns w s s' g key :
  cells_before_download w s = (s', Ok (g, key)) ->
  g = globals_of (cwd s) /\
  key = environ_at_check w s !! credential /\
  Py.truthy_opt key = true.
Proof.
  assert (HT : forall (h : list event) (e : event),
             setup_event e = true -> True) by auto.
  unfold cells_before_download. intros E.
  apply bind_ok_inv in E as (s1 & [] & E1 & E).
  apply bind_ok_inv in E as (s2 & g' & E2 & E).
  apply bind_ok_inv in E as (s3 & [] & E3 & E).
  apply bind_ok_inv in E as (s4 & [] & E4 & E).
  apply bind_ok_inv in E as (s5 & key' & E5 & E).
  injection E as <- <- <-.
  assert (C1 : cwd s1 = cwd s /\ environ s1 = environ s).
  { unfold cell_gpu_check, shell in E1. now injection E1 as <-. }
  destruct C1 as [C1 V1].
  pose proof (cell_project_dir_value w s1 g') as Hg.
  rewrite E2 in Hg. specialize (Hg eq_refl). rewrite C1 in Hg.
  pose proof (follows_keeps_environ _
                (cell_project_dir_follows w (fun _ _ => True) HT) s1) as V2.
  pose proof (follows_keeps_environ _
                (cell_install_yolo_follows w (fun _ _ => True) HT) s2) as V3.
  pose proof (follows_keeps_environ _
                (cell_test_inference_follows w (fun _ _ => True) HT g') s3) as V4.
  rewrite E2 in V2. rewrite E3 in V3. rewrite E4 in V4. simpl in V2, V3, V4.
  apply cell_roboflow_env_returns in E5 as (Hk & Ht & _).
  split; [exact Hg|]. split; [|exact Ht].
  rewrite Hk. unfold environ_at_check. congruence.
Qed.

Lemma emits_in_order_ret {A} (a : A) : emits_in_order [] (ret a).
Proof.
  intros s. exists []. simpl. rewrite app_nil_r. repeat split. now exists [].
Qed.

Lemma emits_in_order_call w e : emits_in_order [e] (call w e).
Proof.
  intros s. exists [e]. split; [apply call_emitted|]. split; [now exists []|auto].
Qed.

Lemma emits_in_order_os_chdir w p : emits_in_order [Chdir p] (os_chdir w p).
Proof.
  intros s. exists [Chdir p]. split; [apply os_chdir_emitted|].
  split; [now exists []|auto].
Qed.

Lemma emits_in_order_bind {A B} es1 es2 (m : M A) (k : A -> M B) :
  emits_in_order es1 m -> (forall a, emits_in_order es2 (k a)) ->
  emits_in_order (es1 ++ es2) (bind m k).
Proof.
  intros Hm Hk s. destruct (Hm s) as (evs1 & T1 & P1 & F1). unfold bind.
  destruct (m s) as [s1 [a|x]]; simpl in *.
  - destruct (Hk a s1) as (evs2 & T2 & P2 & F2).
    rewrite (F1 a eq_refl) in *. exists (es1 ++ evs2).
    split; [now rewrite T2, T1, app_assoc|].
    split; [now apply prefix_app|].
    intros b Hb. now rewrite (F2 b Hb).
  - exists evs1. split; [exact T1|].
    split; [now apply prefix_app_r|]. intros b [=].
Qed.

(** The download cell: the calls in order, up to the first that
    raises. *)
Lemma cell_download_in_order w g key :
  emits_in_order (download_events g key) (cell_download w g key).
Proof.
  unfold cell_download, download_events.
  apply (emits_in_order_bind [_] [_; _; _; _; _]);
    [apply emits_in_order_os_chdir|]; intros _.
  apply (emits_in_order_bind [_] [_; _; _; _]);
    [apply emits_in_order_call|]; intros _.
  apply (emits_in_order_bind [_] [_; _; _]);
    [apply emits_in_order_call|]; intros _.
  apply (emits_in_order_bind [_] [_; _]);
    [apply emits_in_order_call|]; intros _.
  apply (emits_in_order_bind [_] [_]);
    [apply emits_in_order_call|]; intros _.
  apply (emits_in_order_bind [_] []);
    [apply emits_in_order_call|]; intros _.
  apply (emits_in_order_bind [] []); [|intros s'; apply emits_in_order_ret].
  intros s. exists []. simpl. rewrite app_nil_r. repeat split. now exists [].
Qed.

Lemma login_single e :
  login_event e = true -> Forall (fun e => login_event e = true) [e].
Proof. intros He. repeat constructor. exact He. Qed.

(** The Weights & Biases cell: only imports, installs, the login and
    prints; when it returns, the login is among them. *)
Lemma cell_wandb_setup_trace w s :
  exists evs,
    trace (cell_wandb_setup w s).1 = trace s ++ evs /\
    Forall (fun e => login_event e = true) evs /\
    ((cell_wandb_setup w s).2 = Ok tt -> In WandbLogin evs).
Proof.
  set (Q := fun _ : list event => Forall (fun e => login_event e = true)).
  assert (HQ : forall (h : list event) e, setup_event e = true -> Q h [e]).
  { intros h e He. apply login_single. now destruct e. }
  assert (Hf : follows (reaches Q) (cell_wandb_setup w)).
  { unfold cell_wandb_setup.
    do 2 (apply follows_bind;
          [apply _|apply ensure_package_installed_follows;
                   first [exact HQ|apply _]|]; intros _).
    do 2 (apply follows_bind;
          [apply _|apply call_follows; first [exact HQ|reflexivity|apply _]|];
          intros _).
    apply follows_bind; [apply _| |intros _].
    { intros s0. exists [WandbLogin]. split; [apply call_emitted|].
      now apply login_single. }
    apply follows_bind;
      [apply _|apply log_follows; first [exact HQ|reflexivity|apply _]|].
    intros _. apply log_follows; first [exact HQ|reflexivity|apply _]. }
  destruct (Hf s) as (evs & [T _] & F).
  exists evs. split; [exact T|]. split; [exact F|].
  destruct (cell_wandb_setup w s) as [s' [[]|x]] eqn:E; [|discriminate].
  intros _. simpl in T. unfold cell_wandb_setup in E.
  apply bind_ok_inv in E as (s1 & [] & E1 & E).
  apply bind_ok_inv in E as (s2 & [] & E2 & E).
  apply bind_ok_inv in E as (s3 & [] & E3 & E).
  apply bind_ok_inv in E as (s4 & [] & E4 & E).
  apply bind_ok_inv in E as (s5 & [] & E5 & E).
  assert (T4 : exists a, trace s4 = trace s ++ a).
  { assert (Hg : follows (reaches_trace (fun _ _ => True))
                   (ensure_package_installed w "wandb" None "" ;;
                    ensure_package_installed w "torch" None "" ;;
                    call w (ImportModule "wandb") ;;
                    call w (ImportModule "torch"))).
    { assert (HT : forall (h : list event) (e : event),
                 setup_event e = true -> True) by auto.
      assert (Hw : forall A (m : M A),
                 follows (reaches (fun _ _ => True)) m ->
                 follows (reaches_trace (fun _ _ => True)) m).
      { intros A m Hm s0. apply reaches_weaken, Hm. }
      do 2 (apply follows_bind;
            [apply _|apply Hw, ensure_package_installed_follows;
                     first [exact HT|apply _]|]; intros _).
      apply follows_bind;
        [apply _|apply Hw, call_follows; first [exact HT|reflexivity|apply _]|].
      intros _. apply Hw, call_follows; first [exact HT|reflexivity|apply _]. }
    destruct (Hg s) as (a & Ta & _). exists a.
    rewrite <- Ta. unfold bind. rewrite E1, E2, E3, E4. reflexivity. }
  destruct T4 as (a & T4).
  pose proof (call_emitted w WandbLogin s4) as [T5 _]. rewrite E5 in T5.
  simpl in T5.
  unfold bind, log in E. injection E as <-. simpl in T.
  rewrite T5, T4, <- !app_assoc in T. apply app_inv_head in T. subst evs.
  apply in_or_app. right. simpl. auto.
Qed.

(** What a run of the notebook emits, in any world: events of the cells
    up to the credential check; then the calls of the download cell, made
    with the key found in the environment, which is not empty; then the
    events of the Weights & Biases cell; then the runs of the grid
    search.  A part is only entered when the part before it has been
    completed. *)
Lemma notebook_anatomy w s :
  let g := globals_of (cwd s) in
  let key := environ_at_check w s !! credential in
  let loc := grid_dataset_location g in
  let cells := grid_cells versions epochs batch_sizes optimizers in
  exists setup fetch login k avs last,
    trace (notebook w s).1
    = trace s ++ setup ++ fetch ++ login
      ++ concat (zip_with (run_events g loc) (take k cells) avs) ++ last /\
    Forall (fun e => setup_event e = true) setup /\
    fetch `prefix_of` download_events g key /\
    (fetch <> [] -> Py.truthy_opt key = true) /\
    Forall (fun e => login_event e = true) login /\
    length avs = k /\ (k <= length cells)%nat /\
    (last = [] \/
     exists c av, cells !! k = Some c /\ last `prefix_of` run_events g loc c av) /\
    (k <> 0%nat \/ last <> [] ->
     fetch = download_events g key /\ In WandbLogin login) /\
    ((notebook w s).2 = Ok tt -> k = length cells /\ last = []).
Proof.
  intros g key loc cells. rewrite notebook_split.
  destruct (cells_before_download_trace w s) as (setup & T0 & F0).
  destruct (cells_before_download w s) as [s1 [[g' key']|x]] eqn:E0;
    simpl in T0.
  2:{ rewrite (bind_raise _ _ _ _ _ E0).
      exists setup, [], [], 0%nat, [], []. simpl. rewrite !app_nil_r.
      split; [exact T0|]. split; [exact F0|].
      split; [apply prefix_nil|]. split; [congruence|].
      split; [constructor|]. split; [reflexivity|]. split; [lia|].
      split; [now left|]. split; [intros [?|?]; congruence|intros [=]]. }
  rewrite (bind_ok _ _ _ _ _ E0).
  apply cells_before_download_returns in E0 as (Hg & Hk & Ht).
  fold g in Hg. fold key in Hk. subst g' key'.
  unfold cells_from_download. cbn [fst snd].
  destruct (cell_download_in_order w g key s1) as (fetch & T1 & P1 & F1).
  destruct (cell_download w g key s1) as [s2 [dataset|x]] eqn:E1; simpl in T1, F1.
  2:{ rewrite (bind_raise _ _ _ _ _ E1).
      exists setup, fetch, [], 0%nat, [], []. simpl. rewrite !app_nil_r.
      split; [now rewrite T1, T0, app_assoc|]. split; [exact F0|].
      split; [exact P1|]. split; [auto|].
      split; [constructor|]. split; [reflexivity|]. split; [lia|].
      split; [now left|]. split; [intros [?|?]; congruence|intros [=]]. }
  rewrite (bind_ok _ _ _ _ _ E1).
  specialize (F1 dataset eq_refl). subst fetch.
  destruct (cell_wandb_setup_trace w s2) as (login & T2 & F2 & In2).
  destruct (cell_wandb_setup w s2) as [s3 [[]|x]] eqn:E2; simpl in T2, In2.
  2:{ rewrite (bind_raise _ _ _ _ _ E2).
      exists setup, (download_events g key), login, 0%nat, [], [].
      cbn [take zip_with concat fst snd]. rewrite !app_nil_r.
      split; [now rewrite T2, T1, T0, <- !app_assoc|]. split; [exact F0|].
      split; [exact P1|]. split; [auto|].
      split; [exact F2|]. split; [reflexivity|]. split; [lia|].
      split; [now left|]. split; [intros [?|?]; congruence|intros [=]]. }
  rewrite (bind_ok _ _ _ _ _ E2).
  unfold cell_grid_search. fold loc. rewrite grid_loop_flat. fold cells.
  destruct (run_cells_shape w g loc cells s3)
    as (k & avs & last & Hl & Hle & Ht3 & Hlast & Hret & _).
  exists setup, (download_events g key), login, k, avs, last.
  split; [now rewrite Ht3, T2, T1, T0, <- !app_assoc|]. split; [exact F0|].
  split; [exact P1|]. split; [auto|].
  split; [exact F2|]. split; [exact Hl|]. split; [exact Hle|].
  split; [exact Hlast|]. split; [auto|exact Hret].
Qed.

(** *** Consequences *)

Lemma split_after (P : event -> bool) N G pre e post :
  Forall (fun x => P x = false) N -> P e = true ->
  N ++ G = pre ++ e :: post -> exists pre', pre = N ++ pre'.
Proof.
  intros HN He. revert pre. induction HN as [|n N Hn _ IH]; intros pre E.
  - now exists pre.
  - destruct pre as [|p pre]; simpl in E.
    + injection E as -> _. congruence.
    + injection E as -> E. destruct (IH pre E) as (pre' & ->). now exists pre'.
Qed.

Lemma download_prefix_quiet g key fetch :
  fetch `prefix_of` download_events g key ->
  Forall (fun e => training_event e = false) fetch /\
  forall k, In (RoboflowInit k) fetch -> k = key.
Proof.
  intros [rest E]. split.
  - assert (F : Forall (fun e => training_event e = false)
                  (download_events g key)) by (repeat constructor).
    rewrite E in F. now apply Forall_app in F.
  - intros k Hin.
    assert (H : In (RoboflowInit k) (download_events g key)).
    { rewrite E. apply in_or_app. now left. }
    simpl in H.
    repeat (destruct H as [H|H]; [try discriminate H|]); [|contradiction].
    now injection H.
Qed.

Lemma run_events_steps g loc c av :
  Forall (fun e => run_step_event e = true) (run_events g loc c av).
Proof. destruct c as [[[v e] b] o]. repeat constructor. Qed.

Lemma runs_steps g loc cs avs :
  Forall (fun e => run_step_event e = true)
    (concat (zip_with (run_events g loc) cs avs)).
Proof.
  revert avs. induction cs as [|c cs IH]; intros [|av avs]; try constructor.
  cbn [zip_with concat]. apply Forall_app. split; [apply run_events_steps|apply IH].
Qed.

Lemma last_steps g loc (cells : list run_config) (k : nat) last :
  (last = [] \/
   exists c av, cells !! k = Some c /\ last `prefix_of` run_events g loc c av) ->
  Forall (fun e => run_step_event e = true) last.
Proof.
  intros [->|(c & av & _ & [rest E])]; [constructor|].
  pose proof (run_events_steps g loc c av) as F. rewrite E in F.
  now apply Forall_app in F.
Qed.

Lemma Forall_weaken (P Q : event -> bool) b b' l :
  (forall e, P e = b -> Q e = b') ->
  Forall (fun e => P e = b) l -> Forall (fun e => Q e = b') l.
Proof. intros H F. eapply Forall_impl; [exact F|exact H]. Qed.

Lemma login_not_training e : login_event e = true -> training_event e = false.
Proof. now destruct e. Qed.

(** X15.  No training before the data and the login.  Whatever fails,
    an event of a training run (opening a tracking session, loading a
    checkpoint, querying the accelerator, training, closing the session)
    is only emitted after the dataset download and the Weights & Biases
    login have returned, and after Roboflow was given the key found in
    the environment. *)
Theorem training_after_download_and_login w s :
  exists evs,
    trace (notebook w s).1 = trace s ++ evs /\
    forall pre e post, evs = pre ++ e :: post -> training_event e = true ->
      In (RoboflowInit (environ_at_check w s !! credential)) pre /\
      In (RoboflowDownload "yolov8") pre /\
      In WandbLogin pre.
Proof.
  destruct (notebook_anatomy w s)
    as (setup & fetch & login & k & avs & last & T & F0 & P1 & _ & F2 & Hl
        & _ & Hlast & Hgrid & _).
  eexists. split; [exact T|]. intros pre e post E He.
  rewrite !app_assoc in E. rewrite <- (app_assoc _ _ last) in E.
  assert (FN : Forall (fun x => training_event x = false)
                 ((setup ++ fetch) ++ login)).
  { repeat apply Forall_app_2;
      [exact (Forall_weaken _ _ _ _ _ setup_not_training F0)
      |exact (proj1 (download_prefix_quiet _ _ _ P1))
      |exact (Forall_weaken _ _ _ _ _ login_not_training F2)]. }
  destruct (split_after training_event _ _ _ _ _ FN He E) as (pre' & ->).
  rewrite <- (app_assoc _ pre') in E. apply app_inv_head in E.
  destruct Hgrid as [-> Hin].
  { destruct k as [|k]; [|now left]. right. intros ->.
    destruct avs; [|discriminate Hl]. now destruct pre'. }
  split; [|split]; apply in_or_app; left; apply in_or_app.
  - left. apply in_or_app. right. simpl. auto.
  - left. apply in_or_app. right. simpl. auto 10.
  - now right.
Qed.

(** X16.  Roboflow is never initialised without a key: in any run of
    the notebook, the key handed to [Roboflow(api_key=...)] is the value
    of [ROBOFLOW_API_KEY] in the environment once the [.env] file has
    been loaded, and it is neither [None] nor empty. *)
Theorem roboflow_gets_resolved_key w s :
  exists evs,
    trace (notebook w s).1 = trace s ++ evs /\
    forall k, In (RoboflowInit k) evs ->
      k = environ_at_check w s !! credential /\ Py.truthy_opt k = true.
Proof.
  destruct (notebook_anatomy w s)
    as (setup & fetch & login & n & avs & last & T & F0 & P1 & Ht & F2 & _
        & _ & Hlast & _ & _).
  eexists. split; [exact T|]. intros k Hin.
  assert (Hno : forall l,
             Forall (fun e => run_step_event e = true) l ->
             ~ In (RoboflowInit k) l).
  { intros l F H. rewrite List.Forall_forall in F. apply F in H. discriminate. }
  apply in_app_or in Hin as [Hin|Hin].
  { rewrite List.Forall_forall in F0. apply F0 in Hin. discriminate. }
  apply in_app_or in Hin as [Hin|Hin].
  { pose proof (proj2 (download_prefix_quiet _ _ _ P1) k Hin) as ->.
    split; [reflexivity|]. apply Ht. intros ->. contradiction. }
  apply in_app_or in Hin as [Hin|Hin].
  { rewrite List.Forall_forall in F2. apply F2 in Hin. discriminate. }
  apply in_app_or in Hin as [Hin|Hin].
  - exfalso. exact (Hno _ (runs_steps _ _ _ _) Hin).
  - exfalso. exact (Hno _ (last_steps _ _ _ _ _ Hlast) Hin).
Qed.

(** X17.  Tracking sessions in a run of the notebook.  Sessions are
    opened and closed one at a time: at any end of the notebook, every
    session that was opened has been closed, except possibly the one of
    the run in which the notebook stopped.  When the notebook returns,
    160 sessions were opened and 160 closed. *)
Theorem sessions_balanced w s :
  exists evs,
    trace (notebook w s).1 = trace s ++ evs /\
    (sessions_opened evs = sessions_closed evs \/
     sessions_opened evs = S (sessions_closed evs)) /\
    ((notebook w s).2 = Ok tt ->
     sessions_opened evs = 160%nat /\ sessions_closed evs = 160%nat).
Proof.
  destruct (notebook_anatomy w s)
    as (setup & fetch & login & k & avs & last & T & F0 & P1 & _ & F2 & Hl
        & Hle & Hlast & _ & Hret).
  eexists. split; [exact T|].
  destruct (sessions_none setup
              (Forall_weaken _ _ _ _ _ setup_not_training F0)) as [O0 C0].
  destruct (sessions_none fetch (proj1 (download_prefix_quiet _ _ _ P1)))
    as [O1 C1].
  destruct (sessions_none login
              (Forall_weaken _ _ _ _ _ login_not_training F2)) as [O2 C2].
  set (cells := grid_cells versions epochs batch_sizes optimizers) in *.
  destruct (sessions_runs (globals_of (cwd s))
              (grid_dataset_location (globals_of (cwd s)))
              (take k cells) avs) as [O3 C3].
  { rewrite length_take. lia. }
  rewrite length_take in O3, C3.
  rewrite !sessions_opened_app, !sessions_closed_app, O0, O1, O2, O3, C0, C1,
    C2, C3.
  replace (k `min` length cells)%nat with k by lia.
  split.
  - destruct Hlast as [->|(c & av & _ & Hp)]; [left; reflexivity|].
    apply sessions_partial in Hp as [[Hp|Hp] _]; rewrite Hp; [left|right]; lia.
  - intros H. destruct (Hret H) as [-> ->].
    change (length cells) with 160%nat. split; reflexivity.
Qed.

(** ** Where a run of the notebook ends *)

Lemma os_chdir_returns w p s s1 :
  os_chdir w p s = (s1, Ok tt) -> cwd s1 = p.
Proof.
  unfold os_chdir, bind, log. simpl.
  destruct (os_fail w _ p); [discriminate|].
  case_bool_decide; [|discriminate]. now intros [= <-].
Qed.

Lemma train_returns_cwd w g v e b o loc s s' :
  train_yolo_with_wandb w g v e b o loc s = (s', Ok tt) ->
  cwd s' = DATASETS_PATH g.
Proof.
  unfold train_yolo_with_wandb. intros E.
  apply bind_ok_inv in E as (s1 & [] & E1 & E).
  apply os_chdir_returns in E1 as <-.
  pose proof (train_rest_stays w g v e b o loc s1) as H.
  unfold stays in H. now rewrite E in H.
Qed.

Lemma run_cells_returns_cwd w g loc cs s s' :
  cs <> [] -> for_each cs (run_cell w g loc) s = (s', Ok tt) ->
  cwd s' = DATASETS_PATH g.
Proof.
  revert s. induction cs as [|c cs IH]; intros s Hne E; [congruence|].
  cbn [for_each] in E. apply bind_ok_inv in E as (s1 & [] & E1 & E).
  destruct cs as [|c' cs].
  - injection E as <-. destruct c as [[[v e] b] o].
    now apply train_returns_cwd in E1.
  - now apply (IH s1).
Qed.

(** The download cell moves to the datasets directory and stays there. *)
Lemma cell_download_returns_cwd w g key s s' loc :
  cell_download w g key s = (s', Ok loc) ->
  cwd s' = DATASETS_PATH g /\ loc = download_location w (trace s').
Proof.
  unfold cell_download. intros E.
  apply bind_ok_inv in E as (s1 & [] & E1 & E).
  apply os_chdir_returns in E1.
  apply bind_ok_inv in E as (s2 & [] & E2 & E).
  apply bind_ok_inv in E as (s3 & [] & E3 & E).
  apply bind_ok_inv in E as (s4 & [] & E4 & E).
  apply bind_ok_inv in E as (s5 & [] & E5 & E).
  apply bind_ok_inv in E as (s6 & [] & E6 & E).
  unfold bind, get_state, ret in E. injection E as <- <-.
  split; [|reflexivity].
  pose proof (call_stays w (RoboflowInit key) s1) as C2.
  pose proof (call_stays w (RoboflowWorkspace "i-wayan-agus-darmawan-siflb") s2)
    as C3.
  pose proof (call_stays w (RoboflowProject "ta-o2kfq") s3) as C4.
  pose proof (call_stays w (RoboflowVersion 5) s4) as C5.
  pose proof (call_stays w (RoboflowDownload "yolov8") s5) as C6.
  unfold stays in *. rewrite E2 in C2. rewrite E3 in C3. rewrite E4 in C4.
  rewrite E5 in C5. rewrite E6 in C6. simpl in *. congruence.
Qed.

(** X18.  The download cell in any world: it changes into the datasets
    directory, then calls Roboflow with the key, the workspace, the
    project, version 5 and the export format, in this order, and stops
    at the first call that raises.  When it returns, all six steps were
    taken, the process is in the datasets directory, and the location
    it binds is the one the provider reported after the download. *)
Theorem download_steps_in_order w g key s :
  exists evs,
    trace (cell_download w g key s).1 = trace s ++ evs /\
    evs `prefix_of`
      [ Chdir (DATASETS_PATH g);
        RoboflowInit key;
        RoboflowWorkspace "i-wayan-agus-darmawan-siflb";
        RoboflowProject "ta-o2kfq";
        RoboflowVersion 5;
        RoboflowDownload "yolov8" ] /\
    forall loc, (cell_download w g key s).2 = Ok loc ->
      length evs = 6%nat /\
      cwd (cell_download w g key s).1 = DATASETS_PATH g /\
      loc = download_location w (trace s ++ evs).
Proof.
  destruct (cell_download_in_order w g key s) as (evs & T & P & F).
  exists evs. split; [exact T|]. split; [exact P|].
  intros loc H.
  assert (E : cell_download w g key s = ((cell_download w g key s).1, Ok loc))
    by (rewrite <- H; apply surjective_pairing).
  apply cell_download_returns_cwd in E as [C L].
  rewrite (F loc H) in *. split; [reflexivity|]. split; [exact C|].
  rewrite <- T. exact L.
Qed.

Lemma notebook_returns_cwd w s s' :
  notebook w s = (s', Ok tt) -> cwd s' = DATASETS_PATH (globals_of (cwd s)).
Proof.
  rewrite notebook_split. intros E.
  apply bind_ok_inv in E as (s1 & [g key] & E0 & E).
  apply cells_before_download_returns in E0 as (-> & _ & _).
  unfold cells_from_download in E. cbn [fst snd] in E.
  apply bind_ok_inv in E as (s2 & loc & _ & E).
  apply bind_ok_inv in E as (s3 & [] & _ & E).
  unfold cell_grid_search in E. rewrite grid_loop_flat in E.
  apply run_cells_returns_cwd in E; [exact E|discriminate].
Qed.

(** X19.  The whole notebook when nothing fails: no third-party call
    raises, the [%cd] magic included, which must accept [str(HOME)] as
    its argument, and the operating system refuses nothing.  Started
    then in a directory whose root exists, with a credential that is not
    empty in [os.environ] or in the [.env] file, the notebook returns;
    what it emits is a training-free part followed by the 160 runs of
    the grid search in the order of the loops; and it leaves the process
    in the datasets directory. *)
Theorem notebook_runs_to_completion w s :
  quiet w ->
  Pathlib.anchor (cwd s) ∈ dirs s ->
  Py.truthy_opt (environ_at_check w s !! credential) = true ->
  let g := globals_of (cwd s) in
  exists s' before availables,
    notebook w s = (s', Ok tt) /\
    Forall (fun e => training_event e = false) before /\
    length availables = 160%nat /\
    trace s' = trace s ++ before ++
      concat (zip_with (run_events g (grid_dataset_location g))
                (grid_cells versions epochs batch_sizes optimizers)
                availables) /\
    cwd s' = DATASETS_PATH g.
Proof.
  intros Hq Ha Ht g.
  destruct (notebook_quiet_run w Hq s Ha Ht)
    as (s' & before & avs & E & F & Hl & T).
  exists s', before, avs. repeat (split; [assumption|]).
  now apply notebook_returns_cwd in E.
Qed.

Lemma notebook_runs_to_completion_witness :
  exists s' before availables,
    notebook Sample.quiet_world
      (Sample.fresh {[ "ROBOFLOW_API_KEY" := "secret" ]}) = (s', Ok tt) /\
    Forall (fun e => training_event e = false) before /\
    length availables = 160%nat /\
    trace s' = [] ++ before ++
      concat (zip_with (run_events Sample.globals
                          (grid_dataset_location Sample.globals))
                (grid_cells versions epochs batch_sizes optimizers)
                availables) /\
    cwd s' = DATASETS_PATH Sample.globals.
Proof.
  refine (notebook_runs_to_completion Sample.quiet_world
            (Sample.fresh {[ "ROBOFLOW_API_KEY" := "secret" ]})
            quiet_sample _ _).
  - apply (bool_decide_unpack _). vm_compute. exact I.
  - vm_compute. reflexivity.
Defined.
